(** * The prediction query engine of the sports-predictor web API

    A shallow embedding of the route handler [GET] of the predictions API
    (the "Prediction Query & Aggregation Engine"): query-string parameters
    are filtered, sorted and paginated over the prediction records, and a
    summary is computed over the whole collection.  Its client is
    embedded beside it: the hooks [usePredictionsData],
    [usePerformanceData] and [useDashboardData] as state machines, and
    the handlers and the pager of the filter panel and of the predictions
    page as functions on the filters.

    Modelling conventions.
    - A JavaScript string is a [string] (a sequence of bytes, UTF-8).
    - A finite JavaScript number is the rational it denotes ([Q] for the
      record fields, [Z] where the code only produces integers); NaN is
      [None].  Integers are exact (no rounding beyond 2^53).
    - The built-ins whose results depend on the engine or on locale data
      ([parseInt], [toLowerCase], [localeCompare], [Date.parse]) are the
      operations of the class [Runtime]; [asciiRuntime] is an instance that
      is exact on ASCII text and on ISO-8601 UTC date strings.
    - An uncaught exception is [Throw]. *)

From Stdlib Require Import ZArith QArith Qround Lia Lqa List Ascii String Permutation Sorted.
From Stdlib Require Import DecimalString DecimalZ DecimalPos.
From stdpp Require Import base option list gmap strings.

Local Open Scope string_scope.
Local Open Scope Z_scope.

(* ================================================================== *)
(** * JavaScript values and built-ins                                   *)
(* ================================================================== *)

Module JS.

(** A number that may be NaN. *)
Definition number := option Q.

Definition sub (a b : number) : number :=
  match a, b with
  | Some x, Some y => Some (x - y)%Q
  | _, _ => None
  end.

Definition neg (a : number) : number :=
  match a with
  | Some x => Some (- x)%Q
  | None => None
  end.

Definition ofZ (z : option Z) : number :=
  match z with
  | Some n => Some (inject_Z n)
  | None => None
  end.

(** [a >= b] on numbers: false as soon as one side is NaN. *)
Definition ge (a b : number) : bool :=
  match a, b with
  | Some x, Some y => Qle_bool y x
  | _, _ => false
  end.

(** Exceptions and computations that may throw. *)
Inductive exn := RangeError.

Inductive result (A : Type) :=
  | Ok (a : A)
  | Throw (e : exn).
Arguments Ok {A} a.
Arguments Throw {A} e.

#[export] Instance result_ret : MRet result := fun A a => Ok a.
#[export] Instance result_bind : MBind result := fun A B f m =>
  match m with
  | Ok a => f a
  | Throw e => Throw e
  end.
#[export] Instance result_fmap : FMap result := fun A B f m =>
  match m with
  | Ok a => Ok (f a)
  | Throw e => Throw e
  end.

(** ** Strings *)

(** [s] used as a condition: [null] and the empty string are falsy. *)
Definition truthy (s : option string) : option string :=
  match s with
  | Some "" => None
  | Some v => Some v
  | None => None
  end.

(** [s || d] for a string [s] that may be [null]. *)
Definition orElse (s : option string) (d : string) : string :=
  match truthy s with
  | Some v => v
  | None => d
  end.

(** [s.includes(needle)] *)
Fixpoint includes (s needle : string) : bool :=
  String.prefix needle s ||
  match s with
  | EmptyString => false
  | String _ s' => includes s' needle
  end.

(** [s.split(c)[0]]: the part of [s] before the first [c]. *)
Fixpoint splitHead (c : ascii) (s : string) : string :=
  match s with
  | EmptyString => EmptyString
  | String a s' => if Ascii.eqb a c then EmptyString else String a (splitHead c s')
  end.

(** ** URLSearchParams *)

Definition URLSearchParams := list (string * string).

(** [searchParams.get(name)]: the first value given for [name], or [null]. *)
Fixpoint get (name : string) (ps : URLSearchParams) : option string :=
  match ps with
  | [] => None
  | (k, v) :: ps' => if String.eqb k name then Some v else get name ps'
  end.

(** ** Arrays *)

Section Arrays.
Context {A : Type}.

(** [a.filter(f)] for a callback that may throw: the callback runs on the
    elements in order and the first exception aborts the call. *)
Fixpoint filterM (f : A -> result bool) (l : list A) : result (list A) :=
  match l with
  | [] => Ok []
  | x :: l' =>
      b ← f x;
      r ← filterM f l';
      Ok (if b : bool then x :: r else r)
  end.

(** [a.sort(comparefn)].  The comparator's result is read as by
    SortCompare (NaN counts as +0); the sort is stable.  For a consistent
    comparator every stable sort computes the same array; the model is
    stable insertion: an element moves behind exactly those following
    elements it compares greater than. *)
Definition SortCompare (comparefn : A -> A -> number) (x y : A) : Q :=
  match comparefn x y with
  | Some v => v
  | None => 0%Q
  end.

Definition after (comparefn : A -> A -> number) (x y : A) : bool :=
  negb (Qle_bool (SortCompare comparefn x y) 0).

Fixpoint insert (comparefn : A -> A -> number) (x : A) (s : list A) : list A :=
  match s with
  | [] => [x]
  | y :: s' =>
      if after comparefn x y then y :: insert comparefn x s' else x :: y :: s'
  end.

Definition sort (comparefn : A -> A -> number) (l : list A) : list A :=
  List.fold_right (insert comparefn) [] l.

(** [x] need not come after [y]. *)
Definition notAfter (comparefn : A -> A -> number) (x y : A) : Prop :=
  after comparefn x y = false.

(** [a.slice(start, end)]: a NaN bound counts as 0, a negative bound is
    taken from the end, and both are clamped to the length. *)
Definition toIntegerOrInfinity (n : option Z) : Z := default 0 n.

Definition clampIndex (len rel : Z) : Z :=
  if rel <? 0 then Z.max (len + rel) 0 else Z.min rel len.

Definition slice (l : list A) (start stop : option Z) : list A :=
  let len := Z.of_nat (length l) in
  let k := clampIndex len (toIntegerOrInfinity start) in
  let final := clampIndex len (toIntegerOrInfinity stop) in
  take (Z.to_nat (final - k)) (drop (Z.to_nat k) l).
End Arrays.

(** ** Integer arithmetic on numbers that may be NaN *)

Definition lift2 (f : Z -> Z -> Z) (a b : option Z) : option Z :=
  match a, b with
  | Some x, Some y => Some (f x y)
  | _, _ => None
  end.

(** [Math.ceil(a / b)] for an integer [a], as it appears in a JSON body:
    a division by zero gives an infinity or NaN, which JSON writes as
    [null] ([None]); a negative zero is written [0]. *)
Definition ceilDiv (a : Z) (b : option Z) : option Z :=
  match b with
  | None => None
  | Some 0 => None
  | Some d => Some (- ((- a) / d))
  end.

End JS.
Export JS.

(* ================================================================== *)
(** * Dates                                                             *)
(* ================================================================== *)

(** A valid [Date] holds a time value: milliseconds since the epoch, UTC.
    [toISOString] prints it in UTC, whatever the local time zone is. *)
Module DateTime.

Definition msPerDay : Z := 86400000.
Definition maxTime : Z := 8640000000000000.

(** [Day(t)]: the number of the UTC day that contains [t]. *)
Definition Day (t : Z) : Z := t / msPerDay.
Definition TimeWithinDay (t : Z) : Z := t mod msPerDay.

(** [TimeClip]: time values beyond 100,000,000 days are not dates. *)
Definition TimeClip (t : Z) : option Z :=
  if Z.abs t <=? maxTime then Some t else None.

(** Proleptic Gregorian calendar: the civil date of a day number.  Days
    are counted from 1 March of year 0 in eras of 400 years (146097 days),
    centuries (36524 days, the fourth one a day longer), cycles of four
    years (1461 days) and years (365 days, the fourth one a day longer);
    months are counted from March. *)
Definition civilFromDays (days : Z) : Z * Z * Z :=
  let z := days + 719468 in
  let era := z / 146097 in
  let doe := z mod 146097 in
  let c := Z.min 3 (doe / 36524) in
  let doc := doe - c * 36524 in
  let q := doc / 1461 in
  let doq := doc mod 1461 in
  let a := Z.min 3 (doq / 365) in
  let doy := doq - a * 365 in
  let yoe := 100 * c + 4 * q + a in
  let mp := (5 * doy + 2) / 153 in
  let d := doy - (153 * mp + 2) / 5 + 1 in
  let m := if mp <? 10 then mp + 3 else mp - 9 in
  let y := yoe + era * 400 in
  (if m <=? 2 then y + 1 else y, m, d).

(** The inverse: the day number of a civil date. *)
Definition daysFromCivil (y m d : Z) : Z :=
  let y' := if m <=? 2 then y - 1 else y in
  let era := y' / 400 in
  let yoe := y' - era * 400 in
  let mp := if 2 <? m then m - 3 else m + 9 in
  let doy := (153 * mp + 2) / 5 + d - 1 in
  let doe := yoe * 365 + yoe / 4 - yoe / 100 + doy in
  era * 146097 + doe - 719468.

(** [DayFromYear(y)] of the language definition: the day number of the
    first day of year [y]. *)
Definition DayFromYear (y : Z) : Z :=
  365 * (y - 1970) + (y - 1969) / 4 - (y - 1901) / 100 + (y - 1601) / 400.

(** The UTC calendar date (year, month 1..12, day of month) of a time. *)
Definition utcDate (t : Z) : Z * Z * Z := civilFromDays (Day t).

(** Decimal printing with a fixed number of digits. *)
Definition digit (n : Z) : ascii := ascii_of_nat (48 + Z.to_nat (n mod 10)).

Fixpoint pad (width : nat) (n : Z) (tail : string) : string :=
  match width with
  | O => tail
  | S w => pad w (n / 10) (String (digit n) tail)
  end.

(** Years 0..9999 print with four digits, the others with a sign and six. *)
Definition yearString (y : Z) (tail : string) : string :=
  if (0 <=? y) && (y <=? 9999) then pad 4 y tail
  else String (if y <? 0 then "-"%char else "+"%char) (pad 6 (Z.abs y) tail).

Definition dateString (ymd : Z * Z * Z) (tail : string) : string :=
  let '(y, m, d) := ymd in
  yearString y (String "-" (pad 2 m (String "-" (pad 2 d tail)))).

Definition timeString (ms : Z) : string :=
  pad 2 (ms / 3600000) (String ":"
    (pad 2 (ms / 60000 mod 60) (String ":"
      (pad 2 (ms / 1000 mod 60) (String "."
        (pad 3 (ms mod 1000) "Z")))))).

(** [new Date(t).toISOString()] for a valid time value:
    YYYY-MM-DDTHH:mm:ss.sssZ. *)
Definition toISOString (t : Z) : string :=
  dateString (utcDate t) (String "T" (timeString (TimeWithinDay t))).

End DateTime.
Export DateTime.

(* ================================================================== *)
(** * The runtime                                                       *)
(* ================================================================== *)

(** The built-ins the handler calls whose results the language leaves to
    the engine, the locale data or the local time zone. *)
Class Runtime := {
  parseInt : string -> option Z;          (* parseInt(s); None is NaN *)
  toLowerCase : string -> string;         (* s.toLowerCase() *)
  localeCompare : string -> string -> Z;  (* a.localeCompare(b) *)
  Date_parse : string -> option Z         (* the time value of new Date(s);
                                             None is an invalid date *)
}.

(** What the language guarantees of every runtime: a string compares equal
    to itself, and a valid date is within the range of time values. *)
Class RuntimeLaws (rt : Runtime) : Prop := {
  localeCompare_refl : forall s, localeCompare s s = 0;
  Date_parse_clip : forall s t, Date_parse s = Some t -> Z.abs t <= maxTime
}.

(** ** A runtime for ASCII text and ISO dates *)

Module Ascii7.

Definition isWhiteSpace (c : ascii) : bool :=
  let n := nat_of_ascii c in
  ((9 <=? n) && (n <=? 13))%nat || (n =? 32)%nat.

Fixpoint trimStart (s : string) : string :=
  match s with
  | String c s' => if isWhiteSpace c then trimStart s' else s
  | EmptyString => EmptyString
  end.

(** The value of a digit or letter in radixes up to 36. *)
Definition digitValue (c : ascii) : option Z :=
  let n := Z.of_nat (nat_of_ascii c) in
  if (48 <=? n) && (n <=? 57) then Some (n - 48)
  else if (97 <=? n) && (n <=? 122) then Some (n - 87)
  else if (65 <=? n) && (n <=? 90) then Some (n - 55)
  else None.

(** The longest prefix of digits of the radix; [acc] is [None] until a
    digit has been read. *)
Fixpoint parseDigits (radix : Z) (acc : option Z) (s : string) : option Z :=
  match s with
  | EmptyString => acc
  | String c s' =>
      match digitValue c with
      | Some v =>
          if v <? radix then parseDigits radix (Some (default 0 acc * radix + v)) s'
          else acc
      | None => acc
      end
  end.

(** [parseInt(s)] with no radix argument: leading white space, a sign, an
    optional 0x prefix, then digits; NaN when there is no digit. *)
Definition parseInt (s : string) : option Z :=
  let s := trimStart s in
  let '(sign, s) :=
    match s with
    | String "-" r => (-1, r)
    | String "+" r => (1, r)
    | _ => (1, s)
    end in
  let '(radix, s) :=
    match s with
    | String "0" (String "x" r) => (16, r)
    | String "0" (String "X" r) => (16, r)
    | _ => (10, s)
    end in
  match parseDigits radix None s with
  | Some n => Some (sign * n)
  | None => None
  end.

Definition lowerChar (c : ascii) : ascii :=
  let n := nat_of_ascii c in
  if ((65 <=? n) && (n <=? 90))%nat then ascii_of_nat (n + 32) else c.

Fixpoint toLowerCase (s : string) : string :=
  match s with
  | EmptyString => EmptyString
  | String c s' => String (lowerChar c) (toLowerCase s')
  end.

(** Comparison by code units: a total order on strings. *)
Definition localeCompare (a b : string) : Z :=
  match String.compare a b with
  | Lt => -1
  | Eq => 0
  | Gt => 1
  end.

(** Exactly [n] decimal digits. *)
Fixpoint digits (n : nat) (acc : Z) (s : string) : option (Z * string) :=
  match n with
  | O => Some (acc, s)
  | S n' =>
      match s with
      | String c s' =>
          match digitValue c with
          | Some v => if v <? 10 then digits n' (acc * 10 + v) s' else None
          | None => None
          end
      | EmptyString => None
      end
  end.

Definition expect (c : ascii) (s : string) : option string :=
  match s with
  | String a s' => if Ascii.eqb a c then Some s' else None
  | EmptyString => None
  end.

Definition isLeapYear (y : Z) : bool :=
  (y mod 4 =? 0) && (negb (y mod 100 =? 0) || (y mod 400 =? 0)).

Definition daysInMonth (y m : Z) : Z :=
  if m =? 2 then (if isLeapYear y then 29 else 28)
  else if (m =? 4) || (m =? 6) || (m =? 9) || (m =? 11) then 30
  else 31.

(** The time of day after the date: nothing (midnight UTC), or
    THH:mm:ssZ, or THH:mm:ss.sssZ. *)
Definition parseTime (s : string) : option Z :=
  match s with
  | EmptyString => Some 0
  | _ =>
      s ← expect "T" s;
      '(h, s) ← digits 2 0 s;
      s ← expect ":" s;
      '(mi, s) ← digits 2 0 s;
      s ← expect ":" s;
      '(sec, s) ← digits 2 0 s;
      '(ms, s) ← match s with
                 | String "." r => digits 3 0 r
                 | _ => Some (0, s)
                 end;
      s ← expect "Z" s;
      match s with
      | EmptyString =>
          if (h <=? 23) && (mi <=? 59) && (sec <=? 59)
          then Some (h * 3600000 + mi * 60000 + sec * 1000 + ms)
          else None
      | _ => None
      end
  end.

(** [Date.parse] on the date-time string format, UTC forms only:
    YYYY-MM-DD, YYYY-MM-DDTHH:mm:ssZ, YYYY-MM-DDTHH:mm:ss.sssZ.  Any other
    text is an invalid date. *)
Definition Date_parse (s : string) : option Z :=
  '(y, s) ← digits 4 0 s;
  s ← expect "-" s;
  '(m, s) ← digits 2 0 s;
  s ← expect "-" s;
  '(d, s) ← digits 2 0 s;
  time ← parseTime s;
  if (1 <=? m) && (m <=? 12) && (1 <=? d) && (d <=? daysInMonth y m)
  then TimeClip (daysFromCivil y m d * msPerDay + time)
  else None.

End Ascii7.

#[export] Instance asciiRuntime : Runtime := {
  parseInt := Ascii7.parseInt;
  toLowerCase := Ascii7.toLowerCase;
  localeCompare := Ascii7.localeCompare;
  Date_parse := Ascii7.Date_parse
}.

(* ================================================================== *)
(** * Prediction records                                                *)
(* ================================================================== *)

Record PredictionData := {
  id : string;
  player : string;
  team : string;
  opponent : string;
  gameTime : string;
  sport : string;
  stat : string;
  line : Q;
  predictedValue : Q;
  overProbability : Q;
  confidence : Q;
  confidenceCategory : string;
  keyFactors : list string
}.

(** The collection the handler serves. *)
Definition mockPredictions : list PredictionData := [
  {| id := "1"; player := "LeBron James"; team := "LAL"; opponent := "BOS";
     gameTime := "2025-03-21T20:00:00Z"; sport := "NBA"; stat := "Points";
     line := 25.5; predictedValue := 27.5; overProbability := 0.74;
     confidence := 80; confidenceCategory := "High";
     keyFactors := ["High usage rate";
       "Weak opponent defense";
       "Recent scoring streak"] |};
  {| id := "2"; player := "Stephen Curry"; team := "GSW"; opponent := "PHX";
     gameTime := "2025-03-21T22:30:00Z"; sport := "NBA"; stat := "3-Pointers";
     line := 4.5; predictedValue := 5.8; overProbability := 0.82;
     confidence := 92; confidenceCategory := "Very High";
     keyFactors := ["Phoenix allows most 3PA";
       "Recent hot shooting streak";
       "Home court advantage"] |};
  {| id := "3"; player := "Nikola Jokić"; team := "DEN"; opponent := "MIA";
     gameTime := "2025-03-22T19:00:00Z"; sport := "NBA"; stat := "Assists";
     line := 8.5; predictedValue := 10.2; overProbability := 0.78;
     confidence := 85; confidenceCategory := "High";
     keyFactors := ["Murray returning from injury";
       "Miami's defensive scheme";
       "Averaging 11.2 assists last 5 games"] |};
  {| id := "4"; player := "Joel Embiid"; team := "PHI"; opponent := "NYK";
     gameTime := "2025-03-22T19:30:00Z"; sport := "NBA"; stat := "Rebounds";
     line := 11.5; predictedValue := 10.3; overProbability := 0.35;
     confidence := 75; confidenceCategory := "High";
     keyFactors := ["Strong NYK rebounding";
       "Limited minutes expected";
       "Under in last 3 matchups"] |};
  {| id := "5"; player := "Luka Dončić"; team := "DAL"; opponent := "LAC";
     gameTime := "2025-03-22T20:30:00Z"; sport := "NBA"; stat := "Points + Rebounds + Assists";
     line := 47.5; predictedValue := 52.3; overProbability := 0.68;
     confidence := 70; confidenceCategory := "Moderate";
     keyFactors := ["High usage without Irving";
       "Clippers defensive focus";
       "Averaging 51.2 PRA last 10 games"] |};
  {| id := "6"; player := "Jayson Tatum"; team := "BOS"; opponent := "LAL";
     gameTime := "2025-03-21T20:00:00Z"; sport := "NBA"; stat := "Points";
     line := 28.5; predictedValue := 26.8; overProbability := 0.42;
     confidence := 65; confidenceCategory := "Moderate";
     keyFactors := ["Lakers improved defense";
       "Brown taking more shots";
       "Under in 4 of last 6 games"] |};
  {| id := "7"; player := "Patrick Mahomes"; team := "KC"; opponent := "BAL";
     gameTime := "2025-03-23T18:00:00Z"; sport := "NFL"; stat := "Passing Yards";
     line := 285.5; predictedValue := 310.2; overProbability := 0.71;
     confidence := 75; confidenceCategory := "High";
     keyFactors := ["Baltimore secondary injuries";
       "High-scoring game expected";
       "Strong performance in last matchup"] |};
  {| id := "8"; player := "Lamar Jackson"; team := "BAL"; opponent := "KC";
     gameTime := "2025-03-23T18:00:00Z"; sport := "NFL"; stat := "Rushing Yards";
     line := 65.5; predictedValue := 78.3; overProbability := 0.68;
     confidence := 72; confidenceCategory := "High";
     keyFactors := ["KC struggles against mobile QBs";
       "Designed run plays increasing";
       "Weather conditions favor running"] |};
  {| id := "9"; player := "Shohei Ohtani"; team := "LAD"; opponent := "SF";
     gameTime := "2025-03-22T21:10:00Z"; sport := "MLB"; stat := "Strikeouts";
     line := 7.5; predictedValue := 8.7; overProbability := 0.64;
     confidence := 68; confidenceCategory := "Moderate";
     keyFactors := ["Giants high K-rate vs. RHP";
       "Ohtani's splitter effectiveness";
       "Favorable umpire for pitchers"] |};
  {| id := "10"; player := "Aaron Judge"; team := "NYY"; opponent := "BOS";
     gameTime := "2025-03-22T18:05:00Z"; sport := "MLB"; stat := "Total Bases";
     line := 1.5; predictedValue := 2.3; overProbability := 0.76;
     confidence := 82; confidenceCategory := "High";
     keyFactors := ["Strong vs. Boston pitching";
       "Wind blowing out to right field";
       "Hot streak in last 7 games"] |};
  {| id := "11"; player := "Connor McDavid"; team := "EDM"; opponent := "VGK";
     gameTime := "2025-03-22T22:00:00Z"; sport := "NHL"; stat := "Points";
     line := 1.5; predictedValue := 1.8; overProbability := 0.62;
     confidence := 67; confidenceCategory := "Moderate";
     keyFactors := ["Vegas goaltender struggles";
       "Power play opportunities";
       "Multi-point games in 3 of last 5"] |};
  {| id := "12"; player := "Auston Matthews"; team := "TOR"; opponent := "MTL";
     gameTime := "2025-03-22T19:00:00Z"; sport := "NHL"; stat := "Shots on Goal";
     line := 4.5; predictedValue := 5.7; overProbability := 0.79;
     confidence := 85; confidenceCategory := "High";
     keyFactors := ["Montreal allows most shots in league";
       "Matthews averaging 5.8 SOG last 10 games";
       "Rivalry game intensity"] |};
  {| id := "13"; player := "Erling Haaland"; team := "MCI"; opponent := "ARS";
     gameTime := "2025-03-23T16:30:00Z"; sport := "Soccer"; stat := "Shots on Target";
     line := 2.5; predictedValue := 3.2; overProbability := 0.67;
     confidence := 73; confidenceCategory := "High";
     keyFactors := ["Arsenal missing key defender";
       "City's attacking form";
       "Haaland's home record"] |};
  {| id := "14"; player := "Mohamed Salah"; team := "LIV"; opponent := "CHE";
     gameTime := "2025-03-23T14:00:00Z"; sport := "Soccer"; stat := "Goal Contributions";
     line := 0.5; predictedValue := 0.9; overProbability := 0.81;
     confidence := 78; confidenceCategory := "High";
     keyFactors := ["Chelsea defensive vulnerabilities";
       "Salah's record vs. Chelsea";
       "Liverpool's attacking tactics"] |}
]%Q.

(* ================================================================== *)
(** * The route handler                                                 *)
(* ================================================================== *)

(** The body of a predictions response, as the JSON shows it: a number
    that is NaN or infinite is written [null] ([None]). *)
Record PredictionsResponse := {
  predictions : list PredictionData;
  total : Z;
  page : option Z;
  limit : option Z;
  totalPages : option Z
}.

Record SummaryData := {
  totalPredictions : Z;
  sportBreakdown : list (string * Z);
  confidenceBreakdown : list (string * Z);
  featuredPredictions : list PredictionData
}.

(** The performance metrics are a constant object passed through as it
    is; its content plays no part here. *)
Inductive Body :=
  | PredictionsJson (r : PredictionsResponse)
  | PerformanceJson
  | SummaryJson (s : SummaryData)
  | ErrorJson (error : string).

Record Response := { status : Z; body : Body }.

Definition json (b : Body) : Response := {| status := 200; body := b |}.

Section Handler.
Context {rt : Runtime}.

(** [new Date(s).toISOString().split('T')[0]]; [toISOString] throws a
    RangeError on an invalid date. *)
Definition isoDatePart (s : string) : result string :=
  match Date_parse s with
  | Some t => Ok (splitHead "T" (toISOString t))
  | None => Throw RangeError
  end.

(** [new Date(s).getTime()] *)
Definition getTime (s : string) : number := ofZ (Date_parse s).

(** The date filter: the target date is computed once, then each
    record's date is compared with it. *)
Definition dateFilter (date : string) (filteredPredictions : list PredictionData)
    : result (list PredictionData) :=
  targetDate ← isoDatePart date;
  filterM (fun p =>
             predictionDate ← isoDatePart (gameTime p);
             Ok (String.eqb predictionDate targetDate))
    filteredPredictions.

(** The filters of the list operation, in the order the handler applies
    them; a parameter that is missing or empty filters nothing. *)
Definition filterPredictions (searchParams : URLSearchParams)
    (filteredPredictions : list PredictionData) : result (list PredictionData) :=
  let filteredPredictions :=
    match truthy (get "sport" searchParams) with
    | Some sport' => List.filter (fun p => String.eqb (sport p) sport') filteredPredictions
    | None => filteredPredictions
    end in
  let filteredPredictions :=
    match truthy (get "minConfidence" searchParams) with
    | Some minConfidence =>
        List.filter (fun p => ge (Some (confidence p)) (ofZ (parseInt minConfidence)))
          filteredPredictions
    | None => filteredPredictions
    end in
  filteredPredictions ←
    match truthy (get "date" searchParams) with
    | Some date => dateFilter date filteredPredictions
    | None => Ok filteredPredictions
    end;
  let filteredPredictions :=
    match truthy (get "stat" searchParams) with
    | Some stat' => List.filter (fun p => String.eqb (stat p) stat') filteredPredictions
    | None => filteredPredictions
    end in
  let filteredPredictions :=
    match truthy (get "team" searchParams) with
    | Some team' =>
        List.filter (fun p => String.eqb (team p) team' || String.eqb (opponent p) team')
          filteredPredictions
    | None => filteredPredictions
    end in
  let filteredPredictions :=
    match truthy (get "player" searchParams) with
    | Some player' =>
        List.filter (fun p => includes (toLowerCase (player p)) (toLowerCase player'))
          filteredPredictions
    | None => filteredPredictions
    end in
  Ok filteredPredictions.

(** The comparator of the sort: the [switch] on [sortBy], then the
    direction. *)
Definition comparison (sortBy : string) (a b : PredictionData) : number :=
  if String.eqb sortBy "confidence" then Some (confidence a - confidence b)%Q
  else if String.eqb sortBy "gameTime" then sub (getTime (gameTime a)) (getTime (gameTime b))
  else if String.eqb sortBy "player" then Some (inject_Z (localeCompare (player a) (player b)))
  else if String.eqb sortBy "line" then Some (line a - line b)%Q
  else if String.eqb sortBy "predictedValue" then Some (predictedValue a - predictedValue b)%Q
  else Some (confidence a - confidence b)%Q.

Definition comparefn (sortBy sortOrder : string) (a b : PredictionData) : number :=
  if String.eqb sortOrder "asc" then comparison sortBy a b
  else neg (comparison sortBy a b).

Definition sortPredictions (searchParams : URLSearchParams)
    (filteredPredictions : list PredictionData) : list PredictionData :=
  let sortBy := orElse (get "sortBy" searchParams) "confidence" in
  let sortOrder := orElse (get "sortOrder" searchParams) "desc" in
  sort (comparefn sortBy sortOrder) filteredPredictions.

Definition paginate (searchParams : URLSearchParams)
    (filteredPredictions : list PredictionData) : PredictionsResponse :=
  let page' := parseInt (orElse (get "page" searchParams) "1") in
  let limit' := parseInt (orElse (get "limit" searchParams) "10") in
  let startIndex := lift2 Z.mul (lift2 Z.sub page' (Some 1)) limit' in
  let endIndex := lift2 Z.mul page' limit' in
  let paginatedPredictions := slice filteredPredictions startIndex endIndex in
  {| predictions := paginatedPredictions;
     total := Z.of_nat (length filteredPredictions);
     page := page';
     limit := limit';
     totalPages := ceilDiv (Z.of_nat (length filteredPredictions)) limit' |}.

Definition count (f : PredictionData -> bool) (l : list PredictionData) : Z :=
  Z.of_nat (length (List.filter f l)).

Definition summary (all : list PredictionData) : SummaryData :=
  {| totalPredictions := Z.of_nat (length all);
     sportBreakdown :=
       [("NBA", count (fun p => String.eqb (sport p) "NBA") all);
        ("NFL", count (fun p => String.eqb (sport p) "NFL") all);
        ("MLB", count (fun p => String.eqb (sport p) "MLB") all);
        ("NHL", count (fun p => String.eqb (sport p) "NHL") all);
        ("Soccer", count (fun p => String.eqb (sport p) "Soccer") all)];
     confidenceBreakdown :=
       [("Very High", count (fun p => String.eqb (confidenceCategory p) "Very High") all);
        ("High", count (fun p => String.eqb (confidenceCategory p) "High") all);
        ("Moderate", count (fun p => String.eqb (confidenceCategory p) "Moderate") all);
        ("Low", count (fun p => String.eqb (confidenceCategory p) "Low") all);
        ("Very Low", count (fun p => String.eqb (confidenceCategory p) "Very Low") all)];
     featuredPredictions :=
       slice
         (sort (fun a b => Some (confidence b - confidence a)%Q)
            (List.filter (fun p => Qle_bool 80 (confidence p)) all))
         (Some 0) (Some 3) |}.

(** [GET]: the handler, over the collection [all] it serves. *)
Definition GET (all : list PredictionData) (searchParams : URLSearchParams)
    : result Response :=
  let endpoint := default "" (get "endpoint" searchParams) in
  if String.eqb endpoint "predictions" then
    filteredPredictions ← filterPredictions searchParams all;
    let filteredPredictions := sortPredictions searchParams filteredPredictions in
    Ok (json (PredictionsJson (paginate searchParams filteredPredictions)))
  else if String.eqb endpoint "performance" then
    Ok (json PerformanceJson)
  else if String.eqb endpoint "summary" then
    Ok (json (SummaryJson (summary all)))
  else
    Ok {| status := 400; body := ErrorJson "Invalid endpoint" |}.
End Handler.

(* ================================================================== *)
(** * The handler over a store of arrays                                *)
(* ================================================================== *)

(** Arrays are objects: a variable holds a reference, [filter], [slice]
    and the spread [[...a]] build a new array, and [sort] reorders the
    array it is called on.  [Store.GET] is the handler written over a
    store of arrays, with the collection at the reference
    [mockPredictions]. *)
Module Store.

Definition loc := nat.
Abbreviation heap := (gmap loc (list PredictionData)).

(** A computation reads and updates the store and may throw; the store
    outlives an exception. *)
Definition M (A : Type) : Type := heap -> result A * heap.

#[global] Instance M_ret : MRet M := fun A a h => (Ok a, h).
#[global] Instance M_bind : MBind M := fun A B f m h =>
  match m h with
  | (Ok a, h') => f a h'
  | (Throw e, h') => (Throw e, h')
  end.

Definition lift {A : Type} (r : result A) : M A := fun h => (r, h).

Definition load (a : loc) : M (list PredictionData) :=
  fun h => (Ok (default [] (h !! a)), h).

Definition alloc (v : list PredictionData) : M loc :=
  fun h => let a := fresh (dom h) in (Ok a, <[a := v]> h).

Definition store (a : loc) (v : list PredictionData) : M unit :=
  fun h => (Ok tt, <[a := v]> h).

(** [[...a]] *)
Definition spread (a : loc) : M loc :=
  v ← load a; alloc v.

(** [a.filter(f)] *)
Definition filterA (f : PredictionData -> result bool) (a : loc) : M loc :=
  v ← load a; r ← lift (filterM f v); alloc r.

(** [a.sort(comparefn)]: in place; the result is [a] itself. *)
Definition sortA (comparefn : PredictionData -> PredictionData -> number) (a : loc)
    : M loc :=
  v ← load a; _ ← store a (sort comparefn v); mret a.

(** [a.slice(start, end)] *)
Definition sliceA (a : loc) (start stop : option Z) : M loc :=
  v ← load a; alloc (slice v start stop).

(** [a.length] *)
Definition lengthA (a : loc) : M Z :=
  v ← load a; mret (Z.of_nat (length v)).

(** [a.filter(f).length] *)
Definition countA (f : PredictionData -> bool) (a : loc) : M Z :=
  b ← filterA (fun p => Ok (f p)) a; lengthA b.

Section Handler.
Context {rt : Runtime}.
Variable mockPredictions : loc.

Definition listPredictions (searchParams : URLSearchParams) : M Response :=
  filteredPredictions ← spread mockPredictions;
  filteredPredictions ←
    match truthy (get "sport" searchParams) with
    | Some sport' =>
        filterA (fun p => Ok (String.eqb (sport p) sport')) filteredPredictions
    | None => mret filteredPredictions
    end;
  filteredPredictions ←
    match truthy (get "minConfidence" searchParams) with
    | Some minConfidence =>
        filterA (fun p => Ok (ge (Some (confidence p)) (ofZ (parseInt minConfidence))))
          filteredPredictions
    | None => mret filteredPredictions
    end;
  filteredPredictions ←
    match truthy (get "date" searchParams) with
    | Some date =>
        targetDate ← lift (isoDatePart date);
        filterA (fun p =>
                   predictionDate ← isoDatePart (gameTime p);
                   Ok (String.eqb predictionDate targetDate))
          filteredPredictions
    | None => mret filteredPredictions
    end;
  filteredPredictions ←
    match truthy (get "stat" searchParams) with
    | Some stat' =>
        filterA (fun p => Ok (String.eqb (stat p) stat')) filteredPredictions
    | None => mret filteredPredictions
    end;
  filteredPredictions ←
    match truthy (get "team" searchParams) with
    | Some team' =>
        filterA (fun p => Ok (String.eqb (team p) team' || String.eqb (opponent p) team'))
          filteredPredictions
    | None => mret filteredPredictions
    end;
  filteredPredictions ←
    match truthy (get "player" searchParams) with
    | Some player' =>
        filterA (fun p => Ok (includes (toLowerCase (player p)) (toLowerCase player')))
          filteredPredictions
    | None => mret filteredPredictions
    end;
  let sortBy := orElse (get "sortBy" searchParams) "confidence" in
  let sortOrder := orElse (get "sortOrder" searchParams) "desc" in
  _ ← sortA (comparefn sortBy sortOrder) filteredPredictions;
  let page' := parseInt (orElse (get "page" searchParams) "1") in
  let limit' := parseInt (orElse (get "limit" searchParams) "10") in
  let startIndex := lift2 Z.mul (lift2 Z.sub page' (Some 1)) limit' in
  let endIndex := lift2 Z.mul page' limit' in
  paginatedPredictions ← sliceA filteredPredictions startIndex endIndex;
  items ← load paginatedPredictions;
  len ← lengthA filteredPredictions;
  mret (json (PredictionsJson
    {| predictions := items;
       total := len;
       page := page';
       limit := limit';
       totalPages := ceilDiv len limit' |})).

Definition summarize : M Response :=
  n ← lengthA mockPredictions;
  nba ← countA (fun p => String.eqb (sport p) "NBA") mockPredictions;
  nfl ← countA (fun p => String.eqb (sport p) "NFL") mockPredictions;
  mlb ← countA (fun p => String.eqb (sport p) "MLB") mockPredictions;
  nhl ← countA (fun p => String.eqb (sport p) "NHL") mockPredictions;
  soccer ← countA (fun p => String.eqb (sport p) "Soccer") mockPredictions;
  veryHigh ← countA (fun p => String.eqb (confidenceCategory p) "Very High") mockPredictions;
  high ← countA (fun p => String.eqb (confidenceCategory p) "High") mockPredictions;
  moderate ← countA (fun p => String.eqb (confidenceCategory p) "Moderate") mockPredictions;
  low ← countA (fun p => String.eqb (confidenceCategory p) "Low") mockPredictions;
  veryLow ← countA (fun p => String.eqb (confidenceCategory p) "Very Low") mockPredictions;
  a ← filterA (fun p => Ok (Qle_bool 80 (confidence p))) mockPredictions;
  a ← sortA (fun a b => Some (confidence b - confidence a)%Q) a;
  a ← sliceA a (Some 0) (Some 3);
  featured ← load a;
  mret (json (SummaryJson
    {| totalPredictions := n;
       sportBreakdown :=
         [("NBA", nba); ("NFL", nfl); ("MLB", mlb); ("NHL", nhl); ("Soccer", soccer)];
       confidenceBreakdown :=
         [("Very High", veryHigh); ("High", high); ("Moderate", moderate);
          ("Low", low); ("Very Low", veryLow)];
       featuredPredictions := featured |})).

Definition GET (searchParams : URLSearchParams) : M Response :=
  let endpoint := default "" (get "endpoint" searchParams) in
  if String.eqb endpoint "predictions" then listPredictions searchParams
  else if String.eqb endpoint "performance" then mret (json PerformanceJson)
  else if String.eqb endpoint "summary" then summarize
  else mret {| status := 400; body := ErrorJson "Invalid endpoint" |}.
End Handler.

End Store.

(* ================================================================== *)
(** * The client hook                                                   *)
(* ================================================================== *)

(** What [usePredictionsData] hands to the page as [totalPages]:
    [predictionsData?.totalPages || 1], where [predictionsData] is the
    body of the last response, or [null] before the first one. *)
Definition hookTotalPages (predictionsData : option PredictionsResponse) : Z :=
  match predictionsData with
  | Some d =>
      match totalPages d with
      | Some 0 => 1
      | Some n => n
      | None => 1
      end
  | None => 1
  end.

(* ================================================================== *)
(** * The specification's vocabulary                                    *)
(* ================================================================== *)

(** The definitions of this part follow the words of the specification;
    the theorems compare them with the handler. *)
Module Spec.
Section Spec.
Context {rt : Runtime}.

(** A predicate of the query filter is active when its parameter is
    given and not empty. *)
Definition active (name : string) (q : URLSearchParams) : option string :=
  truthy (get name q).

(** The game time and the filter's date fall on the same UTC calendar
    date (year, month, day). *)
Definition sameUtcDate (time date : string) : bool :=
  match Date_parse time, Date_parse date with
  | Some a, Some b => bool_decide (utcDate a = utcDate b)
  | _, _ => false
  end.

(** The record satisfies every active predicate of the query filter. *)
Definition satisfies (q : URLSearchParams) (p : PredictionData) : bool :=
  match active "sport" q with
  | Some s => String.eqb (sport p) s
  | None => true
  end &&
  match active "date" q with
  | Some d => sameUtcDate (gameTime p) d
  | None => true
  end &&
  match active "minConfidence" q with
  | Some m =>
      match parseInt m with
      | Some n => Qle_bool (inject_Z n) (confidence p)
      | None => false
      end
  | None => true
  end &&
  match active "stat" q with
  | Some s => String.eqb (stat p) s
  | None => true
  end &&
  match active "team" q with
  | Some t => String.eqb (team p) t || String.eqb (opponent p) t
  | None => true
  end &&
  match active "player" q with
  | Some s => includes (toLowerCase (player p)) (toLowerCase s)
  | None => true
  end.

(** The sort fields of the specification. *)
Definition sortFields : list string :=
  ["confidence"; "gameTime"; "player"; "line"; "predictedValue"].

(** Two records have the same value of the sort key. *)
Definition sameKey (sortBy : string) (a b : PredictionData) : bool :=
  if String.eqb sortBy "gameTime" then
    bool_decide (Date_parse (gameTime a) = Date_parse (gameTime b))
  else if String.eqb sortBy "player" then String.eqb (player a) (player b)
  else if String.eqb sortBy "line" then Qeq_bool (line a) (line b)
  else if String.eqb sortBy "predictedValue" then
    Qeq_bool (predictedValue a) (predictedValue b)
  else Qeq_bool (confidence a) (confidence b).

(** The query [q] with the parameter [name] set to [value]. *)
Definition withParam (name value : string) (q : URLSearchParams) : URLSearchParams :=
  (name, value) :: q.

(** The predictions of a response; none when the request failed. *)
Definition predictionsOf (r : result Response) : list PredictionData :=
  match r with
  | Ok {| body := PredictionsJson b |} => predictions b
  | _ => []
  end.

(** ceil(total / limit) *)
Definition ceiling (total lim : Z) : Z := Qceiling (inject_Z total / inject_Z lim).

(** The text is a date. *)
Definition parses (s : string) : Prop := exists t, Date_parse s = Some t.

Definition isPredictions (r : result Response) : Prop :=
  match r with
  | Ok {| status := 200; body := PredictionsJson _ |} => True
  | _ => False
  end.
End Spec.
End Spec.
Export Spec.

(* ================================================================== *)
(** * Definitions for the proofs                                        *)
(* ================================================================== *)

(** The filter step, stage by stage. *)
Module Stages.
Section Stages.
Context {rt : Runtime}.

(** The predicates of the stages, in the handler's order. *)
Definition stagePred (name : string) (f : string -> PredictionData -> bool)
    (q : URLSearchParams) (p : PredictionData) : bool :=
  match truthy (get name q) with
  | Some v => f v p
  | None => true
  end.

Definition bySport := stagePred "sport" (fun v p => String.eqb (sport p) v).
Definition byConfidence :=
  stagePred "minConfidence" (fun v p => ge (Some (confidence p)) (ofZ (parseInt v))).
Definition byStat := stagePred "stat" (fun v p => String.eqb (stat p) v).
Definition byTeam :=
  stagePred "team" (fun v p => String.eqb (team p) v || String.eqb (opponent p) v).
Definition byPlayer :=
  stagePred "player" (fun v p => includes (toLowerCase (player p)) (toLowerCase v)).

Definition dateStage (q : URLSearchParams) (l : list PredictionData)
    : result (list PredictionData) :=
  match truthy (get "date" q) with
  | Some date => dateFilter date l
  | None => Ok l
  end.

Definition byConfidenceDesc (a b : PredictionData) : number :=
  Some (confidence b - confidence a)%Q.

Definition confident (p : PredictionData) : bool := Qle_bool 80 (confidence p).
End Stages.
End Stages.
Export Stages.

(** Assertions on the store. *)
Module StoreDefs.
(** [c], run in the store [h], ends with a result and a store that
    satisfy [Q]. *)
Definition wp {A : Type} (c : Store.M A) (h : Store.heap)
    (Q : result A -> Store.heap -> Prop) : Prop :=
  Q (c h).1 (c h).2.

(** The collection is at [m], and the array at [a], another reference,
    holds [v]. *)
Definition owns (m : Store.loc) (all : list PredictionData) (a : Store.loc)
    (v : list PredictionData) (h : Store.heap) : Prop :=
  h !! m = Some all /\ h !! a = Some v /\ a <> m.
End StoreDefs.
Export StoreDefs.

(** ** Queries and records of the examples *)

(** A game at 23:30 UTC on 21 March is found by the date 2025-03-21 and
    not by 2025-03-22. *)
Definition lateGame : PredictionData :=
  {| id := "15"; player := "Kevin Durant"; team := "PHX"; opponent := "GSW";
     gameTime := "2025-03-21T23:30:00Z"; sport := "NBA"; stat := "Points";
     line := 26.5; predictedValue := 28.1; overProbability := 0.66;
     confidence := 77; confidenceCategory := "High";
     keyFactors := ["Late tip-off"] |}.

Definition emptyQuery : URLSearchParams :=
  [("endpoint", "predictions"); ("sport", "Cricket"); ("limit", "10")].

(** No record is of the sport Cricket, and "tomorrow" is no date. *)
Definition cricketTomorrow : URLSearchParams :=
  [("endpoint", "predictions"); ("sport", "Cricket"); ("date", "tomorrow")].

Definition ascendingQuery : URLSearchParams :=
  [("endpoint", "predictions"); ("sortBy", "popularity"); ("sortOrder", "asc")].

Definition nbaLastPage : URLSearchParams :=
  [("endpoint", "predictions"); ("sport", "NBA"); ("page", "99"); ("limit", "6")].

Definition nbaThatDay : URLSearchParams :=
  [("endpoint", "predictions"); ("sport", "NBA"); ("date", "2025-03-22");
   ("minConfidence", "70")].

Definition fivePerPage : URLSearchParams :=
  [("endpoint", "predictions"); ("limit", "5")].

Definition pageNumber (k : nat) : string :=
  match k with
  | 1%nat => "1"
  | 2%nat => "2"
  | 3%nat => "3"
  | _ => "0"
  end.

Definition summaryQuery : URLSearchParams :=
  [("endpoint", "summary"); ("sport", "NFL")].

(** ** The list operation and the summary, further *)

Module ListOp.
Section ListOp.
Context {rt : Runtime}.

(** The number a record is sorted by, for every sort field but [player]
    (which is compared as text): the confidence also for an unknown
    field. *)
Definition sortKey (sortBy : string) (p : PredictionData) : number :=
  if String.eqb sortBy "gameTime" then getTime (gameTime p)
  else if String.eqb sortBy "line" then Some (line p)
  else if String.eqb sortBy "predictedValue" then Some (predictedValue p)
  else Some (confidence p).

(** [a] may stand before [b] in the direction of [sortOrder]. *)
Definition inOrder (sortBy sortOrder : string) (a b : PredictionData) : Prop :=
  match sortKey sortBy a, sortKey sortBy b with
  | Some x, Some y => if String.eqb sortOrder "asc" then (x <= y)%Q else (y <= x)%Q
  | _, _ => True
  end.

(** The body of a response of the list operation. *)
Definition listBody (r : result Response) : option PredictionsResponse :=
  match r with
  | Ok {| status := 200; body := PredictionsJson b |} => Some b
  | _ => None
  end.

(** The body of a response of the summary operation. *)
Definition summaryBody (r : result Response) : option SummaryData :=
  match r with
  | Ok {| status := 200; body := SummaryJson s |} => Some s
  | _ => None
  end.

Definition sumCounts (counts : list (string * Z)) : Z :=
  List.fold_right (fun c acc => snd c + acc) 0 counts.

Definition sports : list string := ["NBA"; "NFL"; "MLB"; "NHL"; "Soccer"].

Definition categories : list string :=
  ["Very High"; "High"; "Moderate"; "Low"; "Very Low"].

Definition oneOf (keys : list string) (s : string) : bool :=
  existsb (String.eqb s) keys.
End ListOp.
End ListOp.
Export ListOp.

(* ================================================================== *)
(** * The client: hooks, filter panel and predictions page             *)
(* ================================================================== *)

(** [Number.isSafeInteger(n)]: the integers a number holds exactly. *)
Definition isSafeInteger (n : Z) : bool := Z.abs n <=? 9007199254740991.

(** [n.toString()] for a safe integer: its decimal digits, with a minus
    sign when it is negative. *)
Definition numberToString (n : Z) : string := NilZero.string_of_int (Z.to_int n).

(** The runtime reads a safe integer back from its decimal digits. *)
Definition readsNumbers {rt : Runtime} : Prop :=
  forall n, isSafeInteger n = true -> parseInt (numberToString n) = Some n.

(** The query string travels as the list of the appended pairs: what
    [URLSearchParams.toString] writes, [new URL(...).searchParams] reads
    back. *)
Definition append (name value : string) (ps : URLSearchParams) : URLSearchParams :=
  (ps ++ [(name, value)])%list.

(** ** usePredictionsData *)

Module Predictions.

Record FilterOptions := {
  sport : string;
  date : string;
  minConfidence : Z;
  stat : string;
  team : string;
  player : string;
  sortBy : string;
  sortOrder : string;
  page : Z;
  limit : Z
}.

(** [Partial<FilterOptions>]: [None] is a key that is not there. *)
Module Partial.
Record FilterOptions := {
  sport : option string;
  date : option string;
  minConfidence : option Z;
  stat : option string;
  team : option string;
  player : option string;
  sortBy : option string;
  sortOrder : option string;
  page : option Z;
  limit : option Z
}.

Definition empty : FilterOptions :=
  {| sport := None; date := None; minConfidence := None; stat := None; team := None;
     player := None; sortBy := None; sortOrder := None; page := None; limit := None |}.
End Partial.

(** The filters the hook starts with, and [resetFilters] goes back to. *)
Definition initialFilters : FilterOptions :=
  {| sport := ""; date := ""; minConfidence := 0; stat := ""; team := ""; player := "";
     sortBy := "confidence"; sortOrder := "desc"; page := 1; limit := 6 |}.

(** [{ ...filters, ...newFilters }] *)
Definition spread (filters : FilterOptions) (newFilters : Partial.FilterOptions)
    : FilterOptions :=
  {| sport := default (sport filters) (Partial.sport newFilters);
     date := default (date filters) (Partial.date newFilters);
     minConfidence := default (minConfidence filters) (Partial.minConfidence newFilters);
     stat := default (stat filters) (Partial.stat newFilters);
     team := default (team filters) (Partial.team newFilters);
     player := default (player filters) (Partial.player newFilters);
     sortBy := default (sortBy filters) (Partial.sortBy newFilters);
     sortOrder := default (sortOrder filters) (Partial.sortOrder newFilters);
     page := default (page filters) (Partial.page newFilters);
     limit := default (limit filters) (Partial.limit newFilters) |}.

Definition withPage (n : Z) (filters : FilterOptions) : FilterOptions :=
  {| sport := sport filters; date := date filters;
     minConfidence := minConfidence filters; stat := stat filters;
     team := team filters; player := player filters; sortBy := sortBy filters;
     sortOrder := sortOrder filters; page := n; limit := limit filters |}.

(** [updateFilters]: back to page 1 unless the new filters name a page. *)
Definition updateFilters (filters : FilterOptions) (newFilters : Partial.FilterOptions)
    : FilterOptions :=
  match Partial.page newFilters with
  | None => withPage 1 (spread filters newFilters)
  | Some _ => spread filters newFilters
  end.

Definition resetFilters : FilterOptions := initialFilters.

(** [if (s) queryParams.append(name, s)] for a string, and for a number,
    which is written with [toString]. *)
Definition appendString (name value : string) (ps : URLSearchParams) : URLSearchParams :=
  if String.eqb value "" then ps else append name value ps.

Definition appendNumber (name : string) (value : Z) (ps : URLSearchParams)
    : URLSearchParams :=
  if value =? 0 then ps else append name (numberToString value) ps.

(** The query of [fetchPredictionsData]. *)
Definition queryParams (filters : FilterOptions) : URLSearchParams :=
  let queryParams := append "endpoint" "predictions" [] in
  let queryParams := appendString "sport" (sport filters) queryParams in
  let queryParams := appendString "date" (date filters) queryParams in
  let queryParams := appendNumber "minConfidence" (minConfidence filters) queryParams in
  let queryParams := appendString "stat" (stat filters) queryParams in
  let queryParams := appendString "team" (team filters) queryParams in
  let queryParams := appendString "player" (player filters) queryParams in
  let queryParams := appendString "sortBy" (sortBy filters) queryParams in
  let queryParams := appendString "sortOrder" (sortOrder filters) queryParams in
  let queryParams := appendNumber "page" (page filters) queryParams in
  let queryParams := appendNumber "limit" (limit filters) queryParams in
  queryParams.

(** The state of the hook.  [predictionsData] is the body of the last
    response that was ok. *)
Record State := {
  loading : bool;
  error : option string;
  predictionsData : option Body;
  filters : FilterOptions
}.

Definition initialState : State :=
  {| loading := true; error := None; predictionsData := None;
     filters := initialFilters |}.

(** One run of [fetchPredictionsData] to its end, against the handler
    over the collection [all]: a response that is not ok (the 400 of the
    handler, or the 500 of a handler that threw) sets the error; a
    response that is ok sets the data.  Nothing resets the error. *)
Definition fetchPredictionsData {rt : Runtime} (all : list PredictionData) (st : State)
    : State :=
  match GET all (queryParams (filters st)) with
  | Ok {| status := 200; body := data |} =>
      {| loading := false; error := error st; predictionsData := Some data;
         filters := filters st |}
  | _ =>
      {| loading := false; error := Some "Failed to fetch predictions data";
         predictionsData := predictionsData st; filters := filters st |}
  end.

(** [updateFilters] and [resetFilters] on the state. *)
Definition setFilters (f : FilterOptions) (st : State) : State :=
  {| loading := loading st; error := error st; predictionsData := predictionsData st;
     filters := f |}.

(** What the hook returns of the data: [predictionsData?.x || d]. *)
Definition orNumber (n : option Z) (d : Z) : Z :=
  match n with
  | Some 0 => d
  | Some v => v
  | None => d
  end.

Definition listData (st : State) : option PredictionsResponse :=
  match predictionsData st with
  | Some (PredictionsJson b) => Some b
  | _ => None
  end.

Module Returned.
Definition predictions (st : State) : list PredictionData :=
  match listData st with
  | Some (Build_PredictionsResponse ps _ _ _ _) => ps
  | None => []
  end.

Definition total (st : State) : Z :=
  match listData st with
  | Some (Build_PredictionsResponse _ n _ _ _) => orNumber (Some n) 0
  | None => 0
  end.

Definition page (st : State) : Z :=
  match listData st with
  | Some (Build_PredictionsResponse _ _ n _ _) => orNumber n 1
  | None => 1
  end.

Definition limit (st : State) : Z :=
  match listData st with
  | Some (Build_PredictionsResponse _ _ _ n _) => orNumber n 6
  | None => 6
  end.

Definition totalPages (st : State) : Z := hookTotalPages (listData st).
End Returned.

(** What can happen to the hook: the filters change, or a fetch ends. *)
Inductive step {rt : Runtime} (all : list PredictionData) : State -> State -> Prop :=
  | step_update st newFilters :
      step all st (setFilters (updateFilters (filters st) newFilters) st)
  | step_reset st :
      step all st (setFilters resetFilters st)
  | step_fetch st :
      step all st (fetchPredictionsData all st).

Inductive steps {rt : Runtime} (all : list PredictionData) : State -> State -> Prop :=
  | steps_refl st : steps all st st
  | steps_step st st' st'' : steps all st st' -> step all st' st'' -> steps all st st''.

End Predictions.

(** ** The filter panel *)

Module FilterPanel.
Import Predictions.

Definition handleSportChange (filters : FilterOptions) (value : string) : FilterOptions :=
  updateFilters filters
    {| Partial.sport := Some value; Partial.date := None; Partial.minConfidence := None;
       Partial.stat := None; Partial.team := None; Partial.player := None;
       Partial.sortBy := None; Partial.sortOrder := None; Partial.page := None;
       Partial.limit := None |}.

Definition handleCustomDateChange (filters : FilterOptions) (value : string)
    : FilterOptions :=
  updateFilters filters
    {| Partial.sport := None; Partial.date := Some value; Partial.minConfidence := None;
       Partial.stat := None; Partial.team := None; Partial.player := None;
       Partial.sortBy := None; Partial.sortOrder := None; Partial.page := None;
       Partial.limit := None |}.

(** The thresholds of the confidence check boxes, by the id of the box;
    any other id has none. *)
Definition confidenceLevels (id : string) : option Z :=
  if String.eqb id "very-high" then Some 90
  else if String.eqb id "high" then Some 80
  else if String.eqb id "moderate" then Some 65
  else if String.eqb id "low" then Some 50
  else if String.eqb id "very-low" then Some 0
  else None.

(** What the callback of [forEach] does to [minConfidence] for one checked
    box: an id without a threshold compares false and changes nothing. *)
Definition lower (minConfidence : Z) (value : string) : Z :=
  match confidenceLevels value with
  | Some confidenceValue =>
      if confidenceValue <? minConfidence then confidenceValue else minConfidence
  | None => minConfidence
  end.

(** The lowest threshold among the checked boxes, from 100 down; 0 when
    no box is checked. *)
Definition lowestChecked (checkedValues : list string) : Z :=
  let minConfidence := List.fold_left lower checkedValues 100 in
  if (length checkedValues =? 0)%nat then 0 else minConfidence.

Definition handleConfidenceChange (filters : FilterOptions) (checkedValues : list string)
    : FilterOptions :=
  updateFilters filters
    {| Partial.sport := None; Partial.date := None;
       Partial.minConfidence := Some (lowestChecked checkedValues);
       Partial.stat := None; Partial.team := None; Partial.player := None;
       Partial.sortBy := None; Partial.sortOrder := None; Partial.page := None;
       Partial.limit := None |}.

Definition handleStatTypeChange (filters : FilterOptions) (value : string)
    : FilterOptions :=
  updateFilters filters
    {| Partial.sport := None; Partial.date := None; Partial.minConfidence := None;
       Partial.stat := Some value; Partial.team := None; Partial.player := None;
       Partial.sortBy := None; Partial.sortOrder := None; Partial.page := None;
       Partial.limit := None |}.

Definition handleTeamChange (filters : FilterOptions) (value : string) : FilterOptions :=
  updateFilters filters
    {| Partial.sport := None; Partial.date := None; Partial.minConfidence := None;
       Partial.stat := None; Partial.team := Some value; Partial.player := None;
       Partial.sortBy := None; Partial.sortOrder := None; Partial.page := None;
       Partial.limit := None |}.

Definition handlePlayerSearch (filters : FilterOptions) (value : string) : FilterOptions :=
  updateFilters filters
    {| Partial.sport := None; Partial.date := None; Partial.minConfidence := None;
       Partial.stat := None; Partial.team := None; Partial.player := Some value;
       Partial.sortBy := None; Partial.sortOrder := None; Partial.page := None;
       Partial.limit := None |}.

(** [defaultChecked] of the box with the given id. *)
Definition defaultChecked (id : string) (filters : FilterOptions) : bool :=
  let m := minConfidence filters in
  if String.eqb id "very-high" then (m =? 0) || (90 <=? m)
  else if String.eqb id "high" then (m =? 0) || (80 <=? m)
  else if String.eqb id "moderate" then (m =? 0) || (65 <=? m)
  else if String.eqb id "low" then (m =? 0) || (50 <=? m)
  else if String.eqb id "very-low" then m =? 0
  else false.

(** The boxes of the panel, in the order of the document. *)
Definition boxes : list string := ["very-high"; "high"; "moderate"; "low"; "very-low"].

Definition checkedByDefault (filters : FilterOptions) : list string :=
  List.filter (fun id => defaultChecked id filters) boxes.
End FilterPanel.

(** ** The predictions page *)

Module PredictionsPage.
Import Predictions.

Definition handlePageChange (filters : FilterOptions) (newPage : Z) : FilterOptions :=
  updateFilters filters
    {| Partial.sport := None; Partial.date := None; Partial.minConfidence := None;
       Partial.stat := None; Partial.team := None; Partial.player := None;
       Partial.sortBy := None; Partial.sortOrder := None; Partial.page := Some newPage;
       Partial.limit := None |}.

(** The sort a value of the select stands for; (confidence, desc) for any
    other value. *)
Definition sortOf (value : string) : string * string :=
  if String.eqb value "confidence_high_to_low" then ("confidence", "desc")
  else if String.eqb value "confidence_low_to_high" then ("confidence", "asc")
  else if String.eqb value "game_time_earliest" then ("gameTime", "asc")
  else if String.eqb value "game_time_latest" then ("gameTime", "desc")
  else if String.eqb value "player_name_az" then ("player", "asc")
  else ("confidence", "desc").

Definition handleSortChange (filters : FilterOptions) (value : string) : FilterOptions :=
  let '(sortBy', sortOrder') := sortOf value in
  updateFilters filters
    {| Partial.sport := None; Partial.date := None; Partial.minConfidence := None;
       Partial.stat := None; Partial.team := None; Partial.player := None;
       Partial.sortBy := Some sortBy'; Partial.sortOrder := Some sortOrder';
       Partial.page := None; Partial.limit := None |}.

(** The value the select shows for the filters. *)
Definition selectValue (filters : FilterOptions) : string :=
  if String.eqb (sortBy filters) "confidence" then
    (if String.eqb (sortOrder filters) "desc" then "confidence_high_to_low"
     else "confidence_low_to_high")
  else if String.eqb (sortBy filters) "gameTime" then
    (if String.eqb (sortOrder filters) "asc" then "game_time_earliest"
     else "game_time_latest")
  else "player_name_az".

Definition options : list string :=
  ["confidence_high_to_low"; "confidence_low_to_high"; "game_time_earliest";
   "game_time_latest"; "player_name_az"].

(** The pager is shown when there is more than one page. *)
Definition showPager (totalPages : Z) : bool := 1 <? totalPages.

(** The number on the page button [i], counted from 0. *)
Definition pageNum (page totalPages i : Z) : Z :=
  if totalPages <=? 5 then i + 1
  else if page <=? 3 then i + 1
  else if totalPages - 2 <=? page then totalPages - 4 + i
  else page - 2 + i.

(** [Array.from({ length: Math.min(5, totalPages) }, (_, i) => pageNum)] *)
Definition pageButtons (page totalPages : Z) : list Z :=
  map (fun i => pageNum page totalPages (Z.of_nat i))
    (seq 0 (Z.to_nat (Z.min 5 totalPages))).

(** The ellipsis and the button of the last page after the numbered
    buttons. *)
Definition showLastPage (page totalPages : Z) : bool :=
  (5 <? totalPages) && (page <? totalPages - 2).

(** "Showing [from] to [to] of [total] results". *)
Definition showingFrom (page limit : Z) : Z := (page - 1) * limit + 1.
Definition showingTo (page limit total : Z) : Z := Z.min (page * limit) total.
End PredictionsPage.

(** ** usePerformanceData *)

Module Performance.

Record State := {
  loading : bool;
  error : option string;
  performanceData : option Body;
  timePeriod : string;
  customDateRange : option (string * string)
}.

Definition initialState : State :=
  {| loading := true; error := None; performanceData := None; timePeriod := "7";
     customDateRange := None |}.

(** A period of the menu clears the custom range. *)
Definition updateTimePeriod (period : string) (st : State) : State :=
  {| loading := loading st; error := error st; performanceData := performanceData st;
     timePeriod := period; customDateRange := None |}.

(** A custom range sets the period to custom. *)
Definition updateCustomDateRange (start stop : string) (st : State) : State :=
  {| loading := loading st; error := error st; performanceData := performanceData st;
     timePeriod := "custom"; customDateRange := Some (start, stop) |}.

(** The query of [fetchPerformanceData]. *)
Definition queryParams (st : State) : URLSearchParams :=
  let queryParams := append "endpoint" "performance" [] in
  let queryParams :=
    if String.eqb (timePeriod st) "" then queryParams
    else append "period" (timePeriod st) queryParams in
  let queryParams :=
    match customDateRange st with
    | Some (start, stop) =>
        append "endDate" stop (append "startDate" start queryParams)
    | None => queryParams
    end in
  queryParams.

Definition fetchPerformanceData {rt : Runtime} (all : list PredictionData) (st : State)
    : State :=
  match GET all (queryParams st) with
  | Ok {| status := 200; body := data |} =>
      {| loading := false; error := error st; performanceData := Some data;
         timePeriod := timePeriod st; customDateRange := customDateRange st |}
  | _ =>
      {| loading := false; error := Some "Failed to fetch performance data";
         performanceData := performanceData st; timePeriod := timePeriod st;
         customDateRange := customDateRange st |}
  end.

Inductive step {rt : Runtime} (all : list PredictionData) : State -> State -> Prop :=
  | step_period st period : step all st (updateTimePeriod period st)
  | step_range st start stop : step all st (updateCustomDateRange start stop st)
  | step_fetch st : step all st (fetchPerformanceData all st).

Inductive steps {rt : Runtime} (all : list PredictionData) : State -> State -> Prop :=
  | steps_refl st : steps all st st
  | steps_step st st' st'' : steps all st st' -> step all st' st'' -> steps all st st''.

End Performance.

(** ** useDashboardData *)

(** The local time zone: the day of the month of a time value, and the
    time value after [setDate] (NaN, [None], when it leaves the range of
    dates). *)
Class LocalTime := {
  getDate : Z -> Z;
  setDate : Z -> Z -> option Z
}.

Module Dashboard.

(** A computation that reads the clock: the state is the number of
    readings so far, and [clock k] is the time value of reading [k]. *)
Definition C (A : Type) : Type := nat -> result A * nat.

#[global] Instance C_ret : MRet C := fun A a k => (Ok a, k).
#[global] Instance C_bind : MBind C := fun A B f m k =>
  match m k with
  | (Ok a, k') => f a k'
  | (Throw e, k') => (Throw e, k')
  end.

Definition liftC {A : Type} (r : result A) : C A := fun k => (r, k).

Section Dashboard.
Context {rt : Runtime} {lt : LocalTime}.
Variable clock : nat -> Z.

(** [new Date()] *)
Definition newDate : C Z := fun k => (Ok (clock k), S k).

(** [d.toISOString().split('T')[0]] for a date that may be invalid. *)
Definition datePart (t : option Z) : result string :=
  match t with
  | Some t => Ok (splitHead "T" (toISOString t))
  | None => Throw RangeError
  end.

(** [a < b] on dates: false as soon as one of them is invalid. *)
Definition before (a b : option Z) : bool :=
  match a, b with
  | Some x, Some y => x <? y
  | _, _ => false
  end.

(** [a.filter(f)] for a callback that reads the clock and may throw. *)
Fixpoint filterC {A : Type} (f : A -> C bool) (l : list A) : C (list A) :=
  match l with
  | [] => mret []
  | x :: l' =>
      b ← f x;
      r ← filterC f l';
      mret (if b : bool then x :: r else r)
  end.

(** The test of the time frame; [false] is the [return false] of the
    callback. *)
Definition inTimeFrame (activeTimeFrame : string) (prediction : PredictionData) : C bool :=
  if String.eqb activeTimeFrame "today" then
    now ← newDate;
    today ← liftC (datePart (Some now));
    predictionDate ← liftC (isoDatePart (gameTime prediction));
    mret (String.eqb predictionDate today)
  else if String.eqb activeTimeFrame "tomorrow" then
    tomorrow ← newDate;
    let tomorrow := setDate tomorrow (getDate tomorrow + 1) in
    tomorrowStr ← liftC (datePart tomorrow);
    predictionDate ← liftC (isoDatePart (gameTime prediction));
    mret (String.eqb predictionDate tomorrowStr)
  else if String.eqb activeTimeFrame "week" then
    today ← newDate;
    nextWeek ← newDate;
    let nextWeek := setDate nextWeek (getDate today + 7) in
    let predictionDate := Date_parse (gameTime prediction) in
    mret (negb (before predictionDate (Some today) || before nextWeek predictionDate))
  else mret true.

(** The callback of the filter of the featured predictions. *)
Definition shown (activeSport : option string) (activeTimeFrame activeConfidence : string)
    (prediction : PredictionData) : C bool :=
  if match truthy activeSport with
     | Some activeSport => negb (String.eqb (sport prediction) activeSport)
     | None => false
     end
  then mret false
  else
    ok ← inTimeFrame activeTimeFrame prediction;
    if negb ok then mret false
    else if String.eqb activeConfidence "high" && negb (Qle_bool 80 (confidence prediction))
    then mret false
    else mret true.

(** [summaryData?.featuredPredictions.filter(...) || []] *)
Definition filteredPredictions (summaryData : option SummaryData)
    (activeSport : option string) (activeTimeFrame activeConfidence : string)
    : C (list PredictionData) :=
  match summaryData with
  | Some s =>
      filterC (shown activeSport activeTimeFrame activeConfidence) (featuredPredictions s)
  | None => mret []
  end.

(** The state of the hook. *)
Record State := {
  loading : bool;
  error : option string;
  summaryData : option SummaryData;
  activeSport : option string;
  activeTimeFrame : string;
  activeConfidence : string
}.

Definition initialState : State :=
  {| loading := true; error := None; summaryData := None; activeSport := None;
     activeTimeFrame := "today"; activeConfidence := "high" |}.

(** One run of [fetchDashboardData] to its end, against the handler over
    the collection [all].  The query names the summary operation, so a
    response that is ok carries a summary. *)
Definition fetchDashboardData (all : list PredictionData) (st : State) : State :=
  match GET all [("endpoint", "summary")] with
  | Ok {| status := 200; body := SummaryJson data |} =>
      {| loading := false; error := error st; summaryData := Some data;
         activeSport := activeSport st; activeTimeFrame := activeTimeFrame st;
         activeConfidence := activeConfidence st |}
  | _ =>
      {| loading := false; error := Some "Failed to fetch dashboard data";
         summaryData := summaryData st;
         activeSport := activeSport st; activeTimeFrame := activeTimeFrame st;
         activeConfidence := activeConfidence st |}
  end.
End Dashboard.
End Dashboard.

(** The local time of a machine on UTC. *)
Definition utcLocalTime : LocalTime :=
  {| getDate := fun t => let '(_, _, d) := DateTime.civilFromDays (t / 86400000) in d;
     setDate := fun t d =>
       let '(_, _, d0) := DateTime.civilFromDays (t / 86400000) in
       let t' := t + (d - d0) * 86400000 in
       if (Z.abs t' <=? 8640000000000000) then Some t' else None |}.

(** ** Inputs of the examples on the client *)

Definition nbaFilters : Predictions.FilterOptions :=
  {| Predictions.sport := "NBA"; Predictions.date := "2025-03-22";
     Predictions.minConfidence := 70; Predictions.stat := ""; Predictions.team := "";
     Predictions.player := ""; Predictions.sortBy := "confidence";
     Predictions.sortOrder := "desc"; Predictions.page := 1; Predictions.limit := 6 |}.

Definition byGameTime : URLSearchParams :=
  [("endpoint", "predictions"); ("sortBy", "gameTime"); ("sortOrder", "asc")].


Definition pageMinusOne : URLSearchParams :=
  [("endpoint", "predictions"); ("page", "-1"); ("limit", "5")].

(** A state of the hook after a fetch has failed on a date that is none. *)
Definition failedFetch : Predictions.State :=
  Predictions.fetchPredictionsData mockPredictions
    (Predictions.setFilters (FilterPanel.handleCustomDateChange Predictions.initialFilters "soon")
       Predictions.initialState).

(** A clock that stands at midnight UTC of 21 March 2025. *)
Definition midnight : nat -> Z := fun _ => 1742515200000.

(* ================================================================== *)
(** * Facts about the built-ins                                         *)
(* ================================================================== *)

Module JSFacts.

Lemma bind_Ok {A B : Type} (f : A -> result B) (a : A) : Ok a ≫= f = f a.
Proof. reflexivity. Qed.

Lemma bind_Throw {A B : Type} (f : A -> result B) (e : exn) :
  @Throw A e ≫= f = Throw e.
Proof. reflexivity. Qed.

Lemma get_withParam_ne (k name value : string) (q : URLSearchParams) :
  String.eqb name k = false -> get k (withParam name value q) = get k q.
Proof. intros H. unfold withParam. simpl. now rewrite H. Qed.

Lemma get_withParam_eq (name value : string) (q : URLSearchParams) :
  get name (withParam name value q) = Some value.
Proof. unfold withParam. simpl. now rewrite String.eqb_refl. Qed.

Section Filter.
Context {A : Type}.

Lemma filter_all (f : A -> bool) (l : list A) :
  (forall x, In x l -> f x = true) -> List.filter f l = l.
Proof.
  induction l as [|x l IH]; intros H; simpl; [reflexivity|].
  rewrite (H x (or_introl eq_refl)). f_equal. apply IH.
  intros y Hy. apply H. now right.
Qed.

Lemma filter_filter (f g : A -> bool) (l : list A) :
  List.filter g (List.filter f l) = List.filter (fun x => f x && g x) l.
Proof.
  induction l as [|x l IH]; simpl; [reflexivity|].
  destruct (f x); simpl; [destruct (g x)|]; now rewrite IH.
Qed.

(** A callback that never throws makes [filterM] the plain filter. *)
Lemma filterM_pure (f : A -> result bool) (g : A -> bool) (l : list A) :
  (forall x, In x l -> f x = Ok (g x)) -> filterM f l = Ok (List.filter g l).
Proof.
  induction l as [|x l IH]; intros H; simpl; [reflexivity|].
  rewrite (H x (or_introl eq_refl)), IH.
  - simpl. now destruct (g x).
  - intros y Hy. apply H. now right.
Qed.

(** What [filterM] keeps passed the callback, and came from the input. *)
Lemma filterM_In (f : A -> result bool) (l r : list A) :
  filterM f l = Ok r -> forall x, In x r -> In x l /\ f x = Ok true.
Proof.
  revert r. induction l as [|y l IH]; simpl; intros r H x Hx.
  - injection H as <-. destruct Hx.
  - destruct (f y) as [b|e] eqn:Hy; [|discriminate].
    destruct (filterM f l) as [r'|e] eqn:Hr; [|discriminate].
    simpl in H. injection H as <-.
    destruct b.
    + destruct Hx as [<-|Hx]; [now split; [left|]|].
      destruct (IH r' eq_refl x Hx). split; [now right|assumption].
    + destruct (IH r' eq_refl x Hx). split; [now right|assumption].
Qed.
End Filter.

(** ** Slices *)

Section Slice.
Context {A : Type}.

(** A slice between two bounds within [0, ∞) is a [take] of a [drop]. *)
Lemma slice_take_drop (l : list A) (a b : Z) :
  0 <= a <= b ->
  slice l (Some a) (Some b) = take (Z.to_nat (b - a)) (drop (Z.to_nat a) l).
Proof.
  intros H. unfold slice, toIntegerOrInfinity, clampIndex. simpl.
  set (len := Z.of_nat (length l)).
  assert (Hlen : 0 <= len) by (unfold len; lia).
  destruct (Z.ltb_spec a 0); [lia|]. destruct (Z.ltb_spec b 0); [lia|].
  destruct (Z_le_gt_dec len a) as [Ha|Ha].
  - rewrite !Z.min_r by lia. replace (len - len) with 0 by lia.
    rewrite (drop_ge l (Z.to_nat a)) by (unfold len in Ha; lia).
    now rewrite take_nil.
  - rewrite (Z.min_l a) by lia.
    destruct (Z_le_gt_dec len b) as [Hb|Hb].
    + rewrite Z.min_r by lia.
      rewrite !take_ge; [reflexivity| |]; rewrite length_drop; unfold len in *; lia.
    + now rewrite Z.min_l by lia.
Qed.

Lemma slice_beyond (l : list A) (a b : Z) :
  Z.of_nat (length l) <= a -> 0 <= b -> slice l (Some a) (Some b) = [].
Proof.
  intros Ha Hb. unfold slice, toIntegerOrInfinity, clampIndex. simpl.
  destruct (Z.ltb_spec a 0); [lia|]. destruct (Z.ltb_spec b 0); [lia|].
  rewrite (Z.min_r a) by lia.
  rewrite (drop_ge l) by lia. apply take_nil.
Qed.

Lemma slice_prefix (l : list A) (n : Z) :
  0 <= n -> slice l (Some 0) (Some n) = take (Z.to_nat n) l.
Proof.
  intros H. rewrite slice_take_drop by lia. simpl. now rewrite Z.sub_0_r.
Qed.

(** Consecutive chunks of [lim] elements, enough of them to cover the
    list, concatenate to the list. *)
Lemma concat_chunks (lim : nat) (n : nat) (l : list A) :
  (length l <= n * lim)%nat ->
  concat (map (fun i => take lim (drop (i * lim) l)) (seq 0 n)) = l.
Proof.
  revert l. induction n as [|n IH]; intros l H.
  - simpl in *. destruct l; [reflexivity|simpl in H; lia].
  - rewrite <- cons_seq, <- seq_shift. cbn [map concat].
    rewrite map_map, drop_0.
    rewrite (map_ext _ (fun i => take lim (drop (i * lim) (drop lim l)))).
    + rewrite IH; [apply take_drop|]. rewrite length_drop. lia.
    + intros i. rewrite drop_drop. reflexivity.
Qed.
End Slice.

(** ** Sorting *)

Section Sort.
Context {A : Type} (comparefn : A -> A -> number).

Lemma insert_Permutation (x : A) (s : list A) :
  Permutation (insert comparefn x s) (x :: s).
Proof.
  induction s as [|y s IH]; simpl; [reflexivity|].
  destruct (after comparefn x y); [|reflexivity].
  rewrite IH. apply perm_swap.
Qed.

(** The sorted array holds the elements of the array, each as often. *)
Lemma sort_Permutation (l : list A) : Permutation (sort comparefn l) l.
Proof.
  induction l as [|x l IH]; simpl; [reflexivity|].
  fold (sort comparefn l). rewrite insert_Permutation. now constructor.
Qed.

Lemma sort_length (l : list A) : length (sort comparefn l) = length l.
Proof. apply Permutation_length, sort_Permutation. Qed.

(** Stability: a class of elements none of which the comparator puts
    after another one keeps its order. *)
Section Stable.
Variable P : A -> bool.
Hypothesis P_equal :
  forall a b, P a = true -> P b = true -> after comparefn a b = false.

Lemma filter_insert (x : A) (s : list A) :
  List.filter P (insert comparefn x s) = List.filter P (x :: s).
Proof.
  induction s as [|y s IH]; [reflexivity|].
  cbn [insert]. destruct (after comparefn x y) eqn:Hxy; [|reflexivity].
  cbn [List.filter] in *. rewrite IH.
  destruct (P x) eqn:Hx, (P y) eqn:Hy; try reflexivity.
  rewrite (P_equal x y Hx Hy) in Hxy. discriminate.
Qed.

Lemma sort_keeps_class (l : list A) :
  List.filter P (sort comparefn l) = List.filter P l.
Proof.
  induction l as [|x l IH]; [reflexivity|].
  cbn [sort List.fold_right]. fold (sort comparefn l).
  rewrite filter_insert. cbn [List.filter]. now rewrite IH.
Qed.
End Stable.

(** Order: when "not after" is a transitive relation and no two elements
    are after each other, the sorted array is ordered by it. *)
Section Ordered.
Hypothesis after_asym :
  forall x y, after comparefn x y = true -> after comparefn y x = false.
Hypothesis notAfter_trans :
  forall x y z, notAfter comparefn x y -> notAfter comparefn y z -> notAfter comparefn x z.

Lemma insert_sorted (x : A) (s : list A) :
  StronglySorted (notAfter comparefn) s -> StronglySorted (notAfter comparefn) (insert comparefn x s).
Proof.
  induction 1 as [|y s Hs IH Hy]; simpl.
  - repeat constructor.
  - destruct (after comparefn x y) eqn:Hxy.
    + constructor; [assumption|].
      apply (Permutation_Forall (Permutation_sym (insert_Permutation x s))).
      constructor; [apply after_asym, Hxy|assumption].
    + constructor; [now constructor|].
      constructor; [exact Hxy|].
      eapply List.Forall_impl; [|exact Hy].
      intros z Hz. eapply notAfter_trans; eassumption.
Qed.

Lemma sort_sorted (l : list A) : StronglySorted (notAfter comparefn) (sort comparefn l).
Proof.
  induction l as [|x l IH]; simpl; [constructor|].
  now apply insert_sorted.
Qed.
End Ordered.
End Sort.

End JSFacts.
Import JSFacts.

(* ================================================================== *)
(** * Facts about dates                                                 *)
(* ================================================================== *)

Module DateFacts.

(** ** The calendar *)

Lemma monthDay_roundtrip (doy : Z) :
  0 <= doy <= 365 ->
  let mp := (5 * doy + 2) / 153 in
  let d := doy - (153 * mp + 2) / 5 + 1 in
  0 <= mp <= 11 /\ 1 <= d <= 31 /\ (153 * mp + 2) / 5 + d - 1 = doy.
Proof.
  intros H. cbv zeta. split; [|split]; try lia.
  - Z.div_mod_to_equations. lia.
  - Z.div_mod_to_equations. lia.
Qed.

Lemma yearOfEra_roundtrip (doe : Z) :
  0 <= doe < 146097 ->
  let c := Z.min 3 (doe / 36524) in
  let doc := doe - c * 36524 in
  let q := doc / 1461 in
  let doq := doc mod 1461 in
  let a := Z.min 3 (doq / 365) in
  let doy := doq - a * 365 in
  let yoe := 100 * c + 4 * q + a in
  0 <= yoe <= 399 /\ 0 <= doy <= 365 /\
  yoe * 365 + yoe / 4 - yoe / 100 + doy = doe.
Proof.
  intros H. cbv zeta.
  Z.div_mod_to_equations. lia.
Qed.

(** The civil date of a day: month and day are in range, the year is
    within 400 years of the era, and the date determines the day. *)
Lemma civilFromDays_spec (n : Z) :
  match civilFromDays n with
  | (y, m, d) =>
      1 <= m <= 12 /\ 1 <= d <= 31 /\
      400 * ((n + 719468) / 146097) <= y <= 400 * ((n + 719468) / 146097) + 400 /\
      daysFromCivil y m d = n
  end.
Proof.
  unfold civilFromDays, daysFromCivil.
  set (z := n + 719468). set (era := z / 146097). set (doe := z mod 146097).
  assert (Hdoe : 0 <= doe < 146097) by (apply Z.mod_pos_bound; lia).
  assert (Hz : z = era * 146097 + doe)
    by (unfold era, doe; rewrite Z.mul_comm; apply Z.div_mod; lia).
  destruct (yearOfEra_roundtrip doe Hdoe) as (Hyoe & Hdoy & Hrt). cbv zeta in *.
  set (yoe := 100 * Z.min 3 (doe / 36524) +
              4 * ((doe - Z.min 3 (doe / 36524) * 36524) / 1461) +
              Z.min 3 ((doe - Z.min 3 (doe / 36524) * 36524) mod 1461 / 365)) in *.
  set (doy := (doe - Z.min 3 (doe / 36524) * 36524) mod 1461 -
              Z.min 3 ((doe - Z.min 3 (doe / 36524) * 36524) mod 1461 / 365) * 365) in *.
  destruct (monthDay_roundtrip doy Hdoy) as (Hmp & Hd & Hmd). cbv zeta in *.
  set (mp := (5 * doy + 2) / 153) in *.
  set (d := doy - (153 * mp + 2) / 5 + 1) in *.
  assert (Hera : forall k, 0 <= k <= 399 -> (k + era * 400) / 400 = era).
  { intros k Hk. rewrite Z.div_add by lia. rewrite Z.div_small by lia. lia. }
  destruct (Z.ltb_spec mp 10) as [Hlt|Hge].
  - (* March to December *)
    destruct (Z.leb_spec (mp + 3) 2) as [?|_]; [lia|].
    destruct (Z.ltb_spec 2 (mp + 3)) as [_|?]; [|lia].
    rewrite Hera by lia.
    replace (mp + 3 - 3) with mp by lia.
    replace (yoe + era * 400 - era * 400) with yoe by lia.
    repeat split; try lia.
  - (* January and February, of the next year *)
    destruct (Z.leb_spec (mp - 9) 2) as [_|?]; [|lia].
    destruct (Z.ltb_spec 2 (mp - 9)) as [?|_]; [lia|].
    replace (yoe + era * 400 + 1 - 1) with (yoe + era * 400) by lia.
    rewrite Hera by lia.
    replace (mp - 9 + 9) with mp by lia.
    replace (yoe + era * 400 - era * 400) with yoe by lia.
    repeat split; try lia.
Qed.

(** Two days with the same civil date are the same day. *)
Lemma civilFromDays_inj (n n' : Z) : civilFromDays n = civilFromDays n' -> n = n'.
Proof.
  intros H. pose proof (civilFromDays_spec n) as Hn.
  pose proof (civilFromDays_spec n') as Hn'. rewrite H in Hn.
  destruct (civilFromDays n') as [[y m] d]. lia.
Qed.

(** The first day of a year is the one the language definition names. *)
Lemma daysFromCivil_DayFromYear (y : Z) : daysFromCivil y 1 1 = DayFromYear y.
Proof.
  unfold daysFromCivil, DayFromYear. simpl.
  Z.div_mod_to_equations. lia.
Qed.

Lemma utcDate_Day (t t' : Z) : utcDate t = utcDate t' <-> Day t = Day t'.
Proof.
  unfold utcDate. split; [apply civilFromDays_inj|congruence].
Qed.

(** The civil date of a time value of a valid date. *)
Lemma utcDate_range (t : Z) :
  Z.abs t <= maxTime ->
  match utcDate t with
  | (y, m, d) => -999999 <= y <= 999999 /\ 1 <= m <= 12 /\ 1 <= d <= 31
  end.
Proof.
  intros Ht. unfold utcDate. pose proof (civilFromDays_spec (Day t)) as H.
  destruct (civilFromDays (Day t)) as [[y m] d].
  destruct H as (Hm & Hd & Hy & _). split; [|split]; try assumption.
  assert (-100000000 <= Day t <= 100000000).
  { unfold Day, msPerDay, maxTime in *. Z.div_mod_to_equations. lia. }
  revert Hy. Z.div_mod_to_equations. lia.
Qed.
(** ** Printing *)

Lemma digit_code (n : Z) : nat_of_ascii (digit n) = (48 + Z.to_nat (n mod 10))%nat.
Proof.
  unfold digit. apply nat_ascii_embedding.
  pose proof (Z.mod_pos_bound n 10 ltac:(lia)). lia.
Qed.

Lemma digit_inj (n n' : Z) : digit n = digit n' -> n mod 10 = n' mod 10.
Proof.
  intros H. apply (f_equal nat_of_ascii) in H. rewrite !digit_code in H.
  pose proof (Z.mod_pos_bound n 10 ltac:(lia)).
  pose proof (Z.mod_pos_bound n' 10 ltac:(lia)). lia.
Qed.

(** A digit is none of the characters that separate the fields. *)
Lemma digit_not (n : Z) (c : ascii) :
  (nat_of_ascii c < 48 \/ 57 < nat_of_ascii c)%nat -> Ascii.eqb (digit n) c = false.
Proof.
  intros Hc. apply Ascii.eqb_neq. intros H.
  apply (f_equal nat_of_ascii) in H. rewrite digit_code in H.
  pose proof (Z.mod_pos_bound n 10 ltac:(lia)). lia.
Qed.

Lemma pad_inj (w : nat) (n n' : Z) (tail tail' : string) :
  pad w n tail = pad w n' tail' ->
  n mod 10 ^ Z.of_nat w = n' mod 10 ^ Z.of_nat w /\ tail = tail'.
Proof.
  revert n n' tail tail'. induction w as [|w IH]; intros n n' tail tail' H.
  - simpl in *. now rewrite !Z.mod_1_r.
  - cbn [pad] in H. apply IH in H as [Hq Ht].
    injection Ht as Hd ->. apply digit_inj in Hd.
    split; [|reflexivity].
    rewrite Nat2Z.inj_succ, Z.pow_succ_r by lia.
    rewrite !Z.rem_mul_r by lia. congruence.
Qed.

Lemma pad_inj_small (w : nat) (n n' : Z) (tail tail' : string) :
  0 <= n < 10 ^ Z.of_nat w -> 0 <= n' < 10 ^ Z.of_nat w ->
  pad w n tail = pad w n' tail' -> n = n' /\ tail = tail'.
Proof.
  intros Hn Hn' H. apply pad_inj in H as [H ->].
  rewrite !Z.mod_small in H by assumption. now split.
Qed.

Lemma splitHead_pad (c : ascii) (w : nat) (n : Z) (tail : string) :
  (nat_of_ascii c < 48 \/ 57 < nat_of_ascii c)%nat ->
  splitHead c (pad w n tail) = pad w n (splitHead c tail).
Proof.
  intros Hc. revert n tail. induction w as [|w IH]; intros n tail; [reflexivity|].
  cbn [pad]. rewrite IH. cbn [splitHead]. now rewrite digit_not.
Qed.

Lemma String_inj (a b : ascii) (s t : string) :
  String a s = String b t -> a = b /\ s = t.
Proof. intros H. now injection H. Qed.

Lemma digit_sign (n : Z) (b : bool) :
  digit n <> (if b then "-"%char else "+"%char).
Proof.
  intros H. apply (f_equal nat_of_ascii) in H. rewrite digit_code in H.
  destruct b;
    [change (nat_of_ascii "-") with 45%nat in H
    |change (nat_of_ascii "+") with 43%nat in H]; lia.
Qed.

Lemma yearString_inj (y y' : Z) (tail tail' : string) :
  -999999 <= y <= 999999 -> -999999 <= y' <= 999999 ->
  yearString y tail = yearString y' tail' -> y = y' /\ tail = tail'.
Proof.
  intros Hy Hy'. unfold yearString.
  destruct ((0 <=? y) && (y <=? 9999)) eqn:E, ((0 <=? y') && (y' <=? 9999)) eqn:E';
    intros H.
  - apply andb_true_iff in E as [?%Z.leb_le ?%Z.leb_le].
    apply andb_true_iff in E' as [?%Z.leb_le ?%Z.leb_le].
    apply pad_inj_small in H; [exact H|simpl; lia|simpl; lia].
  - cbn [pad] in H. injection H as H _. now apply digit_sign in H.
  - cbn [pad] in H. injection H as H _. symmetry in H. now apply digit_sign in H.
  - apply andb_false_iff in E, E'. rewrite !Z.leb_gt in E, E'.
    apply String_inj in H as [Hs Hp].
    apply pad_inj_small in Hp as [Hp ->]; [|simpl; lia|simpl; lia].
    split; [|reflexivity].
    destruct (Z.ltb_spec y 0), (Z.ltb_spec y' 0); try discriminate; lia.
Qed.

Lemma dateString_inj (y m d y' m' d' : Z) :
  -999999 <= y <= 999999 -> -999999 <= y' <= 999999 ->
  0 <= m < 100 -> 0 <= m' < 100 -> 0 <= d < 100 -> 0 <= d' < 100 ->
  dateString (y, m, d) "" = dateString (y', m', d') "" ->
  (y, m, d) = (y', m', d').
Proof.
  intros Hy Hy' Hm Hm' Hd Hd'. unfold dateString. intros H.
  apply yearString_inj in H as [-> H]; [|assumption|assumption].
  apply String_inj in H as [_ H].
  apply pad_inj_small in H as [-> H]; [|simpl; lia|simpl; lia].
  apply String_inj in H as [_ H].
  apply pad_inj_small in H as [-> _]; [|simpl; lia|simpl; lia].
  reflexivity.
Qed.

(** The part of an ISO string before the T is the date. *)
Lemma splitHead_toISOString (t : Z) :
  splitHead "T" (toISOString t) = dateString (utcDate t) "".
Proof.
  unfold toISOString, dateString. destruct (utcDate t) as [[y m] d].
  assert (HT : (nat_of_ascii "T" < 48 \/ 57 < nat_of_ascii "T")%nat)
    by (right; change (nat_of_ascii "T") with 84%nat; lia).
  unfold yearString.
  destruct ((0 <=? y) && (y <=? 9999)).
  - rewrite splitHead_pad by exact HT. cbn [splitHead]. simpl (Ascii.eqb "-" "T").
    rewrite splitHead_pad by exact HT. cbn [splitHead]. simpl (Ascii.eqb "-" "T").
    rewrite splitHead_pad by exact HT. cbn [splitHead]. now rewrite Ascii.eqb_refl.
  - cbn [splitHead].
    replace (Ascii.eqb (if y <? 0 then "-"%char else "+"%char) "T") with false
      by (now destruct (y <? 0)).
    rewrite splitHead_pad by exact HT. cbn [splitHead]. simpl (Ascii.eqb "-" "T").
    rewrite splitHead_pad by exact HT. cbn [splitHead]. simpl (Ascii.eqb "-" "T").
    rewrite splitHead_pad by exact HT. cbn [splitHead]. now rewrite Ascii.eqb_refl.
Qed.

(** Two valid dates print the same date part exactly when they fall on
    the same UTC calendar date. *)
Lemma datePart_eq (t t' : Z) :
  Z.abs t <= maxTime -> Z.abs t' <= maxTime ->
  splitHead "T" (toISOString t) = splitHead "T" (toISOString t') <->
  utcDate t = utcDate t'.
Proof.
  intros Ht Ht'. rewrite !splitHead_toISOString.
  split; [|congruence].
  pose proof (utcDate_range t Ht) as H. pose proof (utcDate_range t' Ht') as H'.
  destruct (utcDate t) as [[y m] d], (utcDate t') as [[y' m'] d'].
  apply dateString_inj; lia.
Qed.

End DateFacts.
Import DateFacts.

(** ** The ASCII runtime obeys the laws *)

Lemma Ascii7_Date_parse_clip (s : string) (t : Z) :
  Ascii7.Date_parse s = Some t -> Z.abs t <= maxTime.
Proof.
  unfold Ascii7.Date_parse. intros H.
  repeat (simplify_option_eq; repeat case_match; try discriminate).
  unfold TimeClip in *. case_match; [|discriminate].
  simplify_eq. lia.
Qed.

#[export] Instance asciiRuntime_laws : RuntimeLaws asciiRuntime.
Proof.
  split.
  - intros s. simpl. unfold Ascii7.localeCompare.
    pose proof (String.compare_antisym s s) as H.
    destruct (String.compare s s); [reflexivity|discriminate|discriminate].
  - intros s t. apply Ascii7_Date_parse_clip.
Qed.

(* ================================================================== *)
(** * The filter step                                                   *)
(* ================================================================== *)

Module FilterFacts.
Section FilterFacts.
Context {rt : Runtime}.

Lemma filter_true (l : list PredictionData) : List.filter (fun _ => true) l = l.
Proof. now apply filter_all. Qed.

(** The handler's filter step is two filters, the date stage, and three
    more filters. *)
Lemma filterPredictions_stages (q : URLSearchParams) (all : list PredictionData) :
  filterPredictions q all =
  l ← dateStage q (List.filter (byConfidence q) (List.filter (bySport q) all));
  Ok (List.filter (byPlayer q) (List.filter (byTeam q) (List.filter (byStat q) l))).
Proof.
  unfold filterPredictions, dateStage, bySport, byConfidence, byStat, byTeam,
    byPlayer, stagePred.
  destruct (truthy (get "sport" q)), (truthy (get "minConfidence" q));
    rewrite ?filter_true;
    (match goal with |- ?m ≫= _ = _ => destruct m as [l|e] end; [|reflexivity]);
    rewrite !bind_Ok;
    destruct (truthy (get "stat" q)), (truthy (get "team" q)),
      (truthy (get "player" q));
    now rewrite ?filter_true.
Qed.

(** *** The date stage *)

Lemma isoDatePart_Ok (s : string) (t : Z) :
  Date_parse s = Some t -> isoDatePart s = Ok (splitHead "T" (toISOString t)).
Proof. intros H. unfold isoDatePart. now rewrite H. Qed.

Lemma datePart_eqb `{!RuntimeLaws rt} (time date : string) (a b : Z) :
  Date_parse time = Some a -> Date_parse date = Some b ->
  String.eqb (splitHead "T" (toISOString a)) (splitHead "T" (toISOString b)) =
  sameUtcDate time date.
Proof.
  intros Ha Hb. unfold sameUtcDate. rewrite Ha, Hb.
  pose proof (datePart_eq a b (Date_parse_clip _ _ Ha) (Date_parse_clip _ _ Hb)) as H.
  destruct (String.eqb_spec (splitHead "T" (toISOString a))
              (splitHead "T" (toISOString b))) as [E|E].
  - symmetry. apply bool_decide_eq_true. now apply H.
  - symmetry. apply bool_decide_eq_false. intros E'. now apply E, H.
Qed.

Lemma dateFilter_spec `{!RuntimeLaws rt} (date : string) (l : list PredictionData) :
  parses date -> Forall (fun p => parses (gameTime p)) l ->
  dateFilter date l = Ok (List.filter (fun p => sameUtcDate (gameTime p) date) l).
Proof.
  intros [td Hd] Hl. unfold dateFilter.
  rewrite (isoDatePart_Ok _ _ Hd), bind_Ok.
  apply filterM_pure. intros x Hx.
  apply (proj1 (List.Forall_forall _ _) Hl) in Hx as [tx Hx].
  rewrite (isoDatePart_Ok _ _ Hx), bind_Ok.
  now rewrite (datePart_eqb _ _ _ _ Hx Hd).
Qed.

(** Once the date filter has passed a list, it passes it again whole. *)
Lemma dateFilter_idem (date : string) (l r : list PredictionData) :
  dateFilter date l = Ok r ->
  forall r', (forall x, In x r' -> In x r) -> dateFilter date r' = Ok r'.
Proof.
  unfold dateFilter. destruct (isoDatePart date) as [td|e]; [|discriminate].
  intros H r' Hr'. rewrite bind_Ok in *.
  rewrite (filterM_pure _ (fun _ => true)); [now rewrite filter_true|].
  intros x Hx. apply Hr' in Hx. now apply (filterM_In _ _ _ H) in Hx as [_ ->].
Qed.

Lemma dateFilter_In (date : string) (l r : list PredictionData) :
  dateFilter date l = Ok r -> forall x, In x r -> In x l.
Proof.
  unfold dateFilter. destruct (isoDatePart date) as [td|e]; [|discriminate].
  rewrite bind_Ok. intros H x Hx. now apply (filterM_In _ _ _ H) in Hx.
Qed.
End FilterFacts.
End FilterFacts.


Import FilterFacts.

Section FilterClaims.
Context {rt : Runtime}.

(** C3.  For every collection and every query filter.  When the date of
    the filter, if one is given, is a date and every game time is one,
    the filter step returns, without an error, exactly the records that
    satisfy all the active predicates, in their original order; a
    predicate that is absent excludes nothing, and when no record
    satisfies them the result is the empty list.  When the date that is
    given is not a date, the filter step throws a RangeError, whatever
    the records and the other predicates are, also when no record
    matches. *)
Theorem filter_exact `{!RuntimeLaws rt} (q : URLSearchParams) (all : list PredictionData) :
  ((forall d, active "date" q = Some d ->
      parses d /\ Forall (fun p => parses (gameTime p)) all) ->
   filterPredictions q all = Ok (List.filter (satisfies q) all)) /\
  (forall d, active "date" q = Some d -> Date_parse d = None ->
   filterPredictions q all = Throw RangeError).
Proof.
  split.
  2:{ intros d Hd Hp. rewrite filterPredictions_stages.
      unfold dateStage, active in *. rewrite Hd.
      unfold dateFilter, isoDatePart. now rewrite Hp. }
  intros Hd. rewrite filterPredictions_stages.
  assert (Hdate : dateStage q (List.filter (byConfidence q) (List.filter (bySport q) all)) =
    Ok (List.filter
          (fun p => match active "date" q with
                    | Some d => sameUtcDate (gameTime p) d
                    | None => true
                    end)
          (List.filter (byConfidence q) (List.filter (bySport q) all)))).
  { unfold dateStage, active in *. destruct (truthy (get "date" q)) as [d|].
    - destruct (Hd d eq_refl) as [Hp Hall]. apply dateFilter_spec; [exact Hp|].
      apply List.Forall_forall. intros x Hx.
      apply filter_In in Hx as [Hx _]. apply filter_In in Hx as [Hx _].
      revert x Hx. now apply List.Forall_forall.
    - now rewrite filter_true. }
  rewrite Hdate, bind_Ok, !filter_filter. f_equal.
  apply filter_ext. intros p.
  unfold satisfies, active, bySport, byConfidence, byStat, byTeam, byPlayer, stagePred.
  destruct (truthy (get "sport" q)), (truthy (get "date" q)),
    (truthy (get "minConfidence" q)) as [m|], (truthy (get "stat" q)),
    (truthy (get "team" q)), (truthy (get "player" q));
    try (unfold ge, ofZ; destruct (parseInt m));
    repeat match goal with |- context [?b && _] => is_var b; destruct b end;
    repeat match goal with
           | |- context [String.eqb ?a ?b] => destruct (String.eqb a b)
           | |- context [sameUtcDate ?a ?b] => destruct (sameUtcDate a b)
           | |- context [Qle_bool ?a ?b] => destruct (Qle_bool a b)
           | |- context [includes ?a ?b] => destruct (includes a b)
           end; reflexivity.
Qed.

(** C8.  Filtering what the filter step returned, with the same query
    filter, returns it unchanged: the filter step is idempotent (and an
    error of the first application is the error of the two). *)
Theorem filter_idempotent (q : URLSearchParams) (all : list PredictionData) :
  filterPredictions q all ≫= filterPredictions q = filterPredictions q all.
Proof.
  destruct (filterPredictions q all) as [r|e] eqn:H; [|reflexivity].
  rewrite bind_Ok. rewrite filterPredictions_stages in H |- *.
  set (pre := List.filter (byConfidence q) (List.filter (bySport q) all)) in H.
  destruct (dateStage q pre) as [l|e] eqn:Hl; [|discriminate].
  rewrite bind_Ok in H. injection H as H.
  assert (Hr : forall x, In x r ->
    In x l /\ byStat q x = true /\ byTeam q x = true /\ byPlayer q x = true).
  { intros x Hx. rewrite <- H in Hx. repeat apply filter_In in Hx as [Hx ?]. auto. }
  assert (Hpre : forall x, In x l -> In x pre).
  { unfold dateStage in Hl. destruct (truthy (get "date" q)).
    - exact (dateFilter_In _ _ _ Hl).
    - now injection Hl as <-. }
  assert (Hr' : forall x, In x r -> byConfidence q x = true /\ bySport q x = true).
  { intros x Hx. apply Hr in Hx as [Hx _]. apply Hpre in Hx. unfold pre in Hx.
    repeat apply filter_In in Hx as [Hx ?]. auto. }
  rewrite (filter_all (bySport q) r) by (intros; now apply Hr').
  rewrite (filter_all (byConfidence q) r) by (intros; now apply Hr').
  assert (Hdate : dateStage q r = Ok r).
  { unfold dateStage in *. destruct (truthy (get "date" q)); [|reflexivity].
    apply (dateFilter_idem _ _ _ Hl). intros; now apply Hr. }
  rewrite Hdate, bind_Ok.
  rewrite (filter_all (byStat q) r) by (intros; now apply Hr).
  rewrite (filter_all (byTeam q) r) by (intros; now apply Hr).
  rewrite (filter_all (byPlayer q) r) by (intros; now apply Hr).
  reflexivity.
Qed.

(** C10.  The date filter compares UTC calendar days: a record whose
    game time is a date passes the filter for a date [d] exactly when
    the two time values have the same UTC calendar date (year, month,
    day), that is, fall on the same UTC day; this holds in every
    runtime, so in every local time zone. *)
Theorem date_filter_utc_day `{!RuntimeLaws rt} (p : PredictionData) (d : string)
    (tp td : Z) :
  Date_parse (gameTime p) = Some tp ->
  Date_parse d = Some td ->
  dateFilter d [p] = Ok (if bool_decide (utcDate tp = utcDate td) then [p] else []) /\
  (utcDate tp = utcDate td <-> tp / 86400000 = td / 86400000).
Proof.
  intros Hp Hd. split; [|apply utcDate_Day].
  rewrite dateFilter_spec; [|now exists td|constructor; [now exists tp|constructor]].
  cbn [List.filter]. unfold sameUtcDate. now rewrite Hp, Hd.
Qed.
End FilterClaims.

(** C3 without its condition on the date does not hold: the filter for
    the sport Cricket and the date "tomorrow" matches no record of the
    collection, and the filter step does not return the empty list: it
    throws. *)
Lemma empty_match_throws_counterexample :
  List.filter (satisfies cricketTomorrow) mockPredictions = [] /\
  ~ (filterPredictions cricketTomorrow mockPredictions =
     Ok (List.filter (satisfies cricketTomorrow) mockPredictions)).
Proof. split; [reflexivity|discriminate]. Qed.

Lemma filter_exact_witness :
  filterPredictions nbaThatDay mockPredictions =
  Ok (List.filter (satisfies nbaThatDay) mockPredictions) /\
  map id (List.filter (satisfies nbaThatDay) mockPredictions) = ["3"; "4"; "5"] /\
  filterPredictions cricketTomorrow mockPredictions = Throw RangeError.
Proof.
  split; [|split; [reflexivity|]].
  - apply (proj1 (filter_exact nbaThatDay mockPredictions)).
    intros d Hd. vm_compute in Hd. injection Hd as <-. split.
    + eexists. reflexivity.
    + repeat (constructor; [eexists; reflexivity|]). constructor.
  - exact (proj2 (filter_exact cricketTomorrow mockPredictions) "tomorrow" eq_refl eq_refl).
Defined.

(** The scenarios of the specification over the collection. *)
Example nba_has_six :
  map id <$> filterPredictions [("sport", "NBA")] mockPredictions =
  Ok ["1"; "2"; "3"; "4"; "5"; "6"].
Proof. reflexivity. Qed.

Example boston_either_side :
  map id <$> filterPredictions [("team", "BOS")] mockPredictions = Ok ["1"; "6"; "10"].
Proof. reflexivity. Qed.

Example invalid_date_throws :
  GET mockPredictions [("endpoint", "predictions"); ("date", "tomorrow")] =
  Throw RangeError.
Proof. reflexivity. Qed.

Lemma date_filter_utc_day_witness :
  dateFilter "2025-03-21" [lateGame] = Ok [lateGame] /\
  dateFilter "2025-03-22" [lateGame] = Ok [].
Proof.
  split.
  - exact (proj1 (date_filter_utc_day lateGame "2025-03-21"
                    1742599800000 1742515200000 eq_refl eq_refl)).
  - exact (proj1 (date_filter_utc_day lateGame "2025-03-22"
                    1742599800000 1742601600000 eq_refl eq_refl)).
Defined.

(* ================================================================== *)
(** * Pages and sort fields                                             *)
(* ================================================================== *)

Module PageFacts.
Section PageFacts.
Context {rt : Runtime}.

Lemma ceilDiv_ceiling (n lim : Z) :
  1 <= lim -> ceilDiv n (Some lim) = Some (ceiling n lim).
Proof.
  intros H. unfold ceilDiv, ceiling, Qceiling, Qfloor.
  destruct lim as [|p|p]; try lia.
  simpl. now rewrite Z.mul_1_r.
Qed.

(** The ceiling is the least number of pages that hold all the records. *)
Lemma ceiling_spec (n lim : Z) :
  1 <= lim -> (ceiling n lim - 1) * lim < n <= ceiling n lim * lim.
Proof.
  intros H. pose proof (ceilDiv_ceiling n lim H) as E.
  unfold ceilDiv in E. destruct lim as [|p|p]; try lia.
  injection E as <-. pose proof (Z.div_mod (- n) (Z.pos p) ltac:(lia)).
  pose proof (Z.mod_pos_bound (- n) (Z.pos p) ltac:(lia)). nia.
Qed.

Lemma ceiling_0 (lim : Z) : 1 <= lim -> ceiling 0 lim = 0.
Proof. intros H. pose proof (ceiling_spec 0 lim H). nia. Qed.

Lemma ceiling_nonneg (n lim : Z) : 0 <= n -> 1 <= lim -> 0 <= ceiling n lim.
Proof. intros Hn H. pose proof (ceiling_spec n lim H). nia. Qed.

Lemma GET_predictions (all : list PredictionData) (q : URLSearchParams) :
  get "endpoint" q = Some "predictions" ->
  GET all q =
  fl ← filterPredictions q all;
  Ok (json (PredictionsJson (paginate q (sortPredictions q fl)))).
Proof. intros H. unfold GET. now rewrite H. Qed.

Lemma sortPredictions_length (q : URLSearchParams) (l : list PredictionData) :
  length (sortPredictions q l) = length l.
Proof. apply sort_length. Qed.

(** A page of the paginator, for a page number and a limit from 1 on. *)
Lemma paginate_page (q : URLSearchParams) (l : list PredictionData) (pg lim : Z) :
  parseInt (orElse (get "page" q) "1") = Some pg ->
  parseInt (orElse (get "limit" q) "10") = Some lim ->
  1 <= pg -> 1 <= lim ->
  paginate q l =
  {| predictions := take (Z.to_nat lim) (drop (Z.to_nat ((pg - 1) * lim)) l);
     total := Z.of_nat (length l);
     page := Some pg;
     limit := Some lim;
     totalPages := Some (ceiling (Z.of_nat (length l)) lim) |}.
Proof.
  intros Hp Hl Hpg Hlim. unfold paginate. rewrite Hp, Hl. cbn [lift2].
  rewrite ceilDiv_ceiling by assumption.
  rewrite slice_take_drop by nia.
  now replace (pg * lim - (pg - 1) * lim) with lim by lia.
Qed.
End PageFacts.
End PageFacts.

Module QueryFacts.
Section QueryFacts.
Context {rt : Runtime}.

(** The filter step reads none of the sort and page parameters. *)
Lemma filterPredictions_withParam (name value : string) (q : URLSearchParams)
    (all : list PredictionData) :
  In name ["sortBy"; "sortOrder"; "page"; "limit"] ->
  filterPredictions (withParam name value q) all = filterPredictions q all.
Proof.
  intros H. unfold filterPredictions.
  rewrite !get_withParam_ne; [reflexivity|..];
    simpl in H; decompose [or] H; subst; try reflexivity; contradiction.
Qed.

Lemma sort_ext {A : Type} (c c' : A -> A -> number) (l : list A) :
  (forall a b, c a b = c' a b) -> sort c l = sort c' l.
Proof.
  intros H. induction l as [|x l IH]; [reflexivity|].
  cbn [sort List.fold_right]. fold (sort c l) (sort c' l). rewrite IH.
  generalize (sort c' l). intros s. induction s as [|y s IHs]; [reflexivity|].
  cbn [insert]. unfold after, SortCompare. now rewrite H, IHs.
Qed.

(** Outside the five sort fields the comparator is the one of
    [confidence]. *)
Lemma comparison_default (sortBy : string) (a b : PredictionData) :
  ~ In sortBy sortFields -> comparison sortBy a b = comparison "confidence" a b.
Proof.
  intros H. unfold comparison.
  repeat match goal with
         | |- context [String.eqb sortBy ?s] =>
             destruct (String.eqb_spec sortBy s) as [->|_];
             [exfalso; apply H; simpl; tauto|]
         end.
  reflexivity.
Qed.
End QueryFacts.
End QueryFacts.

Import PageFacts QueryFacts.

Section PageClaims.
Context {rt : Runtime}.

(** C1, as the handler has it.  For every query to the list operation
    with a limit of at least 1, the reported totalPages is
    ceil(total / limit); when total is 0 this is 0: the handler applies no
    floor.  It is the client hook that shows 1 in place of a totalPages
    of 0. *)
Theorem totalPages_ceiling (all : list PredictionData) (q : URLSearchParams)
    (fl : list PredictionData) (lim : Z) :
  get "endpoint" q = Some "predictions" ->
  filterPredictions q all = Ok fl ->
  parseInt (orElse (get "limit" q) "10") = Some lim ->
  1 <= lim ->
  exists r,
    GET all q = Ok (json (PredictionsJson r)) /\
    total r = Z.of_nat (length fl) /\
    totalPages r = Some (ceiling (total r) lim) /\
    (total r = 0 -> totalPages r = Some 0) /\
    hookTotalPages (Some r) = Z.max 1 (ceiling (total r) lim).
Proof.
  intros He Hf Hl Hlim. rewrite (GET_predictions _ _ He), Hf, bind_Ok.
  eexists. split; [reflexivity|]. unfold paginate. rewrite Hl.
  cbn [total totalPages hookTotalPages]. rewrite sortPredictions_length.
  rewrite ceilDiv_ceiling by assumption.
  repeat split.
  - intros ->. now rewrite ceiling_0.
  - pose proof (ceiling_nonneg (Z.of_nat (length fl)) lim ltac:(lia) Hlim).
    destruct (ceiling (Z.of_nat (length fl)) lim); lia.
Qed.

(** C7.  A page beyond the last one is no error: the response has no
    predictions, and total and totalPages are those of the whole
    filtered set. *)
Theorem page_out_of_range (all : list PredictionData) (q : URLSearchParams)
    (fl : list PredictionData) (pg lim : Z) :
  get "endpoint" q = Some "predictions" ->
  filterPredictions q all = Ok fl ->
  parseInt (orElse (get "page" q) "1") = Some pg ->
  parseInt (orElse (get "limit" q) "10") = Some lim ->
  1 <= lim ->
  ceiling (Z.of_nat (length fl)) lim < pg ->
  GET all q =
  Ok (json (PredictionsJson
    {| predictions := [];
       total := Z.of_nat (length fl);
       page := Some pg;
       limit := Some lim;
       totalPages := Some (ceiling (Z.of_nat (length fl)) lim) |})).
Proof.
  intros He Hf Hp Hl Hlim Hpg. rewrite (GET_predictions _ _ He), Hf, bind_Ok.
  pose proof (ceiling_spec (Z.of_nat (length fl)) lim Hlim) as Hc.
  pose proof (ceiling_nonneg (Z.of_nat (length fl)) lim ltac:(lia) Hlim) as Hc0.
  rewrite (paginate_page _ _ pg lim) by (assumption || lia).
  rewrite sortPredictions_length.
  rewrite drop_ge; [now rewrite take_nil|].
  rewrite sortPredictions_length. nia.
Qed.

(** C4.  At a fixed limit of at least 1, the pages 1 to totalPages of
    one query are all served, and their predictions, one page after the
    other, are the filtered and sorted sequence: nothing is missing and
    nothing comes twice. *)
Theorem pages_partition (all : list PredictionData) (q : URLSearchParams)
    (fl : list PredictionData) (lim : Z) (pageOf : nat -> string) :
  get "endpoint" q = Some "predictions" ->
  filterPredictions q all = Ok fl ->
  parseInt (orElse (get "limit" q) "10") = Some lim ->
  1 <= lim ->
  let n := Z.to_nat (ceiling (Z.of_nat (length fl)) lim) in
  (forall k, (1 <= k <= n)%nat ->
     pageOf k <> "" /\ parseInt (pageOf k) = Some (Z.of_nat k)) ->
  (forall k, (1 <= k <= n)%nat ->
     isPredictions (GET all (withParam "page" (pageOf k) q))) /\
  concat (map (fun k => predictionsOf (GET all (withParam "page" (pageOf k) q)))
            (seq 1 n)) =
  sortPredictions q fl.
Proof.
  intros He Hf Hl Hlim n Hpage.
  assert (Hget : forall k, (1 <= k <= n)%nat ->
    GET all (withParam "page" (pageOf k) q) =
    Ok (json (PredictionsJson
      {| predictions :=
           take (Z.to_nat lim) (drop ((k - 1) * Z.to_nat lim) (sortPredictions q fl));
         total := Z.of_nat (length (sortPredictions q fl));
         page := Some (Z.of_nat k);
         limit := Some lim;
         totalPages := Some (ceiling (Z.of_nat (length (sortPredictions q fl))) lim) |}))).
  { intros k Hk. destruct (Hpage k Hk) as [Hne Hp].
    rewrite GET_predictions by exact He.
    rewrite filterPredictions_withParam, Hf, bind_Ok by (simpl; tauto).
    rewrite (paginate_page _ _ (Z.of_nat k) lim); try lia.
    - repeat f_equal. nia.
    - rewrite get_withParam_eq. unfold orElse, truthy.
      now destruct (pageOf k).
    - now rewrite get_withParam_ne. }
  split.
  - intros k Hk. now rewrite Hget.
  - rewrite (map_ext_in _ (fun k => take (Z.to_nat lim)
               (drop ((k - 1) * Z.to_nat lim) (sortPredictions q fl)))).
    + rewrite <- seq_shift, map_map.
      rewrite (map_ext _ (fun i => take (Z.to_nat lim)
                 (drop (i * Z.to_nat lim) (sortPredictions q fl)))).
      * apply concat_chunks. rewrite sortPredictions_length.
        pose proof (ceiling_spec (Z.of_nat (length fl)) lim Hlim).
        pose proof (ceiling_nonneg (Z.of_nat (length fl)) lim ltac:(lia) Hlim).
        unfold n. nia.
      * intros i. now replace (S i - 1)%nat with i by lia.
    + intros k Hk. apply in_seq in Hk. now rewrite Hget by lia.
Qed.
End PageClaims.

Section SortFieldClaims.
Context {rt : Runtime}.

(** C2, as the handler has it.  For every query whose sortBy is none of
    confidence, gameTime, player, line, predictedValue, the list operation
    answers as it does for sortBy=confidence with the same sortOrder: it
    fails in no case where that query succeeds, and the results are
    ordered by confidence in the direction that sortOrder gives
    (descending unless sortOrder is asc). *)
Theorem unknown_sortBy_is_confidence (all : list PredictionData) (q : URLSearchParams) :
  get "endpoint" q = Some "predictions" ->
  ~ In (orElse (get "sortBy" q) "confidence") sortFields ->
  GET all q = GET all (withParam "sortBy" "confidence" q) /\
  forall fl, filterPredictions q all = Ok fl ->
    GET all q =
    Ok (json (PredictionsJson
      (paginate q
         (sort (comparefn "confidence" (orElse (get "sortOrder" q) "desc")) fl)))).
Proof.
  intros He Hs.
  assert (Hsort : forall fl, sortPredictions q fl =
    sort (comparefn "confidence" (orElse (get "sortOrder" q) "desc")) fl).
  { intros fl. unfold sortPredictions. apply sort_ext. intros a b.
    unfold comparefn. now rewrite (comparison_default _ a b Hs). }
  split.
  - rewrite !GET_predictions by (rewrite ?get_withParam_ne; auto).
    rewrite filterPredictions_withParam by (simpl; tauto).
    destruct (filterPredictions q all) as [fl|e]; [|reflexivity].
    rewrite !bind_Ok. rewrite Hsort. reflexivity.
  - intros fl Hf. now rewrite (GET_predictions _ _ He), Hf, bind_Ok, Hsort.
Qed.
End SortFieldClaims.

(** C1 with its floor at 1 does not hold: no prediction is of the sport
    Cricket, and the handler reports 0 pages, not 1. *)
Lemma totalPages_floor_counterexample :
  ~ (forall r, GET mockPredictions emptyQuery = Ok (json (PredictionsJson r)) ->
               total r = 0 -> totalPages r = Some 1).
Proof.
  intros H.
  discriminate
    (H {| predictions := []; total := 0; page := Some 1; limit := Some 10;
          totalPages := Some 0 |} eq_refl eq_refl).
Qed.

Lemma totalPages_ceiling_witness :
  exists r,
    GET mockPredictions emptyQuery = Ok (json (PredictionsJson r)) /\
    total r = Z.of_nat (length (@nil PredictionData)) /\
    totalPages r = Some (ceiling (total r) 10) /\
    (total r = 0 -> totalPages r = Some 0) /\
    hookTotalPages (Some r) = Z.max 1 (ceiling (total r) 10).
Proof.
  apply (totalPages_ceiling mockPredictions emptyQuery [] 10);
    [reflexivity|reflexivity|reflexivity|lia].
Defined.

(** C2 with its fixed direction does not hold: with an unknown sortBy and
    sortOrder=asc the results are not in the order of the default sort. *)
Lemma unknown_sortBy_counterexample :
  ~ In (orElse (get "sortBy" ascendingQuery) "confidence") sortFields /\
  predictionsOf (GET mockPredictions ascendingQuery) <>
  predictionsOf
    (GET mockPredictions
       (withParam "sortBy" "confidence" (withParam "sortOrder" "desc" ascendingQuery))).
Proof.
  split.
  - vm_compute. intuition discriminate.
  - intros H. apply (f_equal (map id)) in H. vm_compute in H. discriminate.
Qed.

Lemma unknown_sortBy_is_confidence_witness :
  GET mockPredictions ascendingQuery =
  GET mockPredictions (withParam "sortBy" "confidence" ascendingQuery).
Proof.
  refine (proj1 (unknown_sortBy_is_confidence mockPredictions ascendingQuery eq_refl _)).
  vm_compute. intuition discriminate.
Defined.

(** The scenario of the specification: page=99, limit=6 over the six NBA
    records. *)
Lemma page_out_of_range_witness :
  GET mockPredictions nbaLastPage =
  Ok (json (PredictionsJson
    {| predictions := []; total := 6; page := Some 99; limit := Some 6;
       totalPages := Some 1 |})).
Proof.
  apply (page_out_of_range mockPredictions nbaLastPage
           (List.filter (fun p => String.eqb (sport p) "NBA") mockPredictions) 99 6);
    [reflexivity|reflexivity|reflexivity|reflexivity|lia|reflexivity].
Defined.

Lemma pages_partition_witness :
  concat (map (fun k => predictionsOf
                 (GET mockPredictions (withParam "page" (pageNumber k) fivePerPage)))
            [1%nat; 2%nat; 3%nat]) =
  sortPredictions fivePerPage mockPredictions.
Proof.
  refine (proj2 (pages_partition mockPredictions fivePerPage mockPredictions 5
                   pageNumber eq_refl eq_refl eq_refl _ _)); [lia|].
  intros k Hk. change (1 <= k <= 3)%nat in Hk.
  destruct k as [|[|[|[|k]]]]; try lia; (split; [discriminate|reflexivity]).
Defined.

(* ================================================================== *)
(** * Sorting and the summary                                           *)
(* ================================================================== *)

Module SortFacts.
Section SortFacts.
Context {rt : Runtime}.

(** A comparison that is zero or NaN puts neither element after the
    other, in either direction. *)
Lemma after_zero (sortBy sortOrder : string) (a b : PredictionData) :
  match comparison sortBy a b with
  | Some v => (v == 0)%Q
  | None => True
  end ->
  after (comparefn sortBy sortOrder) a b = false.
Proof.
  unfold after, SortCompare, comparefn. intros H.
  apply negb_false_iff, Qle_bool_iff.
  destruct (String.eqb sortOrder "asc"), (comparison sortBy a b) as [v|];
    cbn [neg]; lra.
Qed.

Lemma Qeq_bool_trans_sub (x a b : Q) :
  Qeq_bool x a = true -> Qeq_bool x b = true -> (a - b == 0)%Q.
Proof. intros Ha%Qeq_bool_iff Hb%Qeq_bool_iff. lra. Qed.

Ltac eval_eqb := cbn [String.eqb Ascii.eqb Bool.eqb andb].

Lemma sameKey_comparison `{!RuntimeLaws rt} (sortBy : string) (x a b : PredictionData) :
  sameKey sortBy x a = true -> sameKey sortBy x b = true ->
  match comparison sortBy a b with
  | Some v => (v == 0)%Q
  | None => True
  end.
Proof.
  destruct (String.eqb_spec sortBy "confidence") as [->|H0].
  { unfold sameKey, comparison. eval_eqb. apply Qeq_bool_trans_sub. }
  destruct (String.eqb_spec sortBy "gameTime") as [->|H1].
  { unfold sameKey, comparison, getTime. eval_eqb.
    intros Ha%bool_decide_eq_true Hb%bool_decide_eq_true.
    rewrite <- Ha, <- Hb. destruct (Date_parse (gameTime x)); cbn; [lra|exact I]. }
  destruct (String.eqb_spec sortBy "player") as [->|H2].
  { unfold sameKey, comparison. eval_eqb.
    intros Ha%String.eqb_eq Hb%String.eqb_eq.
    rewrite <- Ha, <- Hb, localeCompare_refl. reflexivity. }
  destruct (String.eqb_spec sortBy "line") as [->|H3].
  { unfold sameKey, comparison. eval_eqb. apply Qeq_bool_trans_sub. }
  destruct (String.eqb_spec sortBy "predictedValue") as [->|H4].
  { unfold sameKey, comparison. eval_eqb. apply Qeq_bool_trans_sub. }
  unfold sameKey, comparison.
  apply String.eqb_neq in H0, H1, H2, H3, H4. rewrite H0, H1, H2, H3, H4.
  apply Qeq_bool_trans_sub.
Qed.
End SortFacts.
End SortFacts.

Import SortFacts.

Section SortClaims.
Context {rt : Runtime}.

(** C5.  The sort is stable: for every input sequence, every sort field
    and both directions, the records whose sort key has the same value
    as that of a given record are, after the sort, in the order they
    had before it.  (This holds of every sortBy and sortOrder, not only
    of the valid ones.) *)
Theorem stable_sort_by_key `{!RuntimeLaws rt} (sortBy sortOrder : string)
    (l : list PredictionData) (x : PredictionData) :
  List.filter (sameKey sortBy x) (sort (comparefn sortBy sortOrder) l) =
  List.filter (sameKey sortBy x) l.
Proof.
  apply sort_keeps_class. intros a b Ha Hb.
  apply after_zero. exact (sameKey_comparison sortBy x a b Ha Hb).
Qed.
End SortClaims.

Lemma stable_sort_by_key_witness :
  map id (List.filter (sameKey "confidence" (nth 2 mockPredictions lateGame))
            (sort (comparefn "confidence" "desc") mockPredictions)) = ["3"; "12"].
Proof.
  rewrite (stable_sort_by_key "confidence" "desc" mockPredictions
             (nth 2 mockPredictions lateGame)).
  reflexivity.
Defined.

Module SummaryFacts.
Section SummaryFacts.
Context {rt : Runtime}.

Lemma notAfter_desc (a b : PredictionData) :
  notAfter byConfidenceDesc a b <-> (confidence b <= confidence a)%Q.
Proof.
  unfold notAfter, after, SortCompare, byConfidenceDesc.
  rewrite negb_false_iff, Qle_bool_iff. split; intros; lra.
Qed.

Lemma sort_desc_sorted (l : list PredictionData) :
  StronglySorted (fun a b => (confidence b <= confidence a)%Q)
    (sort byConfidenceDesc l).
Proof.
  assert (H : StronglySorted (notAfter byConfidenceDesc) (sort byConfidenceDesc l)).
  { apply sort_sorted.
    - intros x y Hxy. apply notAfter_desc.
      destruct (after byConfidenceDesc x y) eqn:E; [|discriminate].
      unfold after, SortCompare, byConfidenceDesc in E.
      apply negb_true_iff in E.
      destruct (Qle_bool (confidence y - confidence x) 0) eqn:E'; [discriminate|].
      assert (~ (confidence y - confidence x <= 0)%Q)
        by (rewrite <- Qle_bool_iff; congruence).
      lra.
    - intros x y z Hxy%notAfter_desc Hyz%notAfter_desc. apply notAfter_desc. lra. }
  induction H as [|a s Hs IH Ha]; constructor; [assumption|].
  eapply List.Forall_impl; [|exact Ha]. intros b. apply notAfter_desc.
Qed.

Lemma sort_desc_stable (l : list PredictionData) (x : PredictionData) :
  List.filter (fun p => Qeq_bool (confidence x) (confidence p)) (sort byConfidenceDesc l) =
  List.filter (fun p => Qeq_bool (confidence x) (confidence p)) l.
Proof.
  apply sort_keeps_class. intros a b Ha%Qeq_bool_iff Hb%Qeq_bool_iff.
  unfold after, SortCompare, byConfidenceDesc.
  apply negb_false_iff, Qle_bool_iff. lra.
Qed.

Lemma GET_summary (all : list PredictionData) (q : URLSearchParams) :
  get "endpoint" q = Some "summary" ->
  GET all q = Ok (json (SummaryJson (summary all))).
Proof. intros H. unfold GET. now rewrite H. Qed.
End SummaryFacts.
End SummaryFacts.

Import SummaryFacts.

Section SummaryClaims.
Context {rt : Runtime}.

(** C6.  Whatever other parameters the query has, the summary ranks
    the records of the whole collection that have a confidence of at
    least 80 by descending confidence (records of equal confidence in
    their order in the collection), and its featuredPredictions are the
    first 3 of this ranking: at most 3 records. *)
Theorem featured_top3 (all : list PredictionData) (q : URLSearchParams) :
  get "endpoint" q = Some "summary" ->
  exists s ranked,
    GET all q = Ok (json (SummaryJson s)) /\
    Permutation ranked (List.filter (fun p => Qle_bool 80 (confidence p)) all) /\
    StronglySorted (fun a b => (confidence b <= confidence a)%Q) ranked /\
    (forall x,
       List.filter (fun p => Qeq_bool (confidence x) (confidence p)) ranked =
       List.filter (fun p => Qeq_bool (confidence x) (confidence p))
         (List.filter (fun p => Qle_bool 80 (confidence p)) all)) /\
    featuredPredictions s = take 3 ranked /\
    (length (featuredPredictions s) <= 3)%nat.
Proof.
  intros H. exists (summary all).
  exists (sort byConfidenceDesc (List.filter confident all)).
  split; [now apply GET_summary|].
  split; [apply sort_Permutation|].
  split; [apply sort_desc_sorted|].
  split; [intros x; apply sort_desc_stable|].
  assert (E : featuredPredictions (summary all) =
              take 3 (sort byConfidenceDesc (List.filter confident all))).
  { cbn [summary featuredPredictions]. now rewrite slice_prefix by lia. }
  split; [exact E|]. rewrite E, length_take. lia.
Qed.
End SummaryClaims.

Lemma featured_top3_witness :
  exists s,
    GET mockPredictions summaryQuery =
    Ok (json (SummaryJson s)) /\
    map id (featuredPredictions s) = ["2"; "3"; "12"].
Proof.
  destruct (featured_top3 mockPredictions summaryQuery
              eq_refl) as (s & ranked & Hs & _).
  exists s. split; [exact Hs|].
  injection Hs as <-. reflexivity.
Defined.

(* ================================================================== *)
(** * The store                                                         *)
(* ================================================================== *)

Module StoreFacts.
Import StoreDefs.

Section Rules.
Context {A B : Type}.

Lemma wp_ret (a : A) (h : Store.heap) (Q : result A -> Store.heap -> Prop) :
  Q (Ok a) h -> wp (mret a) h Q.
Proof. exact (fun H => H). Qed.

Lemma wp_lift (r : result A) (h : Store.heap) (Q : result A -> Store.heap -> Prop) :
  Q r h -> wp (Store.lift r) h Q.
Proof. exact (fun H => H). Qed.

Lemma wp_bind (c : Store.M A) (k : A -> Store.M B) (h : Store.heap) (Q : result B -> Store.heap -> Prop) :
  wp c h (fun r h' =>
            match r with
            | Ok a => wp (k a) h' Q
            | Throw e => Q (Throw e) h'
            end) ->
  wp (c ≫= k) h Q.
Proof.
  unfold wp, mbind, Store.M_bind. destruct (c h) as [[a|e] h']; exact (fun H => H).
Qed.
End Rules.

Lemma wp_load (a : Store.loc) (v : list PredictionData) (h : Store.heap)
    (Q : result (list PredictionData) -> Store.heap -> Prop) :
  h !! a = Some v -> Q (Ok v) h -> wp (Store.load a) h Q.
Proof. intros Ha H. unfold wp, Store.load. simpl. now rewrite Ha. Qed.

Lemma wp_alloc (v : list PredictionData) (h : Store.heap) (Q : result Store.loc -> Store.heap -> Prop) :
  (forall b, h !! b = None -> Q (Ok b) (<[b := v]> h)) -> wp (Store.alloc v) h Q.
Proof.
  intros H. unfold wp, Store.alloc. simpl. apply H.
  apply not_elem_of_dom, is_fresh.
Qed.

Lemma wp_store (a : Store.loc) (v : list PredictionData) (h : Store.heap)
    (Q : result unit -> Store.heap -> Prop) :
  Q (Ok tt) (<[a := v]> h) -> wp (Store.store a v) h Q.
Proof. exact (fun H => H). Qed.

Section Arrays.
Variable m : Store.loc.
Variable all : list PredictionData.

Lemma owns_alloc (b : Store.loc) (v : list PredictionData) (h : Store.heap) :
  h !! m = Some all -> h !! b = None -> owns m all b v (<[b := v]> h).
Proof.
  intros Hm Hb. assert (b <> m) by congruence.
  repeat split; [now rewrite lookup_insert_ne|now rewrite lookup_insert_eq|assumption].
Qed.

Lemma wp_spread (h : Store.heap) (Q : result Store.loc -> Store.heap -> Prop) :
  h !! m = Some all ->
  (forall b h', owns m all b all h' -> Q (Ok b) h') ->
  wp (Store.spread m) h Q.
Proof.
  intros Hm H. unfold Store.spread. apply wp_bind, (wp_load _ all); [assumption|].
  apply wp_alloc. intros b Hb. now apply H, owns_alloc.
Qed.

(** [filter] on the collection or on an array the handler built. *)
Lemma wp_filterA (f : PredictionData -> result bool) (a : Store.loc)
    (v : list PredictionData) (h : Store.heap) (Q : result Store.loc -> Store.heap -> Prop) :
  h !! m = Some all -> h !! a = Some v ->
  match filterM f v with
  | Ok r => forall b h', owns m all b r h' -> Q (Ok b) h'
  | Throw e => Q (Throw e) h
  end ->
  wp (Store.filterA f a) h Q.
Proof.
  intros Hm Ha H. unfold Store.filterA. apply wp_bind, (wp_load _ v); [assumption|].
  apply wp_bind, wp_lift. destruct (filterM f v) as [r|e]; [|assumption].
  apply wp_alloc. intros b Hb. now apply H, owns_alloc.
Qed.

Lemma wp_filterA_pure (f : PredictionData -> bool) (a : Store.loc)
    (v : list PredictionData) (h : Store.heap) (Q : result Store.loc -> Store.heap -> Prop) :
  h !! m = Some all -> h !! a = Some v ->
  (forall b h', owns m all b (List.filter f v) h' -> Q (Ok b) h') ->
  wp (Store.filterA (fun p => Ok (f p)) a) h Q.
Proof.
  intros Hm Ha H. apply (wp_filterA _ _ v); [assumption|assumption|].
  now rewrite (filterM_pure _ f).
Qed.

(** [sort] reorders the array it is called on; the collection stays as
    it is because that array is another one. *)
Lemma wp_sortA (c : PredictionData -> PredictionData -> number) (a : Store.loc)
    (v : list PredictionData) (h : Store.heap) (Q : result Store.loc -> Store.heap -> Prop) :
  owns m all a v h ->
  (forall h', owns m all a (sort c v) h' -> Q (Ok a) h') ->
  wp (Store.sortA c a) h Q.
Proof.
  intros (Hm & Ha & Hne) H. unfold Store.sortA.
  apply wp_bind, (wp_load _ v); [assumption|].
  apply wp_bind, wp_store, wp_ret, H.
  repeat split; [now rewrite lookup_insert_ne|now rewrite lookup_insert_eq|assumption].
Qed.

Lemma wp_sliceA (a : Store.loc) (start stop : option Z) (v : list PredictionData)
    (h : Store.heap) (Q : result Store.loc -> Store.heap -> Prop) :
  owns m all a v h ->
  (forall b h', owns m all b (slice v start stop) h' -> h' !! a = Some v ->
                Q (Ok b) h') ->
  wp (Store.sliceA a start stop) h Q.
Proof.
  intros (Hm & Ha & Hne) H. unfold Store.sliceA.
  apply wp_bind, (wp_load _ v); [assumption|].
  apply wp_alloc. intros b Hb. apply H; [now apply owns_alloc|].
  rewrite lookup_insert_ne; [assumption|congruence].
Qed.

Lemma wp_lengthA (a : Store.loc) (v : list PredictionData) (h : Store.heap)
    (Q : result Z -> Store.heap -> Prop) :
  h !! a = Some v -> Q (Ok (Z.of_nat (length v))) h -> wp (Store.lengthA a) h Q.
Proof.
  intros Ha H. unfold Store.lengthA. apply wp_bind, (wp_load _ v); [assumption|].
  now apply wp_ret.
Qed.

Lemma wp_countA (f : PredictionData -> bool) (h : Store.heap)
    (Q : result Z -> Store.heap -> Prop) :
  h !! m = Some all ->
  (forall h', h' !! m = Some all -> Q (Ok (Z.of_nat (length (List.filter f all)))) h') ->
  wp (Store.countA f m) h Q.
Proof.
  intros Hm H. unfold Store.countA.
  apply wp_bind, (wp_filterA_pure _ _ all); [assumption|assumption|].
  intros b h' (Hm' & Hb & _). apply (wp_lengthA _ (List.filter f all)); [assumption|].
  now apply H.
Qed.

(** An optional filter of the list operation. *)
Lemma wp_stage (o : option string) (f : string -> PredictionData -> bool) (a : Store.loc)
    (v : list PredictionData) (h : Store.heap) (Q : result Store.loc -> Store.heap -> Prop) :
  owns m all a v h ->
  (forall b h',
     owns m all b (match o with Some s => List.filter (f s) v | None => v end) h' ->
     Q (Ok b) h') ->
  wp (match o with
      | Some s => Store.filterA (fun p => Ok (f s p)) a
      | None => mret a
      end) h Q.
Proof.
  intros Ho H. destruct o as [s|].
  - destruct Ho as (Hm & Ha & _). now apply (wp_filterA_pure _ _ v).
  - now apply wp_ret, H.
Qed.
End Arrays.

Section Handler.
Context {rt : Runtime}.
Variable m : Store.loc.
Variable all : list PredictionData.

(** The list operation over the store answers as the handler over the
    collection's content does, and leaves the collection as it was. *)
Lemma wp_listPredictions (q : URLSearchParams) (h : Store.heap) :
  h !! m = Some all ->
  wp (Store.listPredictions m q) h (fun r h' =>
    r = (fl ← filterPredictions q all;
         Ok (json (PredictionsJson (paginate q (sortPredictions q fl))))) /\
    h' !! m = Some all).
Proof.
  intros Hm. unfold Store.listPredictions, filterPredictions.
  apply wp_bind, (wp_spread m all); [assumption|]. intros a0 h0 H0.
  apply wp_bind, (wp_stage m all _ (fun s p => String.eqb (sport p) s) _ all);
    [assumption|]. intros a1 h1 H1.
  apply wp_bind;
    eapply (wp_stage m all _ (fun s p => ge (Some (confidence p)) (ofZ (parseInt s))));
    [eassumption|]. intros a2 h2 H2.
  set (v2 := match truthy (get "minConfidence" q) with
             | Some s => List.filter _ _
             | None => _
             end) in *.
  apply wp_bind.
  assert (Hdate : forall Q : result Store.loc -> Store.heap -> Prop,
    match (match truthy (get "date" q) with
           | Some date => dateFilter date v2
           | None => Ok v2
           end) with
    | Ok v3 => forall b h', owns m all b v3 h' -> Q (Ok b) h'
    | Throw e => Q (Throw e) h2
    end ->
    wp (match truthy (get "date" q) with
        | Some date =>
            targetDate ← Store.lift (isoDatePart date);
            Store.filterA (fun p =>
                       predictionDate ← isoDatePart (gameTime p);
                       Ok (String.eqb predictionDate targetDate)) a2
        | None => mret a2
        end) h2 Q).
  { intros Q HQ. destruct H2 as (Hm2 & Ha2 & Hne2).
    destruct (truthy (get "date" q)) as [date|].
    - unfold dateFilter in HQ. apply wp_bind, wp_lift.
      destruct (isoDatePart date) as [targetDate|e]; [|exact HQ].
      rewrite bind_Ok in HQ. now apply (wp_filterA m all _ _ v2).
    - apply wp_ret, HQ. now repeat split. }
  apply Hdate. clear Hdate.
  destruct (match truthy (get "date" q) with
            | Some date => dateFilter date v2
            | None => Ok v2
            end) as [v3|e]; [|split; [reflexivity|apply H2]].
  rewrite bind_Ok. intros a3 h3 H3.
  apply wp_bind; eapply (wp_stage m all _ (fun s p => String.eqb (stat p) s));
    [eassumption|]. intros a4 h4 H4.
  apply wp_bind;
    eapply (wp_stage m all _
              (fun s p => String.eqb (team p) s || String.eqb (opponent p) s));
    [eassumption|]. intros a5 h5 H5.
  apply wp_bind;
    eapply (wp_stage m all _
              (fun s p => includes (toLowerCase (player p)) (toLowerCase s)));
    [eassumption|]. intros a6 h6 H6.
  set (v6 := match truthy (get "player" q) with
             | Some s => List.filter _ _
             | None => _
             end) in *.
  apply wp_bind, (wp_sortA m all _ _ v6); [assumption|]. intros h7 H7.
  apply wp_bind; eapply (wp_sliceA m all); [eassumption|].
  intros a8 h8 (Hm8 & Ha8 & _) Ha7.
  apply wp_bind, (wp_load _ _ _ _ Ha8).
  apply wp_bind, (wp_lengthA _ _ _ _ Ha7).
  apply wp_ret. split; [reflexivity|assumption].
Qed.

Lemma wp_summarize (h : Store.heap) :
  h !! m = Some all ->
  wp (Store.summarize m) h (fun r h' =>
    r = Ok (json (SummaryJson (summary all))) /\ h' !! m = Some all).
Proof.
  intros Hm. unfold Store.summarize.
  apply wp_bind, (wp_lengthA _ all); [assumption|].
  do 10 (apply wp_bind, (wp_countA m all); [assumption|]; clear h Hm; intros h Hm).
  apply wp_bind, (wp_filterA_pure m all _ _ all); [assumption|assumption|].
  intros a1 h1 H1.
  apply wp_bind, (wp_sortA m all _ _ _ _ _ H1). intros h2 H2.
  apply wp_bind, (wp_sliceA m all _ _ _ _ _ _ H2). intros a3 h3 (Hm3 & Ha3 & _) _.
  apply wp_bind, (wp_load _ _ _ _ Ha3).
  apply wp_ret. split; [reflexivity|assumption].
Qed.

(** The handler over the store computes [GET] of the collection's
    content and does not change that content. *)
Lemma wp_GET (q : URLSearchParams) (h : Store.heap) :
  h !! m = Some all ->
  wp (Store.GET m q) h (fun r h' => r = GET all q /\ h' !! m = Some all).
Proof.
  intros Hm. unfold Store.GET, GET.
  destruct (String.eqb (default "" (get "endpoint" q)) "predictions");
    [now apply wp_listPredictions|].
  destruct (String.eqb (default "" (get "endpoint" q)) "performance");
    [now apply wp_ret|].
  destruct (String.eqb (default "" (get "endpoint" q)) "summary");
    [now apply wp_summarize|].
  now apply wp_ret.
Qed.
End Handler.
End StoreFacts.

Import StoreDefs StoreFacts.

(** C9.  The list operation never changes the stored collection: after
    any query (any filter, sort and page parameters, and also when the
    request fails) the collection holds the same records in the same
    order as before, because the handler filters and sorts copies; and the
    handler over the store answers as [GET] does over the records. *)
Theorem snapshot_unchanged {rt : Runtime} (mockPredictions : Store.loc)
    (all : list PredictionData) (q : URLSearchParams) (h : Store.heap) :
  h !! mockPredictions = Some all ->
  (Store.GET mockPredictions q h).2 !! mockPredictions = Some all /\
  (Store.GET mockPredictions q h).1 = GET all q.
Proof.
  intros Hm. destruct (wp_GET mockPredictions all q h Hm) as [Hr Hh]. now split.
Qed.

Lemma snapshot_unchanged_witness :
  (Store.GET 0%nat [("endpoint", "predictions"); ("sortBy", "player"); ("sortOrder", "asc")]
     {[ 0%nat := mockPredictions ]}).2 !! 0%nat = Some mockPredictions.
Proof.
  refine (proj1 (snapshot_unchanged 0%nat mockPredictions _ _ _)).
  reflexivity.
Defined.

(* ================================================================== *)
(** * Further properties of the handler and of the client               *)
(* ================================================================== *)

(** The response of a request on concrete data, by evaluation: for a goal
    [exists r, b = Some r /\ _] it gives the [r] and keeps the equation
    as [H]. *)
Ltac evaluated H :=
  match goal with
  | |- exists r, ?b = Some r /\ _ =>
      let v := eval vm_compute in b in
      match v with
      | Some ?r =>
          exists r; assert (H : b = Some r) by (vm_compute; reflexivity);
          split; [exact H|]
      end
  end.

Module ListOpFacts.

Section Lists.
Context {A : Type}.

Lemma In_take (n : nat) (l : list A) (x : A) : In x (take n l) -> In x l.
Proof.
  revert l. induction n as [|n IH]; intros [|y l]; simpl; try tauto.
  intros [->|H]; [now left|right; now apply IH].
Qed.

Lemma In_drop (n : nat) (l : list A) (x : A) : In x (drop n l) -> In x l.
Proof.
  revert l. induction n as [|n IH]; intros [|y l]; simpl; try tauto.
  intros H. right. now apply IH.
Qed.

Lemma slice_In (l : list A) (a b : option Z) (x : A) : In x (slice l a b) -> In x l.
Proof. unfold slice. intros H. eapply In_drop, In_take, H. Qed.

Lemma slice_length (l : list A) (a b lim : Z) :
  0 <= lim -> b - a = lim ->
  Z.of_nat (length (slice l (Some a) (Some b))) <= lim.
Proof.
  intros Hlim Hab. unfold slice, toIntegerOrInfinity, clampIndex. simpl.
  rewrite length_take, length_drop.
  destruct (Z.ltb_spec a 0), (Z.ltb_spec b 0); lia.
Qed.

Lemma slice_stop_0 (l : list A) (a b : option Z) :
  default 0 b = 0 -> slice l a b = [].
Proof.
  intros Hb. unfold slice, toIntegerOrInfinity. rewrite Hb.
  set (len := Z.of_nat (length l)). assert (0 <= len) by (unfold len; lia).
  replace (Z.to_nat (clampIndex len 0 - clampIndex len (default 0 a))) with 0%nat;
    [reflexivity|].
  unfold clampIndex. simpl. destruct (Z.ltb_spec (default 0 a) 0); lia.
Qed.

Lemma StronglySorted_take (R : A -> A -> Prop) (n : nat) (l : list A) :
  StronglySorted R l -> StronglySorted R (take n l).
Proof.
  intros H. revert n. induction H as [|x l Hl IH Hx]; intros [|n]; simpl;
    try constructor; [apply IH|].
  apply List.Forall_forall. intros y Hy. apply In_take in Hy.
  revert y Hy. now apply List.Forall_forall.
Qed.

Lemma StronglySorted_drop (R : A -> A -> Prop) (n : nat) (l : list A) :
  StronglySorted R l -> StronglySorted R (drop n l).
Proof.
  intros H. revert n. induction H as [|x l Hl IH Hx]; intros [|n]; simpl;
    try constructor; try assumption. apply IH.
Qed.

Lemma StronglySorted_slice (R : A -> A -> Prop) (l : list A) (a b : option Z) :
  StronglySorted R l -> StronglySorted R (slice l a b).
Proof. intros H. unfold slice. now apply StronglySorted_take, StronglySorted_drop. Qed.

(** The sort orders a list on which the comparator is consistent: here
    [D] holds of the elements the comparator orders. *)
Section OrderedOn.
Variable comparefn : A -> A -> number.
Variable D : A -> Prop.
Hypothesis after_asym :
  forall x y, D x -> D y -> after comparefn x y = true -> after comparefn y x = false.
Hypothesis notAfter_trans :
  forall x y z, D x -> D y -> D z ->
    notAfter comparefn x y -> notAfter comparefn y z -> notAfter comparefn x z.

Lemma insert_sorted_on (x : A) (s : list A) :
  D x -> Forall D s ->
  StronglySorted (notAfter comparefn) s ->
  StronglySorted (notAfter comparefn) (insert comparefn x s).
Proof.
  intros Dx Ds H. induction H as [|y s Hs IH Hy]; simpl.
  - repeat constructor.
  - apply List.Forall_cons_iff in Ds as [Dy Ds].
    destruct (after comparefn x y) eqn:Hxy.
    + constructor; [now apply IH|].
      apply (Permutation_Forall (Permutation_sym (insert_Permutation comparefn x s))).
      constructor; [now apply after_asym|assumption].
    + constructor; [now constructor|].
      constructor; [exact Hxy|].
      apply List.Forall_forall. intros z Hz.
      apply (notAfter_trans x y z); try assumption.
      * revert z Hz. now apply List.Forall_forall.
      * revert z Hz. now apply List.Forall_forall.
Qed.

Lemma sort_sorted_on (l : list A) :
  Forall D l -> StronglySorted (notAfter comparefn) (sort comparefn l).
Proof.
  induction 1 as [|x l Dx Dl IH]; simpl; [constructor|].
  apply insert_sorted_on; [assumption| |assumption].
  apply (Permutation_Forall (Permutation_sym (sort_Permutation comparefn l))), Dl.
Qed.
End OrderedOn.
End Lists.

Section ListOpFacts.
Context {rt : Runtime}.

(** A response of the list operation comes from the filter step, the
    sort and the paginator. *)
Lemma GET_listBody (all : list PredictionData) (q : URLSearchParams)
    (r : PredictionsResponse) :
  listBody (GET all q) = Some r ->
  get "endpoint" q = Some "predictions" /\
  exists fl, filterPredictions q all = Ok fl /\ r = paginate q (sortPredictions q fl).
Proof.
  unfold GET. destruct (get "endpoint" q) as [e|]; simpl.
  - destruct (String.eqb_spec e "predictions") as [->|_].
    + destruct (filterPredictions q all) as [fl|x]; simpl; [|discriminate].
      intros H. injection H as <-. split; [reflexivity|]. now exists fl.
    + destruct (String.eqb e "performance"); [discriminate|].
      destruct (String.eqb e "summary"); discriminate.
  - discriminate.
Qed.

Lemma sortPredictions_In (q : URLSearchParams) (l : list PredictionData)
    (p : PredictionData) :
  In p (sortPredictions q l) <-> In p l.
Proof.
  unfold sortPredictions. split; apply Permutation_in;
    [|symmetry]; apply sort_Permutation.
Qed.

(** What the filter step keeps is in the collection and passes every
    stage. *)
Lemma filterPredictions_In (q : URLSearchParams) (all fl : list PredictionData)
    (p : PredictionData) :
  filterPredictions q all = Ok fl -> In p fl ->
  In p all /\ bySport q p = true /\ byConfidence q p = true /\
  dateStage q [p] = Ok [p] /\
  byStat q p = true /\ byTeam q p = true /\ byPlayer q p = true.
Proof.
  rewrite filterPredictions_stages. intros H Hp.
  destruct (dateStage q _) as [l|e] eqn:Hl; [|discriminate].
  rewrite bind_Ok in H. injection H as <-.
  repeat apply filter_In in Hp as [Hp ?].
  assert (Hd : In p (List.filter (byConfidence q) (List.filter (bySport q) all)) /\
               dateStage q [p] = Ok [p]).
  { unfold dateStage in *. destruct (truthy (get "date" q)) as [d|].
    - split; [exact (dateFilter_In _ _ _ Hl p Hp)|].
      apply (dateFilter_idem _ _ _ Hl). intros x [<-|[]]. exact Hp.
    - injection Hl as <-. now split. }
  destruct Hd as [Hin Hd]. repeat apply filter_In in Hin as [Hin ?]. tauto.
Qed.
(** What the filter step lets through satisfies the query filter. *)
Lemma filtered_satisfies `{!RuntimeLaws rt} (q : URLSearchParams)
    (all fl : list PredictionData) (p : PredictionData) :
  filterPredictions q all = Ok fl ->
  In p fl ->
  In p all /\ satisfies q p = true.
Proof.
  intros Hfl Hp.
  destruct (filterPredictions_In q all fl p Hfl Hp)
    as (Hall & Hsport & Hconf & Hdate & Hstat & Hteam & Hplayer).
  split; [assumption|].
  unfold satisfies, active.
  unfold bySport, byConfidence, byStat, byTeam, byPlayer, stagePred in *.
  rewrite Hstat, Hteam, Hplayer, Hsport, !andb_true_r. clear Hstat Hteam Hplayer Hsport.
  apply andb_true_iff. split.
  - unfold dateStage in Hdate. destruct (truthy (get "date" q)) as [d|]; [|reflexivity].
    unfold dateFilter, isoDatePart in Hdate.
    destruct (Date_parse d) as [td|] eqn:Hd; [|discriminate].
    rewrite bind_Ok in Hdate. cbn [filterM] in Hdate.
    destruct (Date_parse (gameTime p)) as [tp|] eqn:Htp; [|discriminate].
    rewrite <- (datePart_eqb _ _ _ _ Htp Hd).
    rewrite !bind_Ok in Hdate.
    destruct (String.eqb _ _); [reflexivity|discriminate].
  - destruct (truthy (get "minConfidence" q)) as [m|]; [|reflexivity].
    unfold ge, ofZ in Hconf. now destruct (parseInt m).
Qed.
End ListOpFacts.
End ListOpFacts.

Import ListOpFacts.

Section ListOpProperties.
Context {rt : Runtime}.

(** X1.  Every prediction in a response of the list operation is a record
    of the collection and satisfies every active predicate of the query. *)
Theorem listed_records_satisfy `{!RuntimeLaws rt} (all : list PredictionData)
    (q : URLSearchParams) (r : PredictionsResponse) (p : PredictionData) :
  listBody (GET all q) = Some r ->
  In p (predictions r) ->
  In p all /\ satisfies q p = true.
Proof.
  intros Hr Hp. apply GET_listBody in Hr as (_ & fl & Hfl & ->).
  cbn [predictions paginate] in Hp.
  apply slice_In in Hp. apply sortPredictions_In in Hp.
  exact (filtered_satisfies q all fl p Hfl Hp).
Qed.

(** X2.  A response of the list operation with a limit of 0 or more has at
    most that many predictions, whatever the page is, and never more than
    total. *)
Theorem page_size_at_most_limit (all : list PredictionData) (q : URLSearchParams)
    (r : PredictionsResponse) (lim : Z) :
  listBody (GET all q) = Some r ->
  limit r = Some lim ->
  0 <= lim ->
  Z.of_nat (length (predictions r)) <= lim /\
  Z.of_nat (length (predictions r)) <= total r.
Proof.
  intros Hr Hl Hlim. apply GET_listBody in Hr as (_ & fl & _ & ->).
  unfold paginate in *. cbn [limit predictions total] in *. rewrite Hl.
  split.
  - destruct (parseInt (orElse (get "page" q) "1")) as [pg|]; cbn [lift2].
    + apply slice_length; lia.
    + rewrite slice_stop_0 by reflexivity. simpl. lia.
  - unfold slice. rewrite length_take, length_drop. lia.
Qed.


(** X4.  A negative page is no error either: the handler counts it back
    from the end of the sorted list, page -1 being the [limit] records
    before the last [limit] ones. *)
Theorem negative_page_counts_from_end (all : list PredictionData)
    (q : URLSearchParams) (r : PredictionsResponse) (pg lim : Z) :
  listBody (GET all q) = Some r ->
  page r = Some pg -> limit r = Some lim ->
  pg < 0 -> 1 <= lim ->
  exists fl,
    filterPredictions q all = Ok fl /\
    let first := Z.max 0 (total r + (pg - 1) * lim) in
    let last := Z.max 0 (total r + pg * lim) in
    predictions r =
    take (Z.to_nat (last - first)) (drop (Z.to_nat first) (sortPredictions q fl)).
Proof.
  intros Hr Hp Hl Hpg Hlim. apply GET_listBody in Hr as (_ & fl & Hfl & ->).
  exists fl. split; [assumption|].
  unfold paginate in *. cbn [limit page predictions total] in *. rewrite Hp, Hl.
  cbn [lift2]. unfold slice, toIntegerOrInfinity, clampIndex. simpl default.
  destruct (Z.ltb_spec ((pg - 1) * lim) 0); [|nia].
  destruct (Z.ltb_spec (pg * lim) 0); [|nia].
  now rewrite !(Z.max_comm 0).
Qed.

(** X5.  The total of the list operation depends on the filters only:
    another sortBy, sortOrder, page or limit gives a response with the same
    total. *)
Theorem total_ignores_sort_and_page (all : list PredictionData) (q : URLSearchParams)
    (r : PredictionsResponse) (name value : string) :
  listBody (GET all q) = Some r ->
  In name ["sortBy"; "sortOrder"; "page"; "limit"] ->
  exists r',
    listBody (GET all (withParam name value q)) = Some r' /\ total r' = total r.
Proof.
  intros Hr Hname. apply GET_listBody in Hr as (He & fl & Hfl & ->).
  rewrite GET_predictions.
  - rewrite filterPredictions_withParam, Hfl, bind_Ok by assumption.
    eexists. split; [reflexivity|].
    unfold paginate. cbn [total]. now rewrite !sortPredictions_length.
  - rewrite get_withParam_ne; [assumption|].
    simpl in Hname. decompose [or] Hname; subst; try reflexivity; contradiction.
Qed.
End ListOpProperties.

Lemma listed_records_satisfy_witness :
  In (nth 2 mockPredictions lateGame) mockPredictions /\
  satisfies nbaThatDay (nth 2 mockPredictions lateGame) = true.
Proof.
  eapply (listed_records_satisfy mockPredictions nbaThatDay).
  - vm_compute. reflexivity.
  - vm_compute. repeat (try (left; reflexivity); right).
Defined.

Lemma page_size_at_most_limit_witness :
  exists r,
    listBody (GET mockPredictions fivePerPage) = Some r /\
    Z.of_nat (length (predictions r)) <= 5 /\
    Z.of_nat (length (predictions r)) <= total r.
Proof.
  evaluated H.
  apply (page_size_at_most_limit mockPredictions fivePerPage _ 5 H); [reflexivity|lia].
Defined.


Lemma negative_page_counts_from_end_witness :
  exists r,
    listBody (GET mockPredictions pageMinusOne) = Some r /\
    exists fl,
      filterPredictions pageMinusOne mockPredictions = Ok fl /\
      predictions r = take 5 (drop 4 (sortPredictions pageMinusOne fl)).
Proof.
  evaluated H.
  apply (negative_page_counts_from_end mockPredictions pageMinusOne _ (-1) 5 H);
    [reflexivity|reflexivity|lia|lia].
Defined.

Lemma total_ignores_sort_and_page_witness :
  exists r,
    listBody (GET mockPredictions fivePerPage) = Some r /\
    exists r',
      listBody (GET mockPredictions (withParam "sortBy" "line" fivePerPage)) = Some r' /\
      total r' = total r.
Proof.
  evaluated H.
  apply (total_ignores_sort_and_page mockPredictions fivePerPage _ "sortBy" "line" H).
  simpl. left. reflexivity.
Defined.

Import ListOpFacts.

Module OrderFacts.
Section OrderFacts.
Context {rt : Runtime}.

Ltac eval_eqb := cbn [String.eqb Ascii.eqb Bool.eqb andb].

(** For every sort field but [player] the comparator is the difference
    of the sort keys. *)
Lemma comparison_sortKey (sortBy : string) (a b : PredictionData) :
  sortBy <> "player" ->
  comparison sortBy a b = sub (sortKey sortBy a) (sortKey sortBy b).
Proof.
  intros Hp.
  destruct (String.eqb_spec sortBy "confidence") as [->|H0].
  { unfold comparison, sortKey. eval_eqb. reflexivity. }
  destruct (String.eqb_spec sortBy "gameTime") as [->|H1].
  { unfold comparison, sortKey. eval_eqb. reflexivity. }
  destruct (String.eqb_spec sortBy "line") as [->|H3].
  { unfold comparison, sortKey. eval_eqb. reflexivity. }
  destruct (String.eqb_spec sortBy "predictedValue") as [->|H4].
  { unfold comparison, sortKey. eval_eqb. reflexivity. }
  unfold comparison, sortKey.
  apply String.eqb_neq in H0, H1, Hp, H3, H4. now rewrite H0, H1, Hp, H3, H4.
Qed.

Lemma notAfter_inOrder (sortBy sortOrder : string) (a b : PredictionData) :
  sortBy <> "player" ->
  is_Some (sortKey sortBy a) -> is_Some (sortKey sortBy b) ->
  notAfter (comparefn sortBy sortOrder) a b <-> inOrder sortBy sortOrder a b.
Proof.
  intros Hp [x Hx] [y Hy].
  unfold notAfter, after, SortCompare, comparefn, inOrder.
  rewrite (comparison_sortKey _ _ _ Hp), Hx, Hy. cbn [sub neg].
  rewrite negb_false_iff, Qle_bool_iff.
  destruct (String.eqb sortOrder "asc"); split; intros; lra.
Qed.

Lemma after_inOrder (sortBy sortOrder : string) (a b : PredictionData) :
  sortBy <> "player" ->
  is_Some (sortKey sortBy a) -> is_Some (sortKey sortBy b) ->
  after (comparefn sortBy sortOrder) a b = true -> inOrder sortBy sortOrder b a.
Proof.
  intros Hp [x Hx] [y Hy].
  unfold after, SortCompare, comparefn, inOrder.
  rewrite (comparison_sortKey _ _ _ Hp), Hx, Hy. cbn [sub neg].
  rewrite negb_true_iff. intros H.
  assert (H' : forall v, Qle_bool v 0 = false -> (0 < v)%Q).
  { intros v Hv. apply Qnot_le_lt. rewrite <- Qle_bool_iff. congruence. }
  destruct (String.eqb sortOrder "asc"); apply H' in H; lra.
Qed.

Lemma inOrder_trans (sortBy sortOrder : string) (a b c : PredictionData) :
  is_Some (sortKey sortBy b) ->
  inOrder sortBy sortOrder a b -> inOrder sortBy sortOrder b c ->
  inOrder sortBy sortOrder a c.
Proof.
  intros [y Hy]. unfold inOrder. rewrite Hy.
  destruct (sortKey sortBy a), (sortKey sortBy c); try tauto.
  destruct (String.eqb sortOrder "asc"); intros; lra.
Qed.

Lemma StronglySorted_impl_on {A : Type} (R R' : A -> A -> Prop) (D : A -> Prop)
    (l : list A) :
  (forall x y, D x -> D y -> R x y -> R' x y) ->
  Forall D l -> StronglySorted R l -> StronglySorted R' l.
Proof.
  intros HR HD H. induction H as [|x l Hl IH Hx]; constructor.
  - apply IH. now apply List.Forall_cons_iff in HD.
  - apply List.Forall_cons_iff in HD as [Dx Dl].
    apply List.Forall_forall. intros y Hy. apply HR; try assumption.
    + revert y Hy. now apply List.Forall_forall.
    + revert y Hy. now apply List.Forall_forall.
Qed.

(** The sort orders by the key the records whose key is a number. *)
Lemma sort_inOrder (sortBy sortOrder : string) (l : list PredictionData) :
  sortBy <> "player" ->
  Forall (fun p => is_Some (sortKey sortBy p)) l ->
  StronglySorted (inOrder sortBy sortOrder) (sort (comparefn sortBy sortOrder) l).
Proof.
  intros Hp Hl.
  apply (StronglySorted_impl_on (notAfter (comparefn sortBy sortOrder)) _
           (fun p => is_Some (sortKey sortBy p))).
  - intros x y Dx Dy. now apply notAfter_inOrder.
  - apply (Permutation_Forall (Permutation_sym (sort_Permutation _ l))), Hl.
  - apply (sort_sorted_on _ (fun p => is_Some (sortKey sortBy p))); [| |exact Hl].
    + intros x y Dx Dy H. apply notAfter_inOrder; try assumption.
      now apply after_inOrder.
    + intros x y z Dx Dy Dz Hxy Hyz.
      apply notAfter_inOrder in Hxy, Hyz; try assumption.
      apply notAfter_inOrder; try assumption.
      now apply (inOrder_trans _ _ x y z).
Qed.

(** [filter] with a callback that may throw: it throws exactly when the
    callback throws on some element. *)
Lemma filterM_Throw {A : Type} (f : A -> result bool) (l : list A) :
  filterM f l = Throw RangeError <-> Exists (fun x => f x = Throw RangeError) l.
Proof.
  induction l as [|x l IH]; simpl.
  - split; [discriminate|]. intros H. inversion H.
  - rewrite List.Exists_cons. destruct (f x) as [b|[]]; simpl.
    + destruct (filterM f l) as [r|[]]; simpl.
      * split; [discriminate|]. intros [H|H]; [discriminate|].
        now apply IH in H.
      * split; [|reflexivity]. intros _. right. now apply IH.
    + split; [now left|reflexivity].
Qed.

Lemma sort_ext_after {A : Type} (c c' : A -> A -> number) (l : list A) :
  (forall a b, after c a b = after c' a b) -> sort c l = sort c' l.
Proof.
  intros H. induction l as [|x l IH]; [reflexivity|].
  cbn [sort List.fold_right]. fold (sort c l) (sort c' l). rewrite IH.
  generalize (sort c' l). intros s. induction s as [|y s IHs]; [reflexivity|].
  cbn [insert]. now rewrite H, IHs.
Qed.
End OrderFacts.
End OrderFacts.

Module CountFacts.
Section CountFacts.
Context {rt : Runtime}.

Lemma count_le (f : PredictionData -> bool) (l : list PredictionData) :
  0 <= count f l <= Z.of_nat (length l).
Proof. unfold count. pose proof (List.filter_length_le f l). lia. Qed.

Lemma count_all (f : PredictionData -> bool) (l : list PredictionData) :
  count f l = Z.of_nat (length l) <-> Forall (fun p => f p = true) l.
Proof.
  unfold count. induction l as [|x l IH]; simpl.
  - split; [constructor|reflexivity].
  - pose proof (List.filter_length_le f l). rewrite List.Forall_cons_iff.
    destruct (f x); simpl.
    + rewrite <- IH. split; [intros; split; [reflexivity|lia]|intros [_ ?]; lia].
    + split; [lia|intros [? _]; discriminate].
Qed.

(** Counting by each of several distinct keys and adding up counts the
    records that have one of the keys. *)
Lemma count_keys (k : PredictionData -> string) (keys : list string)
    (l : list PredictionData) :
  NoDup keys ->
  List.fold_right (fun c acc => count (fun p => String.eqb (k p) c) l + acc) 0 keys =
  count (fun p => oneOf keys (k p)) l.
Proof.
  intros Hk. induction Hk as [|c keys Hc Hk IH]; simpl.
  - unfold count, oneOf. induction l as [|x l IHl]; simpl; [reflexivity|exact IHl].
  - rewrite IH. unfold count, oneOf. clear IH.
    induction l as [|x l IHl]; simpl; [reflexivity|].
    destruct (String.eqb_spec (k x) c) as [E|E]; simpl.
    + replace (existsb (String.eqb (k x)) keys) with false; [simpl in *; lia|].
      symmetry. apply Bool.not_true_iff_false. intros H.
      apply existsb_exists in H as (y & Hy & Hxy). apply String.eqb_eq in Hxy.
      apply list_elem_of_In in Hy. congruence.
    + destruct (existsb (String.eqb (k x)) keys); simpl in *; lia.
Qed.
End CountFacts.
End CountFacts.

Import OrderFacts CountFacts.

Section ListOpOrder.
Context {rt : Runtime}.

(** X6.  The predictions of a response are in the order of the sort key:
    for every sort field but player (confidence for an unknown one),
    ascending when sortOrder is asc and descending otherwise.  When the
    field is gameTime this needs every game time of the collection to be a
    date. *)
Theorem page_is_ordered (all : list PredictionData) (q : URLSearchParams)
    (r : PredictionsResponse) :
  let sortBy := orElse (get "sortBy" q) "confidence" in
  let sortOrder := orElse (get "sortOrder" q) "desc" in
  listBody (GET all q) = Some r ->
  sortBy <> "player" ->
  (sortBy = "gameTime" -> Forall (fun p => parses (gameTime p)) all) ->
  StronglySorted (inOrder sortBy sortOrder) (predictions r).
Proof.
  intros sortBy sortOrder Hr Hp Hg. apply GET_listBody in Hr as (_ & fl & Hfl & ->).
  unfold paginate. cbn [predictions]. apply StronglySorted_slice.
  unfold sortPredictions. fold sortBy sortOrder. apply sort_inOrder; [assumption|].
  apply List.Forall_forall. intros p Hin.
  apply (filterPredictions_In q all fl p Hfl) in Hin as [Hin _].
  unfold sortKey, getTime.
  destruct (String.eqb_spec sortBy "gameTime") as [E|_].
  - apply (proj1 (List.Forall_forall _ _) (Hg E)) in Hin as [t Ht].
    rewrite Ht. now eexists.
  - destruct (String.eqb sortBy "line"); [now eexists|].
    destruct (String.eqb sortBy "predictedValue"); now eexists.
Qed.

(** X7.  The handler throws for one reason only: in the list operation,
    when a date is given and either it is not a date or the game time of a
    record that passes the sport and confidence filters is not a date.  It
    then throws whatever the collection holds otherwise; no other request
    throws. *)
Theorem GET_throws_iff (all : list PredictionData) (q : URLSearchParams) :
  GET all q = Throw RangeError <->
  get "endpoint" q = Some "predictions" /\
  exists d,
    truthy (get "date" q) = Some d /\
    (Date_parse d = None \/
     Exists (fun p => Date_parse (gameTime p) = None)
       (List.filter (byConfidence q) (List.filter (bySport q) all))).
Proof.
  unfold GET. destruct (get "endpoint" q) as [e|]; simpl.
  2:{ split; [discriminate|]. intros [H _]. discriminate. }
  destruct (String.eqb_spec e "predictions") as [->|Hne].
  - rewrite filterPredictions_stages. unfold dateStage.
    set (pre := List.filter (byConfidence q) (List.filter (bySport q) all)).
    destruct (truthy (get "date" q)) as [d|].
    + unfold dateFilter, isoDatePart.
      destruct (Date_parse d) as [td|] eqn:Hd0.
      * rewrite bind_Ok.
        destruct (filterM _ pre) as [l|[]] eqn:Hf; simpl.
        -- split; [discriminate|]. intros (_ & d' & Hd & [H|H]).
           ++ injection Hd as <-. congruence.
           ++ exfalso. assert (Hx : filterM
                (fun p => predictionDate ← match Date_parse (gameTime p) with
                                           | Some t => Ok (splitHead "T" (toISOString t))
                                           | None => Throw RangeError
                                           end;
                          Ok (String.eqb predictionDate (splitHead "T" (toISOString td))))
                pre = Throw RangeError); [|congruence].
              apply filterM_Throw. eapply List.Exists_impl; [|exact H].
              intros p Hp. simpl in Hp. now rewrite Hp.
        -- split; [|reflexivity]. intros _. split; [reflexivity|].
           exists d. split; [reflexivity|]. right.
           apply filterM_Throw in Hf. eapply List.Exists_impl; [|exact Hf].
           intros p Hp. simpl in Hp. destruct (Date_parse (gameTime p)); [|reflexivity].
           discriminate.
      * simpl. split; [|reflexivity]. intros _. split; [reflexivity|].
        exists d. split; [reflexivity|now left].
    + simpl. split; [discriminate|]. intros (_ & d & Hd & _). discriminate.
  - destruct (String.eqb e "performance");
      [split; [discriminate|intros [H _]; congruence]|].
    destruct (String.eqb e "summary");
      split; try discriminate; intros [H _]; congruence.
Qed.
End ListOpOrder.

Section SummaryProperties.
Context {rt : Runtime}.

Lemma GET_summaryBody (all : list PredictionData) (q : URLSearchParams)
    (s : SummaryData) :
  summaryBody (GET all q) = Some s -> s = summary all.
Proof.
  unfold GET. destruct (String.eqb _ "predictions").
  - destruct (filterPredictions q all); discriminate.
  - destruct (String.eqb _ "performance"); [discriminate|].
    destruct (String.eqb _ "summary"); [|discriminate].
    intros H. now injection H.
Qed.

(** X8.  In a summary the counts by sport add up to at most
    totalPredictions, and to totalPredictions exactly when the sport of
    every record is one of the five that are counted; the same holds of
    the counts by confidence category. *)
Theorem breakdowns_add_up (all : list PredictionData) (q : URLSearchParams)
    (s : SummaryData) :
  summaryBody (GET all q) = Some s ->
  (sumCounts (sportBreakdown s) <= totalPredictions s /\
   (sumCounts (sportBreakdown s) = totalPredictions s <->
    Forall (fun p => In (sport p) sports) all)) /\
  (sumCounts (confidenceBreakdown s) <= totalPredictions s /\
   (sumCounts (confidenceBreakdown s) = totalPredictions s <->
    Forall (fun p => In (confidenceCategory p) categories) all)).
Proof.
  intros Hs. apply GET_summaryBody in Hs as ->.
  assert (Hone : forall keys x, oneOf keys x = true <-> In x keys).
  { intros keys x. unfold oneOf. rewrite existsb_exists. split.
    - intros (y & Hy & E). apply String.eqb_eq in E. now subst.
    - intros H. exists x. split; [assumption|apply String.eqb_refl]. }
  assert (Hsport : sumCounts (sportBreakdown (summary all)) =
                   count (fun p => oneOf sports (sport p)) all).
  { rewrite <- (count_keys sport sports all); [reflexivity|]. unfold sports.
    repeat (constructor; [rewrite list_elem_of_In; simpl; intuition discriminate|]).
    constructor. }
  assert (Hcat : sumCounts (confidenceBreakdown (summary all)) =
                 count (fun p => oneOf categories (confidenceCategory p)) all).
  { rewrite <- (count_keys confidenceCategory categories all); [reflexivity|].
    unfold categories.
    repeat (constructor; [rewrite list_elem_of_In; simpl; intuition discriminate|]).
    constructor. }
  rewrite Hsport, Hcat. cbn [summary totalPredictions].
  split; (split; [apply count_le|]); rewrite count_all;
    split; apply List.Forall_impl; intros p; apply Hone.
Qed.

(** X9.  The summary and the list operation agree on the size of the
    collection: totalPredictions is the total of a list query that has no
    active filter. *)
Theorem summary_total_is_list_total (all : list PredictionData)
    (q q' : URLSearchParams) (s : SummaryData) (r : PredictionsResponse) :
  summaryBody (GET all q) = Some s ->
  listBody (GET all q') = Some r ->
  (forall name, In name ["sport"; "minConfidence"; "date"; "stat"; "team"; "player"] ->
                truthy (get name q') = None) ->
  total r = totalPredictions s.
Proof.
  intros Hs Hr Hq. apply GET_summaryBody in Hs as ->.
  apply GET_listBody in Hr as (_ & fl & Hfl & ->).
  unfold filterPredictions in Hfl.
  rewrite !Hq in Hfl by (simpl; tauto). injection Hfl as <-.
  unfold paginate. cbn [total summary totalPredictions].
  now rewrite sortPredictions_length.
Qed.

(** X10.  The featured predictions of the summary are the first page of
    the list operation for minConfidence=80 and limit=3, in its default
    order. *)
Theorem featured_is_first_page (all : list PredictionData) (q : URLSearchParams)
    (s : SummaryData) :
  summaryBody (GET all q) = Some s ->
  parseInt "80" = Some 80 -> parseInt "3" = Some 3 -> parseInt "1" = Some 1 ->
  exists r,
    listBody (GET all [("endpoint", "predictions"); ("minConfidence", "80");
                       ("limit", "3")]) = Some r /\
    predictions r = featuredPredictions s.
Proof.
  intros Hs H80 H3 H1. apply GET_summaryBody in Hs as ->.
  rewrite GET_predictions by reflexivity.
  unfold filterPredictions. cbn [get String.eqb Ascii.eqb Bool.eqb andb truthy].
  rewrite bind_Ok. eexists. split; [reflexivity|].
  unfold paginate, sortPredictions, orElse.
  cbn [get String.eqb Ascii.eqb Bool.eqb andb truthy predictions].
  rewrite H80, H3, H1. cbn [summary featuredPredictions lift2 ofZ ge].
  f_equal. apply sort_ext_after. intros a b.
  unfold after, SortCompare, comparefn, comparison.
  cbn [String.eqb Ascii.eqb Bool.eqb andb neg]. f_equal.
  destruct (Qle_bool (- (confidence a - confidence b)) 0) eqn:E; symmetry.
  - apply Qle_bool_iff in E. apply Qle_bool_iff. lra.
  - apply Bool.not_true_iff_false. intros E'. apply Qle_bool_iff in E'.
    apply Bool.not_true_iff_false in E. apply E, Qle_bool_iff. lra.
Qed.
End SummaryProperties.

Lemma page_is_ordered_witness :
  exists r,
    listBody (GET mockPredictions byGameTime) = Some r /\
    StronglySorted (inOrder "gameTime" "asc") (predictions r).
Proof.
  evaluated H.
  apply (page_is_ordered mockPredictions byGameTime _ H).
  - discriminate.
  - intros _. repeat (constructor; [eexists; reflexivity|]). constructor.
Defined.

Lemma breakdowns_add_up_witness :
  exists s,
    summaryBody (GET mockPredictions summaryQuery) = Some s /\
    sumCounts (sportBreakdown s) = totalPredictions s /\
    sumCounts (confidenceBreakdown s) = totalPredictions s.
Proof.
  evaluated H.
  destruct (breakdowns_add_up mockPredictions summaryQuery _ H) as [[_ Hs] [_ Hc]].
  split; [apply Hs|apply Hc];
    repeat (constructor; [vm_compute; repeat (try (left; reflexivity); right)|]);
    constructor.
Defined.

Lemma summary_total_is_list_total_witness :
  exists s,
    summaryBody (GET mockPredictions summaryQuery) = Some s /\
    exists r,
      listBody (GET mockPredictions fivePerPage) = Some r /\
      total r = totalPredictions s.
Proof.
  evaluated Hs. evaluated Hr.
  apply (summary_total_is_list_total mockPredictions summaryQuery fivePerPage _ _ Hs Hr).
  intros name H. simpl in H.
  decompose [or] H; subst; try reflexivity; contradiction.
Defined.

Lemma featured_is_first_page_witness :
  exists s,
    summaryBody (GET mockPredictions summaryQuery) = Some s /\
    exists r,
      listBody (GET mockPredictions [("endpoint", "predictions"); ("minConfidence", "80");
                                     ("limit", "3")]) = Some r /\
      predictions r = featuredPredictions s.
Proof.
  evaluated H.
  apply (featured_is_first_page mockPredictions summaryQuery _ H); reflexivity.
Defined.

Module NumberFacts.

Ltac eval_code :=
  repeat match goal with
  | |- context [Z.of_nat (nat_of_ascii ?c)] =>
      let v := eval vm_compute in (Z.of_nat (nat_of_ascii c)) in
      change (Z.of_nat (nat_of_ascii c)) with v
  end.

Lemma parseDigits_acc (d : Decimal.uint) (p : positive) :
  Ascii7.parseDigits 10 (Some (Z.pos p)) (NilEmpty.string_of_uint d) =
  Some (Z.pos (Pos.of_uint_acc d p)).
Proof.
  revert p. induction d; intros p; simpl; [reflexivity|..]; rewrite <- IHd;
    eval_code; do 2 f_equal; lia.
Qed.

Lemma parseDigits_zero (d : Decimal.uint) :
  Ascii7.parseDigits 10 (Some 0) (NilEmpty.string_of_uint d) = Some (Z.of_uint d).
Proof.
  unfold Z.of_uint. induction d; simpl; [reflexivity|exact IHd|..];
    apply parseDigits_acc.
Qed.

(** Reading the digits of a number written in decimal gives the number. *)
Lemma parseInt_uint (d : Decimal.uint) :
  Ascii7.parseInt (NilZero.string_of_uint d) = Some (Z.of_uint d).
Proof.
  pose proof (parseDigits_zero d) as H.
  destruct d; [reflexivity|..];
    try (unfold Ascii7.parseInt; simpl in *; rewrite H; f_equal; lia).
  (* after a leading zero comes a digit or the end, not an x *)
  destruct d; [reflexivity|..];
    unfold Ascii7.parseInt; simpl in *; rewrite H; f_equal; lia.
Qed.

Lemma parseInt_numberToString (n : Z) :
  Ascii7.parseInt (numberToString n) = Some n.
Proof.
  unfold numberToString. rewrite <- (DecimalZ.of_to n) at 2.
  destruct (Z.to_int n) as [d|d]; cbn [NilZero.string_of_int Z.of_int].
  - apply parseInt_uint.
  - pose proof (parseInt_uint d) as H. revert H.
    unfold Ascii7.parseInt. 
    destruct d as [|d|d|d|d|d|d|d|d|d|d]; [reflexivity|..].
    all: try (simpl; destruct (Ascii7.parseDigits _ _ _); intros H;
              [injection H as <-; f_equal; lia|discriminate]).
    destruct d; [reflexivity|..];
      simpl; destruct (Ascii7.parseDigits _ _ _); intros H;
      try discriminate; injection H as <-; f_equal; lia.
Qed.
End NumberFacts.

Module ClientFacts.
Import Predictions.

Lemma get_append (k name value : string) (ps : URLSearchParams) :
  get k (append name value ps) =
  match get k ps with
  | Some x => Some x
  | None => if String.eqb name k then Some value else None
  end.
Proof.
  unfold append. induction ps as [|[k' v'] ps IH]; simpl; [reflexivity|].
  destruct (String.eqb k' k); [reflexivity|exact IH].
Qed.

Lemma get_appendString (k name value : string) (ps : URLSearchParams) :
  get k (appendString name value ps) =
  match get k ps with
  | Some x => Some x
  | None => if String.eqb name k then truthy (Some value) else None
  end.
Proof.
  unfold appendString. destruct (String.eqb_spec value "") as [->|Hv].
  - destruct (get k ps), (String.eqb name k); reflexivity.
  - rewrite get_append. destruct (get k ps), (String.eqb name k); try reflexivity.
    destruct value; [contradiction|reflexivity].
Qed.

Lemma get_appendNumber (k name : string) (value : Z) (ps : URLSearchParams) :
  get k (appendNumber name value ps) =
  match get k ps with
  | Some x => Some x
  | None =>
      if String.eqb name k
      then (if value =? 0 then None else Some (numberToString value))
      else None
  end.
Proof.
  unfold appendNumber. destruct (value =? 0).
  - destruct (get k ps), (String.eqb name k); reflexivity.
  - apply get_append.
Qed.

Lemma option_match_id {A : Type} (o : option A) :
  match o with
  | Some x => Some x
  | None => None
  end = o.
Proof. now destruct o. Qed.

Ltac get_query :=
  unfold queryParams;
  repeat (rewrite get_appendNumber || rewrite get_appendString || rewrite get_append);
  cbn [get String.eqb Ascii.eqb Bool.eqb andb];
  rewrite ?option_match_id.

(** What the handler reads in the query of the hook. *)
Lemma get_queryParams (f : FilterOptions) :
  get "endpoint" (queryParams f) = Some "predictions" /\
  get "sport" (queryParams f) = truthy (Some (sport f)) /\
  get "date" (queryParams f) = truthy (Some (date f)) /\
  get "minConfidence" (queryParams f) =
    (if minConfidence f =? 0 then None else Some (numberToString (minConfidence f))) /\
  get "stat" (queryParams f) = truthy (Some (stat f)) /\
  get "team" (queryParams f) = truthy (Some (team f)) /\
  get "player" (queryParams f) = truthy (Some (player f)) /\
  get "sortBy" (queryParams f) = truthy (Some (sortBy f)) /\
  get "sortOrder" (queryParams f) = truthy (Some (sortOrder f)) /\
  get "page" (queryParams f) =
    (if page f =? 0 then None else Some (numberToString (page f))) /\
  get "limit" (queryParams f) =
    (if limit f =? 0 then None else Some (numberToString (limit f))).
Proof. repeat split; get_query; reflexivity. Qed.

Lemma truthy_idem (s : option string) : truthy (truthy s) = truthy s.
Proof. destruct s as [[|c s]|]; reflexivity. Qed.

(** The filter step reads the six filter parameters only. *)
Lemma filterPredictions_ext {rt : Runtime} (q q' : URLSearchParams)
    (all : list PredictionData) :
  (forall k, In k ["sport"; "minConfidence"; "date"; "stat"; "team"; "player"] ->
             get k q = get k q') ->
  filterPredictions q all = filterPredictions q' all.
Proof.
  intros H. unfold filterPredictions. now rewrite !H by (simpl; tauto).
Qed.
End ClientFacts.

Lemma asciiRuntime_readsNumbers : readsNumbers (rt := asciiRuntime).
Proof. intros n _. apply NumberFacts.parseInt_numberToString. Qed.

Import NumberFacts ClientFacts.

Lemma numberToString_nonempty (n : Z) : numberToString n <> "".
Proof.
  unfold numberToString. destruct (Z.to_int n) as [d|d]; simpl;
    [destruct d|]; discriminate.
Qed.

Section HookAndHandler.
Context {rt : Runtime}.

Lemma truthy_number (n : Z) : truthy (Some (numberToString n)) = Some (numberToString n).
Proof.
  pose proof (numberToString_nonempty n). now destruct (numberToString n).
Qed.

(** X11.  From the hook to the handler and back: when the runtime reads
    numbers back from their digits, every prediction the hook receives
    for its filters is a record of the collection that has
    the sport, the UTC date, the stat type, the team (on either side) and
    the player text of the filters, and at least their minimal
    confidence; an empty text or a minimal confidence of 0 asks for
    nothing. *)
Theorem hook_records_match_filters `{!RuntimeLaws rt} (all : list PredictionData)
    (f : Predictions.FilterOptions) (r : PredictionsResponse) (p : PredictionData) :
  readsNumbers ->
  isSafeInteger (Predictions.minConfidence f) = true ->
  listBody (GET all (Predictions.queryParams f)) = Some r ->
  In p (predictions r) ->
  In p all /\
  (Predictions.sport f = "" \/ sport p = Predictions.sport f) /\
  (Predictions.date f = "" \/ sameUtcDate (gameTime p) (Predictions.date f) = true) /\
  (Predictions.minConfidence f = 0 \/
   (inject_Z (Predictions.minConfidence f) <= confidence p)%Q) /\
  (Predictions.stat f = "" \/ stat p = Predictions.stat f) /\
  (Predictions.team f = "" \/
   team p = Predictions.team f \/ opponent p = Predictions.team f) /\
  (Predictions.player f = "" \/
   includes (toLowerCase (player p)) (toLowerCase (Predictions.player f)) = true).
Proof.
  intros Hread Hsafe Hr Hp.
  assert (HS : In p all /\ satisfies (Predictions.queryParams f) p = true).
  { apply GET_listBody in Hr as (_ & fl & Hfl & ->).
    apply slice_In, sortPredictions_In in Hp.
    exact (filtered_satisfies _ all fl p Hfl Hp). }
  destruct HS as [Hall Hs].
  split; [assumption|]. revert Hs. unfold satisfies, active.
  destruct (get_queryParams f)
    as (_ & -> & -> & -> & -> & -> & -> & _).
  rewrite !truthy_idem, !andb_true_iff.
  intros [[[[[Hsport Hdate] Hconf] Hstat] Hteam] Hplayer].
  repeat split.
  - destruct (Predictions.sport f); [now left|right].
    now apply String.eqb_eq in Hsport.
  - destruct (Predictions.date f); [now left|now right].
  - destruct (Z.eqb_spec (Predictions.minConfidence f) 0) as [|_]; [now left|right].
    rewrite truthy_number, Hread in Hconf by assumption. now apply Qle_bool_iff.
  - destruct (Predictions.stat f); [now left|right].
    now apply String.eqb_eq in Hstat.
  - destruct (Predictions.team f); [now left|right].
    apply orb_true_iff in Hteam as [H|H]; apply String.eqb_eq in H; tauto.
  - destruct (Predictions.player f); [now left|now right].
Qed.

(** X12.  The response names the page and the limit of the filters; a
    page of 0 is not sent and comes back as 1, a limit of 0 is not sent
    and comes back as the 10 of the handler. *)
Theorem hook_page_and_limit (all : list PredictionData)
    (f : Predictions.FilterOptions) (r : PredictionsResponse) :
  readsNumbers ->
  isSafeInteger (Predictions.page f) = true ->
  isSafeInteger (Predictions.limit f) = true ->
  listBody (GET all (Predictions.queryParams f)) = Some r ->
  page r = Some (if Predictions.page f =? 0 then 1 else Predictions.page f) /\
  limit r = Some (if Predictions.limit f =? 0 then 10 else Predictions.limit f).
Proof.
  intros Hread Hpg Hlim Hr. apply GET_listBody in Hr as (_ & fl & _ & ->).
  unfold paginate. cbn [page limit].
  destruct (get_queryParams f) as (_ & _ & _ & _ & _ & _ & _ & _ & _ & -> & ->).
  unfold orElse.
  split.
  - destruct (Predictions.page f =? 0).
    + now apply (Hread 1).
    + now rewrite truthy_number, Hread.
  - destruct (Predictions.limit f =? 0).
    + now apply (Hread 10).
    + now rewrite truthy_number, Hread.
Qed.

(** X13.  Going to another page, or choosing another sort, never changes
    which records match: the filter step of the handler gives the same
    result for the new query.  A new sort goes back to page 1. *)
Theorem paging_keeps_matches (all : list PredictionData)
    (f : Predictions.FilterOptions) (newPage : Z) (value : string) :
  filterPredictions (Predictions.queryParams (PredictionsPage.handlePageChange f newPage))
    all = filterPredictions (Predictions.queryParams f) all /\
  filterPredictions (Predictions.queryParams (PredictionsPage.handleSortChange f value))
    all = filterPredictions (Predictions.queryParams f) all /\
  Predictions.page (PredictionsPage.handlePageChange f newPage) = newPage /\
  Predictions.page (PredictionsPage.handleSortChange f value) = 1.
Proof.
  assert (H : forall f',
    Predictions.sport f' = Predictions.sport f ->
    Predictions.date f' = Predictions.date f ->
    Predictions.minConfidence f' = Predictions.minConfidence f ->
    Predictions.stat f' = Predictions.stat f ->
    Predictions.team f' = Predictions.team f ->
    Predictions.player f' = Predictions.player f ->
    filterPredictions (Predictions.queryParams f') all =
    filterPredictions (Predictions.queryParams f) all).
  { intros f' H1 H2 H3 H4 H5 H6. apply filterPredictions_ext. intros k Hk.
    destruct (get_queryParams f) as (_ & E1 & E2 & E3 & E4 & E5 & E6 & _).
    destruct (get_queryParams f') as (_ & E1' & E2' & E3' & E4' & E5' & E6' & _).
    simpl in Hk. decompose [or] Hk; subst; try contradiction;
      rewrite ?E1, ?E2, ?E3, ?E4, ?E5, ?E6, ?E1', ?E2', ?E3', ?E4', ?E5', ?E6',
        ?H1, ?H2, ?H3, ?H4, ?H5, ?H6; reflexivity. }
  unfold PredictionsPage.handleSortChange. destruct (PredictionsPage.sortOf value).
  repeat split; try apply H; reflexivity.
Qed.
End HookAndHandler.

Lemma hook_records_match_filters_witness :
  exists r,
    listBody (GET mockPredictions (Predictions.queryParams nbaFilters)) = Some r /\
    let p := nth 0 (predictions r) lateGame in
    In p mockPredictions /\
    sport p = "NBA" /\
    sameUtcDate (gameTime p) "2025-03-22" = true /\
    (70 <= confidence p)%Q.
Proof.
  evaluated H. intros p.
  match type of H with
  | _ = Some ?r => assert (Hp : In p (predictions r)) by (left; reflexivity)
  end.
  destruct (hook_records_match_filters mockPredictions nbaFilters _ p
              asciiRuntime_readsNumbers eq_refl H Hp)
    as (Hall & Hs & Hd & Hc & _).
  split; [exact Hall|].
  split; [destruct Hs as [Hs|Hs]; [discriminate Hs|exact Hs]|].
  split; [destruct Hd as [Hd|Hd]; [discriminate Hd|exact Hd]|].
  destruct Hc as [Hc|Hc]; [discriminate Hc|exact Hc].
Defined.

Lemma hook_page_and_limit_witness :
  exists r,
    listBody (GET mockPredictions (Predictions.queryParams nbaFilters)) = Some r /\
    page r = Some 1 /\ limit r = Some 6.
Proof.
  evaluated H.
  apply (hook_page_and_limit mockPredictions nbaFilters _ asciiRuntime_readsNumbers
           eq_refl eq_refl H).
Defined.

Module PageFacts2.
Import PredictionsPage.

Lemma pageButtons_consecutive (page totalPages : Z) :
  let first :=
    if totalPages <=? 5 then 1
    else if page <=? 3 then 1
    else if totalPages - 2 <=? page then totalPages - 4
    else page - 2 in
  pageButtons page totalPages =
  map (fun i => first + Z.of_nat i) (seq 0 (Z.to_nat (Z.min 5 totalPages))).
Proof.
  intros first. unfold pageButtons. apply map_ext. intros i.
  unfold pageNum, first.
  destruct (totalPages <=? 5); [lia|].
  destruct (page <=? 3); [lia|].
  destruct (totalPages - 2 <=? page); reflexivity.
Qed.

Lemma In_consecutive (first : Z) (n : nat) (b : Z) :
  In b (map (fun i => first + Z.of_nat i) (seq 0 n)) <->
  first <= b < first + Z.of_nat n.
Proof.
  rewrite in_map_iff. split.
  - intros (i & <- & Hi). apply in_seq in Hi. lia.
  - intros H. exists (Z.to_nat (b - first)). split; [lia|]. apply in_seq. lia.
Qed.
End PageFacts2.

Import PageFacts2.

(** X14.  The pager shows at most five page buttons.  For a current page
    between 1 and totalPages their numbers are consecutive, all between 1
    and totalPages, and the current page is one of them. *)
Theorem page_buttons_window (page totalPages : Z) :
  1 <= page <= totalPages ->
  exists first,
    PredictionsPage.pageButtons page totalPages =
    map (fun i => first + Z.of_nat i) (seq 0 (Z.to_nat (Z.min 5 totalPages))) /\
    1 <= first /\
    first + Z.min 5 totalPages - 1 <= totalPages /\
    In page (PredictionsPage.pageButtons page totalPages).
Proof.
  intros H. pose proof (pageButtons_consecutive page totalPages) as E. cbv zeta in E.
  eexists. split; [exact E|]. rewrite E, In_consecutive.
  destruct (Z.leb_spec totalPages 5); [lia|].
  destruct (Z.leb_spec page 3); [lia|].
  destruct (Z.leb_spec (totalPages - 2) page); lia.
Qed.

(** X15.  Whatever the current page is, the last page can be reached
    from the pager in exactly one way: its number is on one of the page
    buttons exactly when the separate button of the last page is not
    shown. *)
Theorem last_page_reachable_once (page totalPages : Z) :
  1 <= totalPages ->
  In totalPages (PredictionsPage.pageButtons page totalPages) <->
  PredictionsPage.showLastPage page totalPages = false.
Proof.
  intros H. pose proof (pageButtons_consecutive page totalPages) as E. cbv zeta in E.
  rewrite E, In_consecutive. unfold PredictionsPage.showLastPage.
  rewrite andb_false_iff, !Z.ltb_ge.
  destruct (Z.leb_spec totalPages 5); [lia|].
  destruct (Z.leb_spec page 3); [lia|].
  destruct (Z.leb_spec (totalPages - 2) page); lia.
Qed.

(** X16.  The select and the sort it stands for: a value of the select
    is shown again after it has been chosen, and any other value shows as
    the first one; whatever the value, the sort that is sent is one the
    handler knows, so the handler never falls back, and the page is 1. *)
Theorem sort_select_round_trip (f : Predictions.FilterOptions) (value : string) :
  PredictionsPage.selectValue (PredictionsPage.handleSortChange f value) =
    (if oneOf PredictionsPage.options value then value else "confidence_high_to_low") /\
  In (Predictions.sortBy (PredictionsPage.handleSortChange f value)) sortFields /\
  In (Predictions.sortOrder (PredictionsPage.handleSortChange f value)) ["asc"; "desc"] /\
  Predictions.page (PredictionsPage.handleSortChange f value) = 1.
Proof.
  unfold PredictionsPage.handleSortChange, PredictionsPage.sortOf, oneOf,
    PredictionsPage.options.
  cbn [existsb].
  repeat match goal with
         | |- context [String.eqb value ?s] =>
             destruct (String.eqb_spec value s) as [->|?]
         end; simpl; tauto.
Qed.

(** X17.  The text "Showing from to of total" counts the predictions on
    the page: when the response has predictions, for a page and a limit of
    at least 1, to - from + 1 is their number. *)
Theorem showing_counts_the_page {rt : Runtime} (all : list PredictionData)
    (q : URLSearchParams) (r : PredictionsResponse) (pg lim : Z) :
  listBody (GET all q) = Some r ->
  page r = Some pg -> limit r = Some lim ->
  1 <= pg -> 1 <= lim ->
  predictions r <> [] ->
  PredictionsPage.showingTo pg lim (total r) - PredictionsPage.showingFrom pg lim + 1 =
  Z.of_nat (length (predictions r)).
Proof.
  intros Hr Hp Hl Hpg Hlim Hne. apply GET_listBody in Hr as (_ & fl & _ & ->).
  unfold paginate in *. cbn [page limit predictions total] in *.
  rewrite Hp, Hl in *. cbn [lift2] in *.
  rewrite slice_take_drop in * by nia.
  unfold PredictionsPage.showingTo, PredictionsPage.showingFrom.
  rewrite length_take, length_drop.
  replace (pg * lim) with ((pg - 1) * lim + lim) in * by lia.
  assert (0 <= (pg - 1) * lim) by nia.
  set (a := (pg - 1) * lim) in *.
  destruct (Z_le_gt_dec (Z.of_nat (length (sortPredictions q fl))) a).
  - exfalso. apply Hne. rewrite drop_ge by lia. apply take_nil.
  - lia.
Qed.

Section HookStates.
Context {rt : Runtime}.

(** X18.  Nothing clears the error of the hook: once a fetch has failed,
    the error stays through every later change of the filters, reset and
    fetch, also a fetch that succeeds. *)
Theorem error_is_never_cleared (all : list PredictionData) (st st' : Predictions.State) :
  Predictions.steps all st st' ->
  Predictions.error st <> None ->
  Predictions.error st' <> None.
Proof.
  induction 1 as [st|st st' st'' _ IH Hstep]; intros He; [assumption|].
  specialize (IH He). destruct Hstep; try exact IH.
  unfold Predictions.fetchPredictionsData.
  destruct (GET all _) as [[[| | ] b]|e]; try discriminate.
  destruct p as [p|p|]; try discriminate.
  repeat (destruct p as [p|p|]; try discriminate). exact IH.
Qed.

(** X19.  A fetch of the hook fails only through the date: with no date
    in the filters the response is ok and of the list operation, the hook
    takes its body as the new data and leaves the error as it was. *)
Theorem fetch_without_date_succeeds (all : list PredictionData) (st : Predictions.State) :
  Predictions.date (Predictions.filters st) = "" ->
  exists r,
    listBody (GET all (Predictions.queryParams (Predictions.filters st))) = Some r /\
    Predictions.predictionsData (Predictions.fetchPredictionsData all st) =
      Some (PredictionsJson r) /\
    Predictions.error (Predictions.fetchPredictionsData all st) = Predictions.error st /\
    Predictions.loading (Predictions.fetchPredictionsData all st) = false.
Proof.
  intros Hd. unfold Predictions.fetchPredictionsData.
  destruct (get_queryParams (Predictions.filters st)) as (He & _ & Hdate & _).
  rewrite Hd in Hdate.
  rewrite (GET_predictions all _ He).
  rewrite filterPredictions_stages. unfold dateStage. rewrite Hdate.
  cbn [truthy]. rewrite !bind_Ok. cbn [json]. eexists. repeat split.
Qed.
End HookStates.

Module PanelFacts.
Import FilterPanel.

Lemma fold_lower_le (ids : list string) (m : Z) :
  List.fold_left lower ids m <= m.
Proof.
  revert m. induction ids as [|id ids IH]; intros m; simpl; [lia|].
  specialize (IH (lower m id)). unfold lower in *.
  destruct (confidenceLevels id) as [c|]; [|exact IH].
  destruct (Z.ltb_spec c m); lia.
Qed.

Lemma fold_lower_bound (ids : list string) (m : Z) (id : string) (c : Z) :
  In id ids -> confidenceLevels id = Some c -> List.fold_left lower ids m <= c.
Proof.
  revert m. induction ids as [|id' ids IH]; intros m Hin Hc; simpl; [destruct Hin|].
  destruct Hin as [->|Hin]; [|now apply IH].
  pose proof (fold_lower_le ids (lower m id)) as H.
  assert (lower m id <= c) by (unfold lower; rewrite Hc; destruct (Z.ltb_spec c m); lia).
  lia.
Qed.

Lemma fold_lower_attained (ids : list string) (m : Z) :
  List.fold_left lower ids m = m \/
  exists id, In id ids /\ confidenceLevels id = Some (List.fold_left lower ids m).
Proof.
  revert m. induction ids as [|id ids IH]; intros m; simpl; [now left|].
  destruct (IH (lower m id)) as [E|(id' & Hin & Hc)].
  - rewrite E. unfold lower. destruct (confidenceLevels id) as [c|] eqn:Hc; [|now left].
    destruct (Z.ltb_spec c m); [|now left].
    right. exists id. split; [now left|]. rewrite Hc. reflexivity.
  - right. exists id'. split; [now right|assumption].
Qed.

Lemma confidenceLevels_range (id : string) (c : Z) :
  confidenceLevels id = Some c -> 0 <= c <= 90.
Proof.
  unfold confidenceLevels.
  repeat match goal with
         | |- context [String.eqb id ?s] => destruct (String.eqb id s)
         end; intros H; try discriminate; injection H as <-; lia.
Qed.
End PanelFacts.

Import PanelFacts.

(** X20.  The minimal confidence the panel sets is the lowest threshold
    among the checked boxes: 0 when no box is checked; otherwise at most
    the threshold of every checked box, and either the threshold of a
    checked box or, when no checked box has one, 100.  It is always
    between 0 and 100, and the filters go back to page 1. *)
Theorem lowest_checked_threshold (f : Predictions.FilterOptions)
    (checkedValues : list string) :
  let f' := FilterPanel.handleConfidenceChange f checkedValues in
  let m := Predictions.minConfidence f' in
  (checkedValues = [] -> m = 0) /\
  (forall id c, In id checkedValues -> FilterPanel.confidenceLevels id = Some c -> m <= c) /\
  (checkedValues <> [] ->
   m = 100 \/ exists id, In id checkedValues /\ FilterPanel.confidenceLevels id = Some m) /\
  0 <= m <= 100 /\
  Predictions.page f' = 1.
Proof.
  cbn zeta. unfold FilterPanel.handleConfidenceChange, Predictions.updateFilters.
  cbn [Predictions.Partial.page Predictions.withPage Predictions.spread
       Predictions.minConfidence Predictions.Partial.minConfidence default
       Predictions.page].
  unfold FilterPanel.lowestChecked. cbv [Datatypes.id].
  destruct checkedValues as [|id ids].
  - split; [reflexivity|]. split; [intros ? ? []|].
    split; [intros H; contradiction|]. split; [simpl; lia|reflexivity].
  - cbn [length Nat.eqb]. set (l := id :: ids).
    pose proof (fold_lower_le l 100) as Hle.
    pose proof (fold_lower_attained l 100) as Hat.
    split; [discriminate|].
    split; [intros id' c Hin Hc; now apply (fold_lower_bound l 100 id')|].
    split; [intros _; exact Hat|].
    split; [|reflexivity].
    destruct Hat as [->|(id' & _ & Hc)]; [lia|].
    apply confidenceLevels_range in Hc. lia.
Qed.

(** X21.  The boxes the panel checks at first do not give the minimal
    confidence back: computing the lowest checked threshold from them gives
    50 for every minimal confidence from 50 on, and 0 below; it gives the
    minimal confidence itself only for 0 and for 50. *)
Theorem default_boxes_round_trip (f : Predictions.FilterOptions) :
  let m := Predictions.minConfidence f in
  FilterPanel.lowestChecked (FilterPanel.checkedByDefault f) =
    (if 50 <=? m then 50 else 0) /\
  (FilterPanel.lowestChecked (FilterPanel.checkedByDefault f) = m <-> m = 0 \/ m = 50).
Proof.
  cbn zeta.
  assert (E : FilterPanel.lowestChecked (FilterPanel.checkedByDefault f) =
              if 50 <=? Predictions.minConfidence f then 50 else 0).
  { unfold FilterPanel.checkedByDefault, FilterPanel.boxes, FilterPanel.defaultChecked.
    cbn [List.filter String.eqb Ascii.eqb Bool.eqb andb].
    destruct (Z.eqb_spec (Predictions.minConfidence f) 0) as [->|Hz]; [reflexivity|].
    cbn [orb].
    destruct (Z.leb_spec 90 (Predictions.minConfidence f)),
      (Z.leb_spec 80 (Predictions.minConfidence f)),
      (Z.leb_spec 65 (Predictions.minConfidence f)),
      (Z.leb_spec 50 (Predictions.minConfidence f)); try lia; reflexivity. }
  split; [exact E|]. rewrite E.
  destruct (Z.leb_spec 50 (Predictions.minConfidence f)); lia.
Qed.

Section PerformanceHook.
Context {rt : Runtime}.

(** X22.  In every state the performance hook can reach, a custom date
    range goes with the period custom: a query that has a start and an end
    date has period=custom. *)
Theorem custom_range_has_custom_period (all : list PredictionData)
    (st : Performance.State) :
  Performance.steps all Performance.initialState st ->
  (Performance.customDateRange st <> None -> Performance.timePeriod st = "custom") /\
  (get "startDate" (Performance.queryParams st) <> None ->
   get "period" (Performance.queryParams st) = Some "custom").
Proof.
  intros H.
  assert (Hinv : Performance.customDateRange st <> None ->
                 Performance.timePeriod st = "custom").
  { remember Performance.initialState as st0 eqn:E.
    induction H as [st|st st' st'' _ IH Hstep]; [subst; simpl; congruence|].
    specialize (IH E). destruct Hstep; simpl; try congruence.
    unfold Performance.fetchPerformanceData.
    destruct (GET all _) as [[[| | ] b]|e]; try exact IH.
    destruct p as [p|p|]; try exact IH.
    repeat (destruct p as [p|p|]; try exact IH). }
  split; [exact Hinv|].
  unfold Performance.queryParams.
  destruct (Performance.customDateRange st) as [[start stop]|].
  - rewrite (Hinv ltac:(discriminate)). intros _. reflexivity.
  - destruct (String.eqb (Performance.timePeriod st) ""); simpl; congruence.
Qed.

(** X23.  The period and the date range have no effect on the answer:
    whatever the state of the performance hook is, its request is answered
    200 with the one performance object, so the fetch never fails and
    leaves the error as it was. *)
Theorem performance_ignores_period (all : list PredictionData) (st : Performance.State) :
  GET all (Performance.queryParams st) = Ok (json PerformanceJson) /\
  Performance.performanceData (Performance.fetchPerformanceData all st) =
    Some PerformanceJson /\
  Performance.error (Performance.fetchPerformanceData all st) = Performance.error st.
Proof.
  assert (E : GET all (Performance.queryParams st) = Ok (json PerformanceJson)).
  { unfold GET, Performance.queryParams.
    destruct (String.eqb (Performance.timePeriod st) "");
      destruct (Performance.customDateRange st) as [[start stop]|]; reflexivity. }
  split; [exact E|]. unfold Performance.fetchPerformanceData. rewrite E.
  split; reflexivity.
Qed.
End PerformanceHook.

Lemma page_buttons_window_witness :
  exists first,
    PredictionsPage.pageButtons 7 10 =
    map (fun i => first + Z.of_nat i) (seq 0 (Z.to_nat (Z.min 5 10))) /\
    1 <= first /\
    first + Z.min 5 10 - 1 <= 10 /\
    In 7 (PredictionsPage.pageButtons 7 10).
Proof. apply (page_buttons_window 7 10). lia. Defined.

Lemma last_page_reachable_once_witness :
  In 10 (PredictionsPage.pageButtons 9 10) <->
  PredictionsPage.showLastPage 9 10 = false.
Proof. apply (last_page_reachable_once 9 10). lia. Defined.

Lemma showing_counts_the_page_witness :
  exists r,
    listBody (GET mockPredictions (withParam "page" "3" fivePerPage)) = Some r /\
    PredictionsPage.showingTo 3 5 (total r) - PredictionsPage.showingFrom 3 5 + 1 =
    Z.of_nat (length (predictions r)).
Proof.
  evaluated H.
  apply (showing_counts_the_page mockPredictions (withParam "page" "3" fivePerPage) _ 3 5 H);
    [reflexivity|reflexivity|lia|lia|discriminate].
Defined.

Lemma error_is_never_cleared_witness :
  Predictions.error
    (Predictions.fetchPredictionsData mockPredictions
       (Predictions.setFilters Predictions.resetFilters failedFetch)) <> None.
Proof.
  apply (error_is_never_cleared mockPredictions failedFetch).
  - eapply Predictions.steps_step;
      [eapply Predictions.steps_step; [apply Predictions.steps_refl|]|].
    + apply Predictions.step_reset.
    + apply Predictions.step_fetch.
  - vm_compute. discriminate.
Defined.

Lemma fetch_without_date_succeeds_witness :
  exists r,
    listBody (GET mockPredictions
                (Predictions.queryParams (Predictions.filters Predictions.initialState)))
      = Some r /\
    Predictions.predictionsData
      (Predictions.fetchPredictionsData mockPredictions Predictions.initialState) =
      Some (PredictionsJson r) /\
    Predictions.error
      (Predictions.fetchPredictionsData mockPredictions Predictions.initialState) =
      Predictions.error Predictions.initialState /\
    Predictions.loading
      (Predictions.fetchPredictionsData mockPredictions Predictions.initialState) = false.
Proof.
  apply (fetch_without_date_succeeds mockPredictions Predictions.initialState).
  reflexivity.
Defined.

Lemma custom_range_has_custom_period_witness :
  let st := Performance.updateCustomDateRange "2025-03-01" "2025-03-22"
              Performance.initialState in
  Performance.timePeriod st = "custom" /\
  get "period" (Performance.queryParams st) = Some "custom".
Proof.
  intros st.
  destruct (custom_range_has_custom_period mockPredictions st) as [H1 H2].
  - eapply Performance.steps_step; [apply Performance.steps_refl|].
    apply Performance.step_range.
  - split; [apply H1|apply H2]; vm_compute; discriminate.
Defined.

Module DashboardFacts.
Import Dashboard.

Section DashboardFacts.
Context {rt : Runtime} {lt : LocalTime}.
Variable clock : nat -> Z.

Lemma filterC_sublist {A : Type} (f : A -> C bool) (l : list A) :
  forall k r k', filterC f l k = (Ok r, k') ->
    sublist r l /\ Forall (fun x => exists j j', f x j = (Ok true, j')) r.
Proof.
  induction l as [|x l IH]; intros k r k' H.
  - injection H as <- <-. split; constructor.
  - cbn [filterC] in H. unfold mbind, C_bind in H.
    destruct (f x k) as [[b|e] k1] eqn:Ef; [|discriminate].
    destruct (filterC f l k1) as [[r1|e] k2] eqn:Er; [|discriminate].
    injection H as <- <-. destruct (IH _ _ _ Er) as [Hs HF].
    destruct b.
    + split; [now constructor|]. constructor; [now exists k, k1|exact HF].
    + split; [now constructor|exact HF].
Qed.

Lemma filterC_ext {A : Type} (f g : A -> C bool) (l : list A) :
  Forall (fun x => forall k, f x k = g x k) l ->
  forall k, filterC f l k = filterC g l k.
Proof.
  induction 1 as [|x l Hx _ IH]; intros k; [reflexivity|].
  cbn [filterC]. unfold mbind, C_bind. rewrite Hx.
  destruct (g x k) as [[b|e] k1]; [|reflexivity].
  now rewrite IH.
Qed.

Lemma shown_sport (activeSport : option string) (tf cf s : string)
    (p : PredictionData) (j j' : nat) :
  truthy activeSport = Some s ->
  shown clock activeSport tf cf p j = (Ok true, j') -> sport p = s.
Proof.
  intros Hs H. unfold shown in H. rewrite Hs in H.
  destruct (String.eqb_spec (sport p) s) as [E|E]; [exact E|].
  cbn in H. discriminate.
Qed.

Lemma shown_confident (activeSport : option string) (tf cf : string)
    (p : PredictionData) (k : nat) :
  Qle_bool 80 (confidence p) = true ->
  shown clock activeSport tf "high" p k = shown clock activeSport tf cf p k.
Proof.
  intros H. unfold shown. rewrite H. cbn [negb]. now rewrite !andb_false_r.
Qed.
End DashboardFacts.

Lemma featured_confident (all : list PredictionData) :
  Forall (fun p => Qle_bool 80 (confidence p) = true) (featuredPredictions (summary all)).
Proof.
  apply Forall_forall. intros p Hp. apply list_elem_of_In in Hp.
  cbn [summary featuredPredictions] in Hp.
  apply slice_In in Hp.
  apply (Permutation_in _ (sort_Permutation _ _)) in Hp.
  now apply filter_In in Hp.
Qed.

Lemma fetch_summaryData {rt : Runtime} (all : list PredictionData) (st : State) :
  summaryData (fetchDashboardData all st) = Some (summary all).
Proof. reflexivity. Qed.
End DashboardFacts.

Import DashboardFacts.

Section DashboardProperties.
Context {rt : Runtime} {lt : LocalTime}.
Variable clock : nat -> Z.

(** X24.  When the filter of the dashboard returns, whatever the clock
    and the time zone, the predictions it shows are featured predictions
    of the summary, in the order of the summary; with a sport selected
    they all have this sport; and with no summary loaded nothing is
    shown. *)
Theorem dashboard_shows_featured_only (sd : option SummaryData)
    (activeSport : option string) (activeTimeFrame activeConfidence : string)
    (k k' : nat) (l : list PredictionData) :
  Dashboard.filteredPredictions clock sd activeSport activeTimeFrame activeConfidence k
    = (Ok l, k') ->
  sublist l (match sd with Some s => featuredPredictions s | None => [] end) /\
  (forall s, truthy activeSport = Some s -> Forall (fun p => sport p = s) l) /\
  (sd = None -> l = []).
Proof.
  intros H. destruct sd as [s|]; cbn [Dashboard.filteredPredictions] in H.
  - destruct (filterC_sublist _ _ _ _ _ H) as [Hs HF]. split; [exact Hs|].
    split; [|discriminate]. intros s' Hsp.
    eapply Forall_impl; [exact HF|]. cbn beta. intros p (j & j' & Hp).
    eapply shown_sport; eassumption.
  - injection H as <- <-. split; [constructor|]. split; [|reflexivity].
    intros; constructor.
Qed.

(** X25.  On the summary the hook fetches from the handler, the
    confidence selection changes nothing: every featured prediction has
    a confidence of at least 80, so the selection high shows, and reads
    the clock, exactly as any other selection does. *)
Theorem dashboard_high_is_all (all : list PredictionData) (st : Dashboard.State)
    (activeSport : option string) (activeTimeFrame activeConfidence : string)
    (k : nat) :
  let sd := Dashboard.summaryData (Dashboard.fetchDashboardData all st) in
  Dashboard.filteredPredictions clock sd activeSport activeTimeFrame "high" k =
  Dashboard.filteredPredictions clock sd activeSport activeTimeFrame activeConfidence k.
Proof.
  cbv zeta. rewrite fetch_summaryData. cbn [Dashboard.filteredPredictions].
  apply filterC_ext. eapply Forall_impl; [apply featured_confident|].
  cbn beta. intros p Hp j. now apply shown_confident.
Qed.
End DashboardProperties.

Lemma dashboard_shows_featured_only_witness :
  exists l k',
    Dashboard.filteredPredictions (lt := utcLocalTime) midnight
      (Some (summary mockPredictions)) (Some "NBA") "tomorrow" "high" 0%nat = (Ok l, k') /\
    sublist l (featuredPredictions (summary mockPredictions)) /\
    Forall (fun p => sport p = "NBA") l /\
    map id l = ["3"].
Proof.
  match goal with
  | |- exists l k', ?b = _ /\ _ =>
      let v := eval vm_compute in b in
      match v with
      | (Ok ?l, ?k) =>
          exists l, k; assert (H : b = (Ok l, k)) by (vm_compute; reflexivity)
      end
  end.
  split; [exact H|].
  destruct (dashboard_shows_featured_only (lt := utcLocalTime) midnight _ _ _ _ _ _ _ H)
    as (Hs & Hf & _).
  split; [exact Hs|]. split; [exact (Hf "NBA" eq_refl)|reflexivity].
Defined.
